(** * PassWeaver / Vaulted API: users controller, authorization module, start-up

    A shallow embedding of
      - [src/auth.mjs]                  (createToken, validateJWT, isAdmin),
      - [api/v1/controllers/users.mjs]  (get, list, getGroups, create, update,
                                         remove, setPersonalSecret,
                                         personalFolderLogin),
      - [api/v1/controllers/util.mjs]   (generatePassword, stats),
      - [api/v1/routes/util.mjs]        (the router of the util controller),
      - the start-up script [passweaver-api.mjs],
    over the tables of the Prisma schema.  A handler is a function from a
    request and a world (database, clock, id supply, outages of the
    store, audit sink) to an outcome and a new world; a JavaScript
    exception is an error value that leaves in place every write
    committed before it.

    The file has three parts: the embedding of the sources and of the
    libraries they call; the vocabulary in which the properties are
    stated, with a small concrete installation to run the handlers on;
    the lemmas and theorems. *)

From stdpp Require Import base option list strings gmap sorting.
From Stdlib Require Import ZArith Lia.

Local Open Scope string_scope.
Set Warnings "-register-all".

(* ===================================================================== *)
(** * JavaScript values *)
(* ===================================================================== *)

Module Js.

(** A value as [JSON.parse] and the handlers produce it.  [JDate] is a
    [Date] (milliseconds since the epoch), [JObj] an object. *)
Inductive JVal : Type :=
| JNull
| JBool (b : bool)
| JNum (n : Z)
| JStr (s : string)
| JDate (ms : Z)
| JArr (l : list JVal)
| JObj (o : gmap string JVal).

(** [undefined] is the absence of a value: a property read is an
    [option JVal]. *)
Definition truthy (v : option JVal) : bool :=
  match v with
  | None => false
  | Some JNull => false
  | Some (JBool b) => b
  | Some (JNum n) => negb (n =? 0)%Z
  | Some (JStr s) => negb (String.eqb s "")
  | Some (JDate _) => true
  | Some (JArr _) => true
  | Some (JObj _) => true
  end.

(** [a ?? d] *)
Definition nullish (a : option JVal) (d : JVal) : JVal :=
  match a with
  | None => d
  | Some JNull => d
  | Some v => v
  end.

(** [o.hasOwnProperty(k)], a method call on [o].  The method is found on
    [Object.prototype] unless [o] has an own property named
    "hasOwnProperty"; in a parsed JSON body such a property holds no
    function, and the call throws a TypeError: [None]. *)
Definition hasOwnProperty (o : gmap string JVal) (k : string)
  : option bool :=
  if bool_decide (is_Some (o !! "hasOwnProperty")) then None
  else Some (bool_decide (is_Some (o !! k))).

Definition of_option_string (s : option string) : JVal :=
  match s with Some x => JStr x | None => JNull end.

(** [s.includes(t)] *)
Fixpoint starts_with (t s : string) : bool :=
  match t, s with
  | EmptyString, _ => true
  | String a t', String b s' => if Ascii.eqb a b then starts_with t' s' else false
  | String _ _, EmptyString => false
  end.

Fixpoint includes (s t : string) : bool :=
  starts_with t s ||
  match s with
  | EmptyString => false
  | String _ s' => includes s' t
  end.

End Js.
Export Js.

(* ===================================================================== *)
(** * The [jsonschema] validator, for the schemas of the controller *)
(* ===================================================================== *)

Module JsonSchema.

Inductive JType := TString | TBoolean.

(** A property schema: a type and, optionally, a pattern.  The only
    pattern of the controller is an alternation of literals
    ([/local|ldap/]), kept as the list of its alternatives: the pattern
    matches a string that contains one of them. *)
Record Prop_ := {
  type_ : JType;
  pattern : option (list string)
}.

Record Schema := {
  properties : list (string * Prop_);
  required : list string
}.

Definition has_type (t : JType) (v : JVal) : bool :=
  match t, v with
  | TString, JStr _ => true
  | TBoolean, JBool _ => true
  | _, _ => false
  end.

Definition matches (alts : list string) (v : JVal) : bool :=
  match v with
  | JStr s => existsb (includes s) alts
  | _ => true
  end.

Definition valid_prop (p : Prop_) (v : JVal) : bool :=
  has_type (type_ p) v &&
  match pattern p with
  | Some alts => matches alts v
  | None => true
  end.

(** [jsonschema.validate(instance, schema).valid] for an object
    instance: every declared property that is present validates, and
    every required property is present. *)
Definition valid (instance : gmap string JVal) (s : Schema) : bool :=
  forallb (fun kp => match instance !! kp.1 with
                     | Some v => valid_prop kp.2 v
                     | None => true
                     end) (properties s)
  && forallb (fun k => bool_decide (is_Some (instance !! k))) (required s).

Definition str : Prop_ := {| type_ := TString; pattern := None |}.
Definition boolean : Prop_ := {| type_ := TBoolean; pattern := None |}.

End JsonSchema.

(* ===================================================================== *)
(** * The tables of the Prisma schema *)
(* ===================================================================== *)

(** One module per [model] of the schema, one record field per column
    ([String?] is an [option string], [DateTime] milliseconds since the
    epoch).  The implicit many-to-many relation between [Users] and
    [Folders] ([relUsers] / [Folders]) has a join table of its own that no
    handler writes; it is left out. *)

Module Folders.
Record row := {
  id : string;
  parent : option string;
  description : string;
  personal : bool;
  user : option string;
  createdat : Z;
  updatedat : Z
}.
End Folders.

Module Groups.
Record row := {
  id : string;
  description : string;
  parent : option string;
  createdat : Z;
  updatedat : Z
}.
End Groups.

Module Users.
Record row := {
  id : string;
  login : string;
  lastname : string;
  firstname : option string;
  authmethod : string;
  locale : string;
  email : string;
  secret : string;
  secretexpiresat : Z;
  personalsecret : option string;
  active : bool;
  createdat : Z;
  updatedat : Z
}.
End Users.

Module UsersGroups.
Record row := {
  id : string;
  user : string;
  group : string;
  createdat : Z;
  updatedat : Z
}.
End UsersGroups.

Module FolderGroupPermission.
Record row := {
  id : string;
  folder : string;
  group : string;
  read : bool;
  write : bool;
  createdat : Z;
  updatedat : Z
}.
End FolderGroupPermission.

Module Items.
Record row := {
  id : string;
  folder : string;
  personal : bool;
  title : string;
  data : string;
  dataiv : string;
  dataauthtag : string;
  metadata : option string;
  createdat : Z;
  updatedat : Z;
  accessedat : option Z
}.
End Items.

(** The database: every table is the list of its rows, in insertion
    order. *)
Record Store := {
  folders : list Folders.row;
  groups : list Groups.row;
  users : list Users.row;
  usersGroups : list UsersGroups.row;
  folderGroupPermission : list FolderGroupPermission.row;
  items : list Items.row
}.

Definition with_folders (s : Store) (t : list Folders.row) : Store :=
  {| folders := t; groups := groups s; users := users s;
     usersGroups := usersGroups s;
     folderGroupPermission := folderGroupPermission s; items := items s |}.

Definition with_users (s : Store) (t : list Users.row) : Store :=
  {| folders := folders s; groups := groups s; users := t;
     usersGroups := usersGroups s;
     folderGroupPermission := folderGroupPermission s; items := items s |}.

Definition with_usersGroups (s : Store) (t : list UsersGroups.row) : Store :=
  {| folders := folders s; groups := groups s; users := users s;
     usersGroups := t;
     folderGroupPermission := folderGroupPermission s; items := items s |}.

Definition with_items (s : Store) (t : list Items.row) : Store :=
  {| folders := folders s; groups := groups s; users := users s;
     usersGroups := usersGroups s;
     folderGroupPermission := folderGroupPermission s; items := t |}.

(* ===================================================================== *)
(** * Exceptions *)
(* ===================================================================== *)

Inductive Error : Type :=
| PrismaClientValidationError        (* a missing or ill-typed argument *)
| UniqueConstraintFailed             (* P2002 *)
| ForeignKeyConstraintFailed         (* P2003 *)
| RecordNotFound                     (* P2025 *)
| StoreUnavailable                   (* the database cannot be reached *)
| TypeError                          (* property read on undefined *)
| JsonWebTokenError (message : string)
| TokenExpiredError
| SignError (message : string)       (* plain Error thrown by jsonwebtoken.sign *)
| CryptError.                        (* thrown by src/crypt.mjs *)

(** [err.name] *)
Definition name (e : Error) : string :=
  match e with
  | PrismaClientValidationError => "PrismaClientValidationError"
  | UniqueConstraintFailed | ForeignKeyConstraintFailed | RecordNotFound =>
      "PrismaClientKnownRequestError"
  | StoreUnavailable => "PrismaClientInitializationError"
  | TypeError => "TypeError"
  | JsonWebTokenError _ => "JsonWebTokenError"
  | TokenExpiredError => "TokenExpiredError"
  | SignError _ => "Error"
  | CryptError => "Error"
  end.

(** A computation that returns or throws. *)
Definition Exc (A : Type) : Type := Error + A.

#[global] Instance Exc_ret : MRet Exc := fun A a => inr a.
#[global] Instance Exc_bind : MBind Exc := fun A B f m =>
  match m with
  | inl e => inl e
  | inr a => f a
  end.

Definition is_ok {A} (m : Exc A) : bool :=
  match m with inr _ => true | inl _ => false end.

(* ===================================================================== *)
(** * The Prisma client: what each call does to the tables *)
(* ===================================================================== *)

(** Prisma is a library, not code of the repository: the calls below follow
    its documented behaviour on the schema above.  A [data] object is
    checked against the column types ([PrismaClientValidationError]); a
    primary key is unique (P2002); a relation ([@relation] in the schema)
    is a foreign key with Prisma's default referential action for a
    required relation, [Restrict], so that a row that is still referenced
    cannot be deleted and a row cannot reference a missing one (P2003);
    [update] and [delete] of a missing row fail (P2025). *)

Module Prisma.

Definition eqs (a b : string) : bool := String.eqb a b.

Definition eqo (a : option string) (b : string) : bool :=
  match a with Some x => String.eqb x b | None => false end.

(** ** Arguments of a [data] object *)

(* column of type String, on create *)
Definition arg_String (v : option JVal) : Exc string :=
  match v with
  | Some (JStr s) => inr s
  | _ => inl PrismaClientValidationError
  end.

(* column of type String?, on create *)
Definition arg_String_opt (v : option JVal) : Exc (option string) :=
  match v with
  | None | Some JNull => inr None
  | Some (JStr s) => inr (Some s)
  | _ => inl PrismaClientValidationError
  end.

(* column of type DateTime, on create *)
Definition arg_DateTime (v : option JVal) : Exc Z :=
  match v with
  | Some (JDate d) => inr d
  | _ => inl PrismaClientValidationError
  end.

(* column of type Boolean with a default, on create *)
Definition arg_Boolean_default (d : bool) (v : option JVal) : Exc bool :=
  match v with
  | None => inr d
  | Some (JBool b) => inr b
  | _ => inl PrismaClientValidationError
  end.

(* on update: an absent key keeps the stored value *)
Definition set_String (v : option JVal) (old : string) : Exc string :=
  match v with
  | None => inr old
  | Some (JStr s) => inr s
  | _ => inl PrismaClientValidationError
  end.

Definition set_String_opt (v : option JVal) (old : option string)
  : Exc (option string) :=
  match v with
  | None => inr old
  | Some JNull => inr None
  | Some (JStr s) => inr (Some s)
  | _ => inl PrismaClientValidationError
  end.

Definition set_DateTime (v : option JVal) (old : Z) : Exc Z :=
  match v with
  | None => inr old
  | Some (JDate d) => inr d
  | _ => inl PrismaClientValidationError
  end.

Definition set_Boolean (v : option JVal) (old : bool) : Exc bool :=
  match v with
  | None => inr old
  | Some (JBool b) => inr b
  | _ => inl PrismaClientValidationError
  end.

(** ** [select]: the chosen columns of a row, as an object *)

Definition select {R} (column : R -> string -> option JVal)
    (cols : list string) (r : R) : gmap string JVal :=
  list_to_map (omap (fun c => pair c <$> column r c) cols).

Definition users_column (u : Users.row) (c : string) : option JVal :=
  if eqs c "id" then Some (JStr (Users.id u))
  else if eqs c "login" then Some (JStr (Users.login u))
  else if eqs c "lastname" then Some (JStr (Users.lastname u))
  else if eqs c "firstname" then Some (of_option_string (Users.firstname u))
  else if eqs c "authmethod" then Some (JStr (Users.authmethod u))
  else if eqs c "locale" then Some (JStr (Users.locale u))
  else if eqs c "email" then Some (JStr (Users.email u))
  else if eqs c "secret" then Some (JStr (Users.secret u))
  else if eqs c "secretexpiresat" then Some (JDate (Users.secretexpiresat u))
  else if eqs c "personalsecret" then Some (of_option_string (Users.personalsecret u))
  else if eqs c "active" then Some (JBool (Users.active u))
  else if eqs c "createdat" then Some (JDate (Users.createdat u))
  else if eqs c "updatedat" then Some (JDate (Users.updatedat u))
  else None.

(** ** users *)

(* prisma.users.findUnique({ where: { id } }) *)
Definition users_findUnique (id : string) (s : Store) : option Users.row :=
  List.find (fun u => eqs (Users.id u) id) (users s).

(* prisma.users.create({ data }) *)
Definition users_create (now : Z) (data : gmap string JVal) (s : Store)
  : Exc Store :=
  id ← arg_String (data !! "id");
  login ← arg_String (data !! "login");
  lastname ← arg_String (data !! "lastname");
  firstname ← arg_String_opt (data !! "firstname");
  authmethod ← arg_String (data !! "authmethod");
  locale ← arg_String (data !! "locale");
  email ← arg_String (data !! "email");
  secret ← arg_String (data !! "secret");
  secretexpiresat ← arg_DateTime (data !! "secretexpiresat");
  personalsecret ← arg_String_opt (data !! "personalsecret");
  active ← arg_Boolean_default true (data !! "active");
  if existsb (fun u => eqs (Users.id u) id) (users s)
  then inl UniqueConstraintFailed
  else inr (with_users s (users s ++ [
    {| Users.id := id; Users.login := login; Users.lastname := lastname;
       Users.firstname := firstname; Users.authmethod := authmethod;
       Users.locale := locale; Users.email := email;
       Users.secret := secret; Users.secretexpiresat := secretexpiresat;
       Users.personalsecret := personalsecret; Users.active := active;
       Users.createdat := now; Users.updatedat := now |} ])).

(* the row after [update({ data })]; [updatedat] is [@updatedAt]: it takes
   the time of the call when [data] sets anything; with an empty [data] no
   UPDATE is sent and the row stays as it is *)
Definition users_apply (now : Z) (data : gmap string JVal) (u : Users.row)
  : Exc Users.row :=
  login ← set_String (data !! "login") (Users.login u);
  lastname ← set_String (data !! "lastname") (Users.lastname u);
  firstname ← set_String_opt (data !! "firstname") (Users.firstname u);
  authmethod ← set_String (data !! "authmethod") (Users.authmethod u);
  locale ← set_String (data !! "locale") (Users.locale u);
  email ← set_String (data !! "email") (Users.email u);
  secret ← set_String (data !! "secret") (Users.secret u);
  secretexpiresat ← set_DateTime (data !! "secretexpiresat") (Users.secretexpiresat u);
  personalsecret ← set_String_opt (data !! "personalsecret") (Users.personalsecret u);
  active ← set_Boolean (data !! "active") (Users.active u);
  inr {| Users.id := Users.id u; Users.login := login;
         Users.lastname := lastname; Users.firstname := firstname;
         Users.authmethod := authmethod; Users.locale := locale;
         Users.email := email; Users.secret := secret;
         Users.secretexpiresat := secretexpiresat;
         Users.personalsecret := personalsecret; Users.active := active;
         Users.createdat := Users.createdat u;
         Users.updatedat := if decide (data = ∅) then Users.updatedat u
                            else now |}.

(* prisma.users.update({ data, where: { id } }) *)
Definition users_update (now : Z) (id : string) (data : gmap string JVal)
    (s : Store) : Exc Store :=
  match users_findUnique id s with
  | None => inl RecordNotFound
  | Some u =>
      u' ← users_apply now data u;
      inr (with_users s
             (map (fun r => if eqs (Users.id r) id then u' else r) (users s)))
  end.

(* prisma.users.delete({ where: { id } }) *)
Definition users_delete (id : string) (s : Store) : Exc Store :=
  match users_findUnique id s with
  | None => inl RecordNotFound
  | Some _ =>
      if existsb (fun m => eqs (UsersGroups.user m) id) (usersGroups s)
      then inl ForeignKeyConstraintFailed
      else inr (with_users s
                  (List.filter (fun u => negb (eqs (Users.id u) id)) (users s)))
  end.

(** ** usersGroups *)

(* prisma.usersGroups.findMany({ where: { group, user } }) *)
Definition usersGroups_findMany (group user : string) (s : Store)
  : list UsersGroups.row :=
  List.filter (fun m => eqs (UsersGroups.group m) group
                        && eqs (UsersGroups.user m) user) (usersGroups s).

(* prisma.usersGroups.create({ data }) *)
Definition usersGroups_create (now : Z) (data : gmap string JVal) (s : Store)
  : Exc Store :=
  id ← arg_String (data !! "id");
  group ← arg_String (data !! "group");
  user ← arg_String (data !! "user");
  if existsb (fun m => eqs (UsersGroups.id m) id) (usersGroups s)
  then inl UniqueConstraintFailed
  else if negb (existsb (fun u => eqs (Users.id u) user) (users s)
                && existsb (fun g => eqs (Groups.id g) group) (groups s))
  then inl ForeignKeyConstraintFailed
  else inr (with_usersGroups s (usersGroups s ++ [
    {| UsersGroups.id := id; UsersGroups.user := user;
       UsersGroups.group := group;
       UsersGroups.createdat := now; UsersGroups.updatedat := now |} ])).

(* prisma.usersGroups.deleteMany({ where: { user } }) *)
Definition usersGroups_deleteMany (user : string) (s : Store) : Exc Store :=
  inr (with_usersGroups s
         (List.filter (fun m => negb (eqs (UsersGroups.user m) user))
                      (usersGroups s))).

(** ** folders *)

(* prisma.folders.findMany({ where: { personal: true, user } }) *)
Definition folders_findMany_personal (user : string) (s : Store)
  : list Folders.row :=
  List.filter (fun f => Folders.personal f && eqo (Folders.user f) user)
              (folders s).

(* prisma.folders.create({ data }) *)
Definition folders_create (now : Z) (data : gmap string JVal) (s : Store)
  : Exc Store :=
  id ← arg_String (data !! "id");
  description ← arg_String (data !! "description");
  parent ← arg_String_opt (data !! "parent");
  personal ← arg_Boolean_default false (data !! "personal");
  user ← arg_String_opt (data !! "user");
  if existsb (fun f => eqs (Folders.id f) id) (folders s)
  then inl UniqueConstraintFailed
  else inr (with_folders s (folders s ++ [
    {| Folders.id := id; Folders.parent := parent;
       Folders.description := description; Folders.personal := personal;
       Folders.user := user;
       Folders.createdat := now; Folders.updatedat := now |} ])).

(* prisma.folders.delete({ where: { id } }) *)
Definition folders_delete (id : string) (s : Store) : Exc Store :=
  if negb (existsb (fun f => eqs (Folders.id f) id) (folders s))
  then inl RecordNotFound
  else if existsb (fun i => eqs (Items.folder i) id) (items s)
          || existsb (fun p => eqs (FolderGroupPermission.folder p) id)
                     (folderGroupPermission s)
  then inl ForeignKeyConstraintFailed
  else inr (with_folders s
              (List.filter (fun f => negb (eqs (Folders.id f) id)) (folders s))).

(** ** items *)

(* prisma.items.deleteMany({ where: { folder } }) *)
Definition items_deleteMany (folder : string) (s : Store) : Exc Store :=
  inr (with_items s
         (List.filter (fun i => negb (eqs (Items.folder i) folder)) (items s))).

End Prisma.

(* ===================================================================== *)
(** * The modules the sources import but do not contain *)
(* ===================================================================== *)

(** [Config.get()] of [src/config.mjs].  A key that is not configured is
    [None]; [jwt_duration] is the token lifetime in seconds. *)
Record Config := {
  master_key : option string;
  jwt_key : option string;
  jwt_duration : Z;
  listen_port : Z;
  log_dir : string
}.

(** [src/config.mjs], [src/crypt.mjs] and [src/id.mjs] are taken as
    parameters: the configuration, the two password functions (either may
    throw) and the id generator, as the sequence of ids it hands out.  So
    is the time zone of the process, in which [new Date(y, m, d, ...)]
    reads its arguments: [Date_getTimezoneOffset] is the offset of that
    zone from UTC in minutes, positive to the west, as
    [getTimezoneOffset()] gives it for the date the controller
    builds. *)
Class Imports := {
  Config_get : Config;
  Crypt_hashPassword : string -> Exc string;
  Crypt_checkPassword : string -> option string -> Exc bool;
  newId_nth : nat -> string;
  Date_getTimezoneOffset : Z
}.

(** Modelled from the spec: [src/action.mjs] is not among the sources; the
    spec describes the audit sink as an append-only, fire-and-forget log of
    who did what.  An entry keeps the four arguments of [actions.log]
    ([None] is [undefined]). *)
Module ActionLog.
Record entry := {
  user : option JVal;
  action : string;
  itemtype : string;
  itemid : option JVal
}.
End ActionLog.

(* ===================================================================== *)
(** * The world a handler runs in *)
(* ===================================================================== *)

Record World := {
  db : Store;                             (* the committed database *)
  pending : list (Store -> Exc Store);    (* writes of the open transaction *)
  clock : Z;                              (* Date.now() *)
  drawn : nat;                            (* ids handed out so far *)
  outages : list bool;                    (* per database round trip: is the store down *)
  audit : list ActionLog.entry
}.

Definition with_db (w : World) (s : Store) : World :=
  {| db := s; pending := pending w; clock := clock w; drawn := drawn w;
     outages := outages w; audit := audit w |}.

Definition with_pending (w : World) (p : list (Store -> Exc Store)) : World :=
  {| db := db w; pending := p; clock := clock w; drawn := drawn w;
     outages := outages w; audit := audit w |}.

Definition with_outages (w : World) (o : list bool) : World :=
  {| db := db w; pending := pending w; clock := clock w; drawn := drawn w;
     outages := o; audit := audit w |}.

Definition with_clock (w : World) (t : Z) : World :=
  {| db := db w; pending := pending w; clock := t; drawn := drawn w;
     outages := outages w; audit := audit w |}.

(** An asynchronous function body: it returns or throws, and in both cases
    hands on the world as it left it. *)
Definition M (A : Type) : Type := World -> Exc A * World.

Definition ret {A} (a : A) : M A := fun w => (inr a, w).

Definition bind {A B} (m : M A) (f : A -> M B) : M B := fun w =>
  match m w with
  | (inl e, w') => (inl e, w')
  | (inr a, w') => f a w'
  end.

Notation "'let*' x ':=' m 'in' k" := (bind m (fun x => k))
  (at level 10, x name, m at level 100, k at level 200).
Notation "m ';;' k" := (bind m (fun _ => k))
  (at level 100, k at level 200, right associativity).

Definition throw {A} (e : Error) : M A := fun w => (inl e, w).

Definition lift {A} (x : Exc A) : M A := fun w => (x, w).

Definition Date_now : M Z := fun w => (inr (clock w), w).

Section WithImports.
Context `{Imports}.

(* newId() *)
Definition newId : M string := fun w =>
  (inr (newId_nth (drawn w)),
   {| db := db w; pending := pending w; clock := clock w;
      drawn := S (drawn w); outages := outages w; audit := audit w |}).

(* actions.log(user, action, itemtype, itemid) *)
Definition actions_log (user : option JVal) (action itemtype : string)
    (itemid : option JVal) : M unit := fun w =>
  (inr tt,
   {| db := db w; pending := pending w; clock := clock w;
      drawn := drawn w; outages := outages w;
      audit := audit w ++ [ {| ActionLog.user := user;
                               ActionLog.action := action;
                               ActionLog.itemtype := itemtype;
                               ActionLog.itemid := itemid |} ] |}).

End WithImports.

(** ** The two clients *)

(** [prisma] is the module-level client: each of its calls is a statement
    of its own, committed as soon as it succeeds.  [tx] is the client that
    [$transaction] passes to its callback: its writes are held back until
    the callback returns, and dropped when it throws. *)
Inductive Client := prisma | tx.

(* one round trip to the database *)
Definition roundtrip : M unit := fun w =>
  let w' := with_outages w (tail (outages w)) in
  match head (outages w) with
  | Some true => (inl StoreUnavailable, w')
  | _ => (inr tt, w')
  end.

Fixpoint replay (p : list (Store -> Exc Store)) (s : Store) : Exc Store :=
  match p with
  | [] => inr s
  | f :: p' => s' ← f s; replay p' s'
  end.

(* the tables as a client sees them *)
Definition view (c : Client) (w : World) : Exc Store :=
  match c with
  | prisma => inr (db w)
  | tx => replay (pending w) (db w)
  end.

(* a reading call *)
Definition query {A} (c : Client) (f : Store -> A) : M A :=
  roundtrip ;;
  fun w => match view c w with
           | inr s => (inr (f s), w)
           | inl e => (inl e, w)
           end.

(* a writing call *)
Definition execute (c : Client) (f : Store -> Exc Store) : M unit :=
  roundtrip ;;
  fun w => match c with
           | prisma =>
               match f (db w) with
               | inr s' => (inr tt, with_db w s')
               | inl e => (inl e, w)
               end
           | tx =>
               match s ← view tx w; f s with
               | inr _ => (inr tt, with_pending w (pending w ++ [f]))
               | inl e => (inl e, w)
               end
           end.

(* prisma.$transaction(async (tx) => body) *)
Definition transaction {A} (body : Client -> M A) : M A :=
  roundtrip ;;                                          (* BEGIN *)
  fun w =>
    match body tx (with_pending w []) with
    | (inl e, w1) => (inl e, with_pending w1 [])        (* ROLLBACK *)
    | (inr a, w1) =>
        match roundtrip w1 with                         (* COMMIT *)
        | (inl e, w2) => (inl e, with_pending w2 [])
        | (inr _, w2) =>
            match replay (pending w2) (db w2) with
            | inr s' => (inr a, with_pending (with_db w2 s') [])
            | inl e => (inl e, with_pending w2 [])
            end
        end
    end.

(* ===================================================================== *)
(** * jsonwebtoken *)
(* ===================================================================== *)

(** The [jsonwebtoken] package is a library.  Its tokens are modelled
    symbolically: a well-formed token records the algorithm and the key
    that produced its signature, so that checking the signature against a
    key is comparing the two keys; every other string is [Malformed]. *)

Module Jwt.

Inductive Algorithm := HS256 | HS384 | HS512 | OtherAlgorithm.

(** The claims [createToken] signs, with the two that [sign] adds. *)
Record Payload := {
  user : string;
  admin : bool;
  personalfolder : bool;
  iat : Z;
  exp : Z
}.

Inductive Token :=
| Signed (alg : Algorithm) (key : string) (p : Payload)
| Malformed (raw : string).

(* a configured, non-empty secret *)
Definition secret (key : option string) : option string :=
  match key with
  | Some k => if String.eqb k "" then None else Some k
  | None => None
  end.

(** [sign({ user, admin, personalfolder }, key, { algorithm, expiresIn })]
    at time [now] (milliseconds): [iat] is the time in seconds, [exp] is
    [iat + expiresIn]. *)
Definition sign (user : string) (admin personalfolder : bool)
    (key : option string) (alg : Algorithm) (expiresIn : Z) (now : Z)
  : Exc Token :=
  match secret key with
  | None => inl (SignError "secretOrPrivateKey must have a value")
  | Some k =>
      inr (Signed alg k
             {| user := user; admin := admin;
                personalfolder := personalfolder;
                iat := now / 1000;
                exp := now / 1000 + expiresIn |})
  end.

Definition hmac (alg : Algorithm) : bool :=
  match alg with
  | HS256 | HS384 | HS512 => true
  | OtherAlgorithm => false
  end.

(** [verify(token, key)] at time [now], without options: the token is
    parsed, the signature checked, and only then the expiry. *)
Definition verify (token : option Token) (key : option string) (now : Z)
  : Exc Payload :=
  match token with
  | None => inl (JsonWebTokenError "jwt must be provided")
  | Some (Malformed _) => inl (JsonWebTokenError "jwt malformed")
  | Some (Signed alg k p) =>
      match secret key with
      | None => inl (JsonWebTokenError "secret or public key must be provided")
      | Some key' =>
          if negb (hmac alg) then inl (JsonWebTokenError "invalid algorithm")
          else if negb (String.eqb k key')
          then inl (JsonWebTokenError "invalid signature")
          else if (exp p <=? now / 1000)%Z then inl TokenExpiredError
          else inr p
      end
  end.

End Jwt.

(* ===================================================================== *)
(** * Requests and responses *)
(* ===================================================================== *)

(** An Express request, with the properties the handlers read.  The
    [authorization] header is kept as the list of its space-separated
    parts, each part being the token it spells. *)
Module Request.
Record t := {
  headers_authorization : option (list Jwt.Token);
  params_id : string;
  body : gmap string JVal;
  jwt : option Jwt.Payload;          (* set by validateJWT *)
  user : option string;              (* set by validateJWT *)
  personalfolder : option bool       (* set by validateJWT *)
}.
End Request.
Abbreviation Request := Request.t.

(** The [data] of a response body. *)
Inductive Data :=
| Nothing
| Value (v : JVal)
| Token (t : Jwt.Token).             (* { jwt: token } *)

(** Modelled from the spec: [src/response.mjs] is not among the sources;
    the spec gives a response body a status (success or failed), a message
    and, when there is any, data.  [R_ok] and [R_ko] stand for [R.ok(data)]
    and [R.ko(message)]. *)
Inductive ResponseBody :=
| R_ok (data : Data)
| R_ko (message : string).

(** How a handler ends: it sends a response, or calls [next(err)], or, a
    middleware, calls [next()] with the request as it has set it up. *)
Inductive Outcome :=
| Send (status : Z) (payload : ResponseBody)
| NextErr (err : Error)
| Next (req : Request).

Definition Handler : Type := Request -> World -> Outcome * World.

(* try { body } catch (err) { next(err) } *)
Definition try_next (m : M Outcome) : World -> Outcome * World := fun w =>
  match m w with
  | (inr o, w') => (o, w')
  | (inl e, w') => (NextErr e, w')
  end.

Definition send (status : Z) (payload : ResponseBody) : M Outcome :=
  ret (Send status payload).

(* ===================================================================== *)
(** * src/auth.mjs *)
(* ===================================================================== *)

Module Auth.
Section Auth.
Context `{Imports}.

(** The argument of [isAdmin]: a user id or a request. *)
Inductive Entity :=
| OfString (user : string)
| OfRequest (req : Request).

Definition isAdmin (entity : Entity) : M bool :=
  match entity with
  | OfString user =>
      let* perm := query prisma (Prisma.usersGroups_findMany "A" user) in
      ret (0 <? length perm)%nat
  | OfRequest req =>
      match Request.jwt req with
      | Some j => ret (Jwt.admin j)
      | None => throw TypeError
      end
  end.

Definition createToken (user : string) (personalfolder : bool) : M Jwt.Token :=
  let* isadmin := isAdmin (OfString user) in
  let* now := Date_now in
  lift (Jwt.sign user isadmin personalfolder
          (jwt_key Config_get) Jwt.HS512 (jwt_duration Config_get) now).

Definition validateJWT (req : Request) : World -> Outcome * World := fun w =>
  match Request.headers_authorization req with
  | None =>
      (Send 401 (R_ko "A token is required for authentication"), w)
  | Some parts =>
      let token := parts !! 1%nat in
      match Jwt.verify token (jwt_key Config_get) (clock w) with
      | inr decoded =>
          (Next {| Request.headers_authorization := Request.headers_authorization req;
                   Request.params_id := Request.params_id req;
                   Request.body := Request.body req;
                   Request.jwt := Some decoded;
                   Request.user := Some (Jwt.user decoded);
                   Request.personalfolder := Some (Jwt.personalfolder decoded) |}, w)
      | inl err =>
          let msg := if String.eqb (name err) "TokenExpiredError"
                     then "Token expired" else "Invalid token" in
          (Send 401 (R_ko msg), w)
      end
  end.

End Auth.
End Auth.

(* ===================================================================== *)
(** * api/v1/controllers/users.mjs *)
(* ===================================================================== *)

Module UsersController.

Import JsonSchema.

(** ** Payload schemas *)

Definition createSchema : Schema := {|
  properties := [ ("login", str); ("firstname", str); ("lastname", str);
                  ("authmethod", str); ("locale", str); ("email", str);
                  ("secret", str) ];
  required := [ "login"; "firstname"; "email"; "secret" ]
|}.

Definition updateSchema : Schema := {|
  properties := [ ("login", str); ("firstname", str); ("lastname", str);
                  ("authmethod",
                    {| type_ := TString; pattern := Some ["local"; "ldap"] |});
                  ("locale", str); ("email", str); ("secret", str);
                  ("active", boolean) ];
  required := []
|}.

Definition updatePersonalPassword : Schema := {|
  properties := [ ("personalsecret", str) ];
  required := [ "personalsecret" ]
|}.

Definition personalLogin : Schema := {|
  properties := [ ("password", str) ];
  required := [ "password" ]
|}.

(** ** Helpers for object literals *)

(** An object literal.  A property whose value is [undefined] is, for
    its only reader (the Prisma client), an absent property. *)
Definition object (l : list (string * option JVal)) : gmap string JVal :=
  list_to_map (omap (fun kv => pair kv.1 <$> kv.2) l).

(* o.k = v *)
Definition assign (o : gmap string JVal) (k : string) (v : option JVal)
  : gmap string JVal :=
  match v with
  | Some x => <[k := x]> o
  | None => o
  end.

(* v !== null *)
Definition not_null (v : option JVal) : bool :=
  match v with
  | Some JNull => false
  | _ => true
  end.

Definition str_of (s : option string) : option JVal := JStr <$> s.

Section Handlers.
Context `{Imports}.

(** [new Date(2050,12,31,23,59,59)]: months count from 0, so month 12 is
    January 2051; the arguments are read in the time zone of the process,
    so that the instant is the one of 2051-01-31T23:59:59 UTC
    (2558822399000 ms) shifted by the offset of the zone. *)
Definition Date_2050_12_31_23_59_59 : Z :=
  2558822399000 + 60000 * Date_getTimezoneOffset.

(* Crypt.hashPassword(v) *)
Definition hashPassword (v : option JVal) : M string :=
  match v with
  | Some (JStr s) => lift (Crypt_hashPassword s)
  | _ => throw CryptError
  end.

(* Crypt.checkPassword(v, hash) *)
Definition checkPassword (v : option JVal) (hash : option string) : M bool :=
  match v with
  | Some (JStr s) => lift (Crypt_checkPassword s hash)
  | _ => throw CryptError
  end.

(* a call whose rows take their timestamps from the time of the call *)
Definition execute_now (c : Client) (f : Z -> Store -> Exc Store) : M unit :=
  let* now := Date_now in execute c (f now).

(* prisma.users.findUnique({ where: { id } }), [id] possibly undefined *)
Definition findUser (c : Client) (id : option string) : M (option Users.row) :=
  match id with
  | Some i => query c (Prisma.users_findUnique i)
  | None => throw PrismaClientValidationError
  end.

(** ** get *)

Definition get : Handler := fun req => try_next (
  let id := Request.params_id req in
  (* Search user *)
  let* user := query prisma (fun s =>
    Prisma.select Prisma.users_column
      [ "id"; "login"; "firstname"; "lastname"; "authmethod"; "locale";
        "email"; "personalsecret"; "active"; "createdat"; "updatedat" ]
      <$> Prisma.users_findUnique id s) in
  match user with
  | None => send 404 (R_ko "User not found")
  | Some user =>
      (* Returns wether a personal password has been set *)
      let user := <["haspersonalsecret" :=
                      JBool (not_null (user !! "personalsecret"))]> user in
      let user := delete "personalsecret" user in
      send 200 (R_ok (Value (JObj user)))
  end).

(** ** create *)

Definition create : Handler := fun req => try_next (
  (* Must be admin *)
  let* admin := Auth.isAdmin (Auth.OfRequest req) in
  if negb admin then send 403 (R_ko "Unauthorized") else
  (* Validate payload *)
  if negb (valid (Request.body req) createSchema) then send 400 (R_ko "Bad request") else
  (* Creates user *)
  let* newid := newId in
  let* hash := hashPassword (Request.body req !! "secret") in
  execute_now prisma (fun now => Prisma.users_create now (object [
    ("id", Some (JStr newid));
    ("login", Request.body req !! "login");
    ("firstname", Request.body req !! "firstname");
    ("lastname", Request.body req !! "lastname");
    ("locale", Some (nullish (Request.body req !! "locale") (JStr "en_US")));
    ("authmethod", Some (nullish (Request.body req !! "authmethod") (JStr "local")));
    ("email", Request.body req !! "email");
    ("secret", Some (JStr hash));
    ("secretexpiresat", Some (JDate Date_2050_12_31_23_59_59)) ])) ;;
  (* Creates personal folder *)
  let* newFolderId := newId in
  execute_now prisma (fun now => Prisma.folders_create now (object [
    ("id", Some (JStr newFolderId));
    ("description", Request.body req !! "login");
    ("parent", Some (JStr "P"));
    ("personal", Some (JBool true));
    ("user", Some (JStr newid)) ])) ;;
  (* Add user to 'Everyone' group *)
  let* newid2 := newId in
  execute_now prisma (fun now => Prisma.usersGroups_create now (object [
    ("id", Some (JStr newid2));
    ("group", Some (JStr "E"));
    ("user", Some (JStr newid)) ])) ;;
  actions_log (str_of (Request.user req)) "create" "user" (Some (JStr newid)) ;;
  send 201 (R_ok (Value (JObj {[ "id" := JStr newid ]})))).

(** ** update *)

(* if ( req.body.k ) { updateStruct.k = req.body.k } *)
Definition copy_if_truthy (req : Request) (k : string)
    (updateStruct : gmap string JVal) : gmap string JVal :=
  if truthy (Request.body req !! k) then assign updateStruct k (Request.body req !! k)
  else updateStruct.

Definition updateStruct_of (req : Request) : M (gmap string JVal) :=
  let updateStruct := ∅ in
  let updateStruct := copy_if_truthy req "login" updateStruct in
  let updateStruct := copy_if_truthy req "firstname" updateStruct in
  let updateStruct := copy_if_truthy req "lastname" updateStruct in
  let updateStruct := copy_if_truthy req "authmethod" updateStruct in
  let updateStruct := copy_if_truthy req "locale" updateStruct in
  let updateStruct := copy_if_truthy req "email" updateStruct in
  let* updateStruct :=
    if truthy (Request.body req !! "secret") then
      let* hash := hashPassword (Request.body req !! "secret") in
      ret (<["secretexpiresat" := JDate Date_2050_12_31_23_59_59]>
             (<["secret" := JStr hash]> updateStruct))
    else ret updateStruct in
  let* has_active :=
    match hasOwnProperty (Request.body req) "active" with
    | Some b => ret b
    | None => throw TypeError
    end in
  let updateStruct :=
    if (has_active : bool)
    then assign updateStruct "active" (Request.body req !! "active")
    else updateStruct in
  ret updateStruct.

Definition update : Handler := fun req => try_next (
  (* Must be admin *)
  let* admin := Auth.isAdmin (Auth.OfRequest req) in
  if negb admin then send 403 (R_ko "Unauthorized") else
  (* Validate payload *)
  if negb (valid (Request.body req) updateSchema) then send 400 (R_ko "Bad request") else
  let id := Request.params_id req in
  (* Search user *)
  let* user := query prisma (Prisma.users_findUnique id) in
  match user with
  | None => send 404 (R_ko "User not found")
  | Some _ =>
      let* updateStruct := updateStruct_of req in
      (* Updates *)
      execute_now prisma (fun now => Prisma.users_update now id updateStruct) ;;
      actions_log (str_of (Request.user req)) "update" "user" (Some (JStr id)) ;;
      send 200 (R_ok Nothing)
  end).

(** ** remove *)

(** The statements of the transaction callback, on the client [c] they
    are sent to.  The callback of [remove] receives [tx] and sends every
    statement to [prisma]. *)
Definition cascade (c : Client) (id personalId : string) : M unit :=
  (* Deletes user groups *)
  execute c (Prisma.usersGroups_deleteMany id) ;;
  (if negb (String.eqb personalId "") then
     (* Deletes items in personal folder *)
     execute c (Prisma.items_deleteMany personalId) ;;
     (* Deletes personal folder *)
     execute c (Prisma.folders_delete personalId)
   else ret tt) ;;
  (* Deletes user *)
  execute c (Prisma.users_delete id).

Definition remove : Handler := fun req => try_next (
  (* Must be admin *)
  let* admin := Auth.isAdmin (Auth.OfRequest req) in
  if negb admin then send 403 (R_ko "Unauthorized") else
  let id := Request.params_id req in
  (* Search user *)
  let* user := query prisma (Prisma.users_findUnique id) in
  match user with
  | None => send 404 (R_ko "User not found")
  | Some _ =>
      (* Admin user cannot be removed *)
      if String.eqb id "0"
      then send 422 (R_ko "Admin user cannot be removed") else
      (* Search user personal folders *)
      let* personal := query prisma (Prisma.folders_findMany_personal id) in
      let personalId := match personal with
                        | f :: _ => Folders.id f
                        | [] => ""
                        end in
      transaction (fun tx => cascade prisma id personalId) ;;
      actions_log (str_of (Request.user req)) "delete" "folder" (Some (JStr id)) ;;
      send 200 (R_ok (Value (JStr "Done")))
  end).

(** ** setPersonalSecret *)

Definition setPersonalSecret : Handler := fun req => try_next (
  if negb (valid (Request.body req) updatePersonalPassword)
  then send 400 (R_ko "Bad request") else
  let* pwd := hashPassword (Request.body req !! "personalsecret") in
  match Request.user req with
  | None => throw PrismaClientValidationError
  | Some id =>
      execute_now prisma (fun now =>
        Prisma.users_update now id (object [ ("personalsecret", Some (JStr pwd)) ]))
  end ;;
  actions_log (str_of (Request.user req)) "personalpasswordcreate" "user"
              (str_of (Request.user req)) ;;
  send 200 (R_ok (Value (JStr "Done")))).

(** ** personalFolderLogin *)

Definition personalFolderLogin : Handler := fun req => try_next (
  (* Validate payload *)
  if negb (valid (Request.body req) personalLogin) then send 400 (R_ko "Bad request") else
  (* Check user *)
  let* user := findUser prisma (Request.user req) in
  match user with
  | None =>
      actions_log (Request.body req !! "username") "personalloginnotfound" "user"
                  (str_of (Request.user req)) ;;
      send 401 (R_ko "Bad user or wrong password")
  | Some user =>
      (* Check password *)
      let* ok := checkPassword (Request.body req !! "password") (Users.personalsecret user) in
      if negb ok then
        actions_log (Some JNull) "personalloginfail" "user" (str_of (Request.user req)) ;;
        send 401 (R_ko "Wrong password")
      else
        (* Creates JWT token *)
        let* token := Auth.createToken (Users.id user) true in
        actions_log (Some (JStr (Users.id user))) "personallogin" "user"
                    (Some (JStr (Users.id user))) ;;
        send 200 (R_ok (Token token))
  end).

End Handlers.
End UsersController.

(* ===================================================================== *)
(** * passweaver-api.mjs: start-up *)
(* ===================================================================== *)

Module Main.

(** What the script does to the outside, in order. *)
Inductive Event :=
| console_log (msg : string)
| console_log_port (port : Z)             (* "Listening on port " + port *)
| console_error (msg : string)
| app_use (middleware : string)
| FS_mkdirSync (dir : string)
| RFS_createStream (file : string)
| app_use_router (path : string)
| app_use_errorHandler
| app_all (path : string)
| app_listen (port : Z).

Inductive End_ :=
| process_exit (code : Z)
| serving (port : Z).

(* !cfg.key is false *)
Definition configured (key : option string) : bool :=
  match key with
  | Some k => negb (String.eqb k "")
  | None => false
  end.

(** The script, given [Config.get()], the version of [package.json] and
    whether the log directory exists. *)
Definition main (cfg : Config) (version : string) (log_dir_exists : bool)
  : list Event * End_ :=
  let started := [ console_log ("PassWeaver API " +:+ version +:+ " starting...") ] in
  (* Checks for config *)
  if negb (configured (master_key cfg)) then
    ((started ++ [ console_error
       "Master key cannot be found: verify environment variable name and value" ])%list,
     process_exit 1)
  else if negb (configured (jwt_key cfg)) then
    ((started ++ [ console_error
       "JWT key cannot be found: verify environment variable name and value" ])%list,
     process_exit 2)
  else
    ((started
     (* Rate limiter, json middleware *)
     ++ [ app_use "rateLimitMiddleware"; app_use "Express.json" ]
     ++ (if log_dir_exists then [] else [ FS_mkdirSync (log_dir cfg) ])
     (* Log requests, log errors *)
     ++ [ RFS_createStream (log_dir cfg +:+ "/passweaver-api-access.log");
          app_use "Morgan";
          RFS_createStream (log_dir cfg +:+ "/passweaver-api-errors.log");
          (* Install routers *)
          app_use_router "/api/v1/items";
          app_use_router "/api/v1/folders";
          app_use_router "/api/v1/groups";
          app_use_router "/api/v1/users";
          app_use_router "/api/v1/login";
          app_use_router "/api/v1/util";
          app_use_router "/api/v1/events";
          (* Error handlers *)
          app_use_errorHandler;
          app_all "*";
          console_log_port (listen_port cfg);
          app_listen (listen_port cfg) ])%list,
     serving (listen_port cfg)).

Definition installs_route (e : Event) : bool :=
  match e with
  | app_use_router _ | app_all _ => true
  | _ => false
  end.

Definition serves (e : Event) : bool :=
  match e with
  | app_listen _ => true
  | _ => false
  end.

End Main.

(* ===================================================================== *)
(** * The vocabulary of the properties *)
(* ===================================================================== *)

(** No outage ahead. *)
Definition up (w : World) : Prop := Forall (fun b => b = false) (outages w).

(** The world after one successful round trip. *)
Definition after_roundtrip (w : World) : World :=
  with_outages w (tail (outages w)).

(** [user] is a member of [group]. *)
Definition member_of (s : Store) (user group : string) : bool :=
  existsb (fun m => Prisma.eqs (UsersGroups.group m) group
                    && Prisma.eqs (UsersGroups.user m) user) (usersGroups s).

(** The token a request carries: the second part of its header. *)
Definition bearer (req : Request) : option Jwt.Token :=
  match Request.headers_authorization req with
  | Some parts => parts !! 1%nat
  | None => None
  end.

(** A user row with the value of its personal secret blotted out: a
    stored hash is replaced by the empty string, an absent one stays
    absent. *)
Definition redact (u : Users.row) : Users.row :=
  {| Users.id := Users.id u; Users.login := Users.login u;
     Users.lastname := Users.lastname u; Users.firstname := Users.firstname u;
     Users.authmethod := Users.authmethod u; Users.locale := Users.locale u;
     Users.email := Users.email u; Users.secret := Users.secret u;
     Users.secretexpiresat := Users.secretexpiresat u;
     Users.personalsecret := match Users.personalsecret u with
                             | Some _ => Some ""
                             | None => None
                             end;
     Users.active := Users.active u;
     Users.createdat := Users.createdat u;
     Users.updatedat := Users.updatedat u |}.

Definition redact_store (s : Store) : Store :=
  with_users s (map redact (users s)).

(** The object [get] sends for a row. *)
Definition get_object (u : Users.row) : gmap string JVal :=
  let user := Prisma.select Prisma.users_column
    [ "id"; "login"; "firstname"; "lastname"; "authmethod"; "locale";
      "email"; "personalsecret"; "active"; "createdat"; "updatedat" ] u in
  delete "personalsecret"
    (<["haspersonalsecret" :=
         JBool (UsersController.not_null (user !! "personalsecret"))]> user).

(** Reading a property of an object literal. *)
Fixpoint object_get (l : list (string * option JVal)) (k : string) : option JVal :=
  match l with
  | [] => None
  | (k', v) :: l' =>
      if String.eqb k' k
      then match v with Some x => Some x | None => object_get l' k end
      else object_get l' k
  end.

(** What [create] has added to the database [s], giving [s']: nothing; the
    user row; the user row and the personal folder; these and the
    membership in "E". *)
Inductive Created (newid : string) (s : Store) : nat -> Store -> Prop :=
| created_nothing : Created newid s 0 s
| created_user u :
    Users.id u = newid ->
    Created newid s 1 (with_users s (users s ++ [u]))
| created_folder s1 f :
    Created newid s 1 s1 ->
    Folders.personal f = true ->
    Folders.user f = Some newid ->
    Folders.parent f = Some "P" ->
    Created newid s 2 (with_folders s1 (folders s1 ++ [f]))
| created_membership s2 m :
    Created newid s 2 s2 ->
    UsersGroups.group m = "E" ->
    UsersGroups.user m = newid ->
    Created newid s 3 (with_usersGroups s2 (usersGroups s2 ++ [m])).

(** A string the body supplies: a property that is a non-empty string. *)
Definition supplied (v : option JVal) : option string :=
  match v with
  | Some (JStr s) => if String.eqb s "" then None else Some s
  | _ => None
  end.

(** What a valid update body holds for a declared property. *)
Definition string_or_absent (v : option JVal) : Prop :=
  v = None \/ exists s, v = Some (JStr s).

Definition boolean_or_absent (v : option JVal) : Prop :=
  v = None \/ exists b, v = Some (JBool b).

(** The columns [update] copies from the body when they are supplied. *)
Definition copied_columns : list string :=
  [ "login"; "firstname"; "lastname"; "authmethod"; "locale"; "email" ].

(** The body makes [update] set something: it supplies one of the
    strings, or it has the property [active]. *)
Definition applies_something (body : gmap string JVal) : bool :=
  existsb (fun k => bool_decide (is_Some (supplied (body !! k))))
          ("secret" :: copied_columns)
  || bool_decide (is_Some (body !! "active")).

Section UpdateVocabulary.
Context `{Imports}.

(** The row [update] is expected to leave for the stored row [u], with
    [hash] the hash of the supplied secret and [now] the time of the
    call: a supplied string replaces the stored one, [active] is replaced
    whenever the body has the property, a supplied secret also resets
    [secretexpiresat], and the store refreshes [updatedat] when anything
    is set. *)
Definition updated_row (body : gmap string JVal) (hash : string) (now : Z)
    (u : Users.row) : Users.row :=
  {| Users.id := Users.id u;
     Users.login := default (Users.login u) (supplied (body !! "login"));
     Users.lastname := default (Users.lastname u) (supplied (body !! "lastname"));
     Users.firstname := match supplied (body !! "firstname") with
                        | Some s => Some s
                        | None => Users.firstname u
                        end;
     Users.authmethod := default (Users.authmethod u) (supplied (body !! "authmethod"));
     Users.locale := default (Users.locale u) (supplied (body !! "locale"));
     Users.email := default (Users.email u) (supplied (body !! "email"));
     Users.secret := match supplied (body !! "secret") with
                     | Some _ => hash
                     | None => Users.secret u
                     end;
     Users.secretexpiresat := match supplied (body !! "secret") with
                              | Some _ => UsersController.Date_2050_12_31_23_59_59
                              | None => Users.secretexpiresat u
                              end;
     Users.personalsecret := Users.personalsecret u;
     Users.active := match body !! "active" with
                     | Some (JBool b) => b
                     | _ => Users.active u
                     end;
     Users.createdat := Users.createdat u;
     Users.updatedat := if applies_something body then now
                        else Users.updatedat u |}.

(** The object [update] hands to Prisma, given the hash, for a body on
    which the call of [hasOwnProperty] returns. *)
Definition update_data (req : Request) (hash : string) : gmap string JVal :=
  let updateStruct := ∅ in
  let updateStruct := UsersController.copy_if_truthy req "login" updateStruct in
  let updateStruct := UsersController.copy_if_truthy req "firstname" updateStruct in
  let updateStruct := UsersController.copy_if_truthy req "lastname" updateStruct in
  let updateStruct := UsersController.copy_if_truthy req "authmethod" updateStruct in
  let updateStruct := UsersController.copy_if_truthy req "locale" updateStruct in
  let updateStruct := UsersController.copy_if_truthy req "email" updateStruct in
  let updateStruct :=
    if truthy (Request.body req !! "secret") then
      <["secretexpiresat" := JDate UsersController.Date_2050_12_31_23_59_59]>
        (<["secret" := JStr hash]> updateStruct)
    else updateStruct in
  if bool_decide (is_Some (Request.body req !! "active"))
  then UsersController.assign updateStruct "active" (Request.body req !! "active")
  else updateStruct.

(** What the amended claim says of the row [u'] that an update with
    [body] leaves for the stored row [u], with [hash] the hash of the
    carried secret and [now] the time of the call: fields that are not
    carried, or carried as the empty string, keep their stored values;
    carried ones take the carried value; [active] is applied whenever it
    is carried, false included.  Besides, a carried secret resets
    [secretexpiresat], and [updatedat] is refreshed when the body makes
    the update set something, and kept when it does not. *)
Definition update_frame (body : gmap string JVal) (hash : string) (now : Z)
    (u u' : Users.row) : Prop :=
  Users.id u' = Users.id u
  /\ Users.personalsecret u' = Users.personalsecret u
  /\ Users.createdat u' = Users.createdat u
  /\ Users.updatedat u' = (if applies_something body then now
                           else Users.updatedat u)
  /\ (forall k, In k copied_columns ->
        body !! k = None \/ body !! k = Some (JStr "") ->
        Prisma.users_column u' k = Prisma.users_column u k)
  /\ (forall k s, In k copied_columns ->
        body !! k = Some (JStr s) -> s <> "" ->
        Prisma.users_column u' k = Some (JStr s))
  /\ (body !! "secret" = None \/ body !! "secret" = Some (JStr "") ->
      Users.secret u' = Users.secret u
      /\ Users.secretexpiresat u' = Users.secretexpiresat u)
  /\ (forall s, body !! "secret" = Some (JStr s) -> s <> "" ->
      Users.secret u' = hash
      /\ Users.secretexpiresat u' = UsersController.Date_2050_12_31_23_59_59)
  /\ (body !! "active" = None -> Users.active u' = Users.active u)
  /\ (forall b, body !! "active" = Some (JBool b) -> Users.active u' = b).

(** What [update] leaves: an answer other than 200 and the database as
    it was, or the answer 200 and the row of the given id replaced. *)
Definition update_result (req : Request) (w : World) (r : Outcome * World)
  : Prop :=
  ((forall payload, fst r <> Send 200 payload) /\ db (snd r) = db w)
  \/ (exists u hash,
        Prisma.users_findUnique (Request.params_id req) (db w) = Some u
        /\ fst r = Send 200 (R_ok Nothing)
        /\ db (snd r)
           = with_users (db w)
               (map (fun r => if Prisma.eqs (Users.id r) (Request.params_id req)
                              then updated_row (Request.body req) hash (clock w) u
                              else r) (users (db w)))).

End UpdateVocabulary.

(** [keeps I m]: the body [m] hands on a world whose database and held
    back writes satisfy [I] whenever it starts in one, whether it returns
    or throws. *)
Definition keeps (I : Store -> list (Store -> Exc Store) -> Prop) {A}
    (m : M A) : Prop :=
  forall w, I (db w) (pending w) -> I (db (snd (m w))) (pending (snd (m w))).

(** A user row with id [a] is stored. *)
Definition user_exists (a : string) (s : Store) : Prop :=
  existsb (fun u => Prisma.eqs (Users.id u) a) (users s) = true.

(** The operations of the controller that are modelled. *)
Inductive Operation :=
| op_get | op_create | op_update | op_remove
| op_setPersonalSecret | op_personalFolderLogin.

Definition handler `{Imports} (o : Operation) : Handler :=
  match o with
  | op_get => UsersController.get
  | op_create => UsersController.create
  | op_update => UsersController.update
  | op_remove => UsersController.remove
  | op_setPersonalSecret => UsersController.setPersonalSecret
  | op_personalFolderLogin => UsersController.personalFolderLogin
  end.

(** One call: the operation, its request, the time of the call and the
    outages the store goes through during it. *)
Record Call := {
  operation : Operation;
  request : Request;
  time : Z;
  faults : list bool
}.

(** The world after a sequence of calls. *)
Fixpoint run `{Imports} (calls : list Call) (w : World) : World :=
  match calls with
  | [] => w
  | c :: calls' =>
      run calls'
        (snd (handler (operation c) (request c)
                (with_outages (with_clock w (time c)) (faults c))))
  end.

Section Vocabulary.
Context `{Imports}.

(** The token [createToken user personalfolder] signs in world [w] with
    key [k]. *)
Definition issued (user : string) (personalfolder : bool) (w : World)
    (k : string) : Jwt.Token :=
  Jwt.Signed Jwt.HS512 k
    {| Jwt.user := user;
       Jwt.admin := member_of (db w) user "A";
       Jwt.personalfolder := personalfolder;
       Jwt.iat := clock w / 1000;
       Jwt.exp := clock w / 1000 + jwt_duration Config_get |}.

(** [create], by cases on how far it gets: with [n] the number of rows
    written, the answer is 201 exactly when [n] is 3. *)
Definition create_result (req : Request) (w : World) (r : Outcome * World)
  : Prop :=
  exists n,
    Created (newId_nth (drawn w)) (db w) n (db (snd r))
    /\ (n = 3 ->
        fst r = Send 201 (R_ok (Value (JObj {[ "id" := JStr (newId_nth (drawn w)) ]}))))
    /\ (n <> 3 -> forall payload, fst r <> Send 201 payload)
    /\ (0 < n < 3 -> exists e, fst r = NextErr e).

End Vocabulary.

(* ===================================================================== *)
(** * A concrete installation, for running the handlers *)
(* ===================================================================== *)

Module Demo.

Definition config : Config := {|
  master_key := Some "master";
  jwt_key := Some "signing";
  jwt_duration := 3600;
  listen_port := 3000;
  log_dir := "logs"
|}.

#[local] Instance imports : Imports := {|
  Config_get := config;
  Crypt_hashPassword := fun s => inr ("hash:" +:+ s);
  Crypt_checkPassword := fun s hash =>
    match hash with
    | Some h => inr (String.eqb h ("hash:" +:+ s))
    | None => inl CryptError
    end;
  newId_nth := fun n => nth n [ "n1"; "n2"; "n3"; "n4"; "n5"; "n6" ] "n";
  Date_getTimezoneOffset := -60
|}.

Definition user (id lastname : string) (personalsecret : option string)
  : Users.row := {|
  Users.id := id; Users.login := id; Users.lastname := lastname;
  Users.firstname := None; Users.authmethod := "local";
  Users.locale := "en_US"; Users.email := id +:+ "@example.org";
  Users.secret := "hash:pw"; Users.secretexpiresat := 1000;
  Users.personalsecret := personalsecret; Users.active := true;
  Users.createdat := 0; Users.updatedat := 0
|}.

Definition group (id : string) : Groups.row := {|
  Groups.id := id; Groups.description := id; Groups.parent := None;
  Groups.createdat := 0; Groups.updatedat := 0
|}.

Definition member (id user group : string) : UsersGroups.row := {|
  UsersGroups.id := id; UsersGroups.user := user; UsersGroups.group := group;
  UsersGroups.createdat := 0; UsersGroups.updatedat := 0
|}.

Definition folder (id : string) (parent : option string) (personal : bool)
    (user : option string) : Folders.row := {|
  Folders.id := id; Folders.parent := parent; Folders.description := id;
  Folders.personal := personal; Folders.user := user;
  Folders.createdat := 0; Folders.updatedat := 0
|}.

Definition item (id folder : string) : Items.row := {|
  Items.id := id; Items.folder := folder; Items.personal := true;
  Items.title := id; Items.data := "c"; Items.dataiv := "iv";
  Items.dataauthtag := "tag"; Items.metadata := None;
  Items.createdat := 0; Items.updatedat := 0; Items.accessedat := None
|}.

(** The seed data (admin user "0", groups "A" and "E", folders "0" and
    "P"), and user bob with personal folder P1 holding items i1 and i2. *)
Definition store : Store := {|
  folders := [ folder "0" None false None; folder "P" None false None;
               folder "P1" (Some "P") true (Some "bob") ];
  groups := [ group "A"; group "E" ];
  users := [ user "0" "Admin" None; user "bob" "Builder" (Some "hash:s3cret") ];
  usersGroups := [ member "m0" "0" "A"; member "m1" "0" "E";
                   member "m2" "bob" "E" ];
  folderGroupPermission := [];
  items := [ item "i1" "P1"; item "i2" "P1" ]
|}.

Definition world (s : Store) (outages : list bool) : World := {|
  db := s; pending := []; clock := 5000; drawn := 0;
  outages := outages; audit := []
|}.

(** A request as [validateJWT] hands it on for a token of [user]. *)
Definition request (user : string) (admin : bool) (id : string)
    (body : gmap string JVal) : Request := {|
  Request.headers_authorization := None;
  Request.params_id := id;
  Request.body := body;
  Request.jwt := Some {| Jwt.user := user; Jwt.admin := admin;
                         Jwt.personalfolder := false;
                         Jwt.iat := 5; Jwt.exp := 3605 |};
  Request.user := Some user;
  Request.personalfolder := Some false
|}.

(** A request as it arrives, with header "Bearer <token>". *)
Definition carrying (token : Jwt.Token) : Request := {|
  Request.headers_authorization := Some [ Jwt.Malformed "Bearer"; token ];
  Request.params_id := "";
  Request.body := ∅;
  Request.jwt := None;
  Request.user := None;
  Request.personalfolder := None
|}.

(** The body of a request that creates user alice. *)
Definition alice : gmap string JVal :=
  <["login" := JStr "alice"]> (<["firstname" := JStr "Alice"]>
  (<["lastname" := JStr "Liddell"]> (<["email" := JStr "alice@example.org"]>
  (<["secret" := JStr "pw"]> ∅)))).

(** Bodies of update requests: one that carries an empty login, a new
    last name and [active] false; one that carries only a new secret. *)
Definition rename : gmap string JVal :=
  <["login" := JStr ""]> (<["lastname" := JStr "Baumeister"]>
  (<["active" := JBool false]> ∅)).

Definition new_secret : gmap string JVal := <["secret" := JStr "new"]> ∅.

(** The store in which group "E" has been granted read access to bob's
    personal folder. *)
Definition granted : Store := {|
  folders := folders store; groups := groups store; users := users store;
  usersGroups := usersGroups store;
  folderGroupPermission :=
    [ {| FolderGroupPermission.id := "g1";
         FolderGroupPermission.folder := "P1";
         FolderGroupPermission.group := "E";
         FolderGroupPermission.read := true;
         FolderGroupPermission.write := false;
         FolderGroupPermission.createdat := 0;
         FolderGroupPermission.updatedat := 0 |} ];
  items := items store
|}.

(** The store after the admin membership of user "0" has been taken
    away. *)
Definition revoked : Store := {|
  folders := folders store; groups := groups store; users := users store;
  usersGroups := [ member "m1" "0" "E"; member "m2" "bob" "E" ];
  folderGroupPermission := []; items := items store
|}.

End Demo.

(* ===================================================================== *)
(** * More of the sources: the reading operations of the users controller,
      the util controller and its router *)
(* ===================================================================== *)

(** The options object of [generator.generate]. *)
Module GeneratePassword.
Record options := {
  length : nat;
  numbers : bool;
  symbols : bool;
  lowercase : bool;
  uppercase : bool;
  strict : bool
}.
End GeneratePassword.

(** What these operations take from outside the sources: the order of the
    database on strings ([orderBy ... "asc"]) and its case-insensitive
    [contains] (column value first, searched text second); [Cache.size()]
    of [src/cache.mjs]; the version in [package.json]; the
    [generate-password] library, which may throw. *)
Class Externals := {
  collate_le : string -> string -> bool;
  contains_insensitive : string -> string -> bool;
  Cache_size : Z;
  packageJson_version : string;
  generator_generate : GeneratePassword.options -> Exc string
}.

Module PrismaReads.
Section PrismaReads.
Context `{Externals}.

(* orderBy: { key: "asc" } *)
Definition orderBy {A} (key : A -> string) (l : list A) : list A :=
  merge_sort (fun a b => Is_true (collate_le (key a) (key b))) l.

(* where: { OR: [ { login: { contains } }, { firstname: { contains } },
                  { lastname: { contains } } ] }, mode insensitive; a null
   first name matches nothing *)
Definition users_matches (search : string) (u : Users.row) : bool :=
  contains_insensitive (Users.login u) search
  || match Users.firstname u with
     | Some f => contains_insensitive f search
     | None => false
     end
  || contains_insensitive (Users.lastname u) search.

(* prisma.users.findMany({ where?, orderBy: { lastname: "asc" } }) *)
Definition users_findMany (search : option string) (s : Store)
  : list Users.row :=
  orderBy Users.lastname
    match search with
    | Some q => List.filter (users_matches q) (users s)
    | None => users s
    end.

(* a row of users as the object Prisma returns without [select] *)
Definition users_object (u : Users.row) : gmap string JVal :=
  Prisma.select Prisma.users_column
    [ "id"; "login"; "lastname"; "firstname"; "authmethod"; "locale";
      "email"; "secret"; "secretexpiresat"; "personalsecret"; "active";
      "createdat"; "updatedat" ] u.

Definition groups_column (g : Groups.row) (c : string) : option JVal :=
  if Prisma.eqs c "id" then Some (JStr (Groups.id g))
  else if Prisma.eqs c "description" then Some (JStr (Groups.description g))
  else if Prisma.eqs c "parent" then Some (of_option_string (Groups.parent g))
  else if Prisma.eqs c "createdat" then Some (JDate (Groups.createdat g))
  else if Prisma.eqs c "updatedat" then Some (JDate (Groups.updatedat g))
  else None.

Definition groups_object (g : Groups.row) : gmap string JVal :=
  Prisma.select groups_column
    [ "id"; "description"; "parent"; "createdat"; "updatedat" ] g.

(* include: { Groups: true }: a membership with the row of its group; the
   foreign key makes sure there is one *)
Definition with_Groups (s : Store) (m : UsersGroups.row)
  : option (UsersGroups.row * Groups.row) :=
  pair m <$> List.find (fun g => Prisma.eqs (Groups.id g) (UsersGroups.group m))
                       (groups s).

(* prisma.usersGroups.findMany({ where: { user }, include: { Groups: true },
                                 orderBy: { Groups: { description: "asc" } } }) *)
Definition usersGroups_findMany_Groups (user : string) (s : Store)
  : list (UsersGroups.row * Groups.row) :=
  orderBy (fun mg => Groups.description mg.2)
    (omap (with_Groups s)
       (List.filter (fun m => Prisma.eqs (UsersGroups.user m) user)
                    (usersGroups s))).

(* prisma.users.count(), prisma.items.count(), prisma.folders.count() *)
Definition users_count (s : Store) : nat := Datatypes.length (users s).
Definition items_count (s : Store) : nat := Datatypes.length (items s).
Definition folders_count (s : Store) : nat := Datatypes.length (folders s).

End PrismaReads.
End PrismaReads.

(** ** api/v1/controllers/users.mjs: getGroups and list *)

(** [req.query.search], which [Request] does not carry, is the first
    argument of [list] ([None] when the query has no such parameter). *)
Module UsersQueries.
Section UsersQueries.
Context `{Externals}.

Definition getGroups : Handler := fun req => try_next (
  let id := Request.params_id req in
  let data : list Groups.row := [] in
  (* Search user's groups *)
  let* groups := query prisma (PrismaReads.usersGroups_findMany_Groups id) in
  (* for ( const group of groups ) { data.push(group.Groups) } *)
  let data := fold_left (fun data group => (data ++ [ group.2 ])%list) groups data in
  send 200 (R_ok (Value (JArr (map (fun g => JObj (PrismaReads.groups_object g))
                                   data))))).

(* the rows of [list], for a search that is given *)
Definition search_users (query_search : option JVal) : M (list Users.row) :=
  if truthy query_search then
    match query_search with
    | Some (JStr q) => query prisma (PrismaReads.users_findMany (Some q))
    | _ => throw PrismaClientValidationError
    end
  else query prisma (PrismaReads.users_findMany None).

Definition list (query_search : option JVal) : Handler := fun req => try_next (
  (* Must be admin *)
  let* admin := Auth.isAdmin (Auth.OfRequest req) in
  if negb admin then send 403 (R_ko "Unauthorized") else
  (* Search user *)
  let* users := search_users query_search in
  send 200 (R_ok (Value (JArr (map (fun u => JObj (PrismaReads.users_object u))
                                   users))))).

End UsersQueries.
End UsersQueries.

(** ** api/v1/controllers/util.mjs *)

Module UtilController.
Section UtilController.
Context `{Externals}.

Definition generatePassword : Handler := fun req => try_next (
  let* pwd := lift (generator_generate
    {| GeneratePassword.length := 15;
       GeneratePassword.numbers := true;
       GeneratePassword.symbols := true;
       GeneratePassword.lowercase := true;
       GeneratePassword.uppercase := true;
       GeneratePassword.strict := true |}) in
  send 200 (R_ok (Value (JObj {[ "password" := JStr pwd ]})))).

Definition stats : Handler := fun req => try_next (
  (* Must be admin *)
  let* admin := Auth.isAdmin (Auth.OfRequest req) in
  if negb admin then send 403 (R_ko "Unauthorized") else
  let* users := query prisma PrismaReads.users_count in
  let* items := query prisma PrismaReads.items_count in
  let* folders := query prisma PrismaReads.folders_count in
  let version := packageJson_version in
  let cache := Cache_size in
  let data := UsersController.object [
    ("users", Some (JNum (Z.of_nat users)));
    ("items", Some (JNum (Z.of_nat items)));
    ("folders", Some (JNum (Z.of_nat folders)));
    ("version", Some (JStr version));
    ("cacheSize", Some (JNum cache)) ] in
  send 200 (R_ok (Value (JObj data)))).

End UtilController.
End UtilController.

(** ** api/v1/routes/util.mjs *)

(** The router runs [validateJWT] on every request it is handed, and then
    the handler of the route that matches.  Which route the method and the
    path of a request match, if any, is decided by Express and taken as
    given; without a match the router hands the request on. *)
Module UtilRouter.

Inductive Route :=
| generatepassword           (* router.get("/generatepassword", ...) *)
| stats.                     (* router.get("/stats", ...) *)

Definition router `{Imports} `{Externals} (matched : option Route) : Handler :=
  fun req w =>
    (* Validation middleware *)
    match Auth.validateJWT req w with
    | (Next req', w') =>
        match matched with
        | Some generatepassword => UtilController.generatePassword req' w'
        | Some stats => UtilController.stats req' w'
        | None => (Next req', w')
        end
    | (o, w') => (o, w')
    end.

End UtilRouter.

(* ===================================================================== *)
(** * A concrete surrounding, for running the further operations *)
(* ===================================================================== *)

Module Sample.

Definition lower_ascii (c : Ascii.ascii) : Ascii.ascii :=
  let n := Ascii.nat_of_ascii c in
  if (65 <=? n)%nat && (n <=? 90)%nat then Ascii.ascii_of_nat (n + 32) else c.

Fixpoint lower (s : string) : string :=
  match s with
  | EmptyString => EmptyString
  | String c s' => String (lower_ascii c) (lower s')
  end.

#[local] Instance externals : Externals := {|
  collate_le := String.leb;
  contains_insensitive := fun s q => includes (lower s) (lower q);
  Cache_size := 7;
  packageJson_version := "1.0.0";
  generator_generate := fun _ => inr "aB3$efgh1JKL;mn"
|}.

(** The seeded store with two more users and a group. *)
Definition store : Store := {|
  folders := folders Demo.store;
  groups := [ Demo.group "A"; Demo.group "E"; Demo.group "Builders" ];
  users := [ Demo.user "0" "Admin" None;
             Demo.user "bob" "Builder" (Some "hash:s3cret");
             Demo.user "carol" "Archer" None;
             Demo.user "dave" "builder" None ];
  usersGroups := [ Demo.member "m0" "0" "A"; Demo.member "m1" "0" "E";
                   Demo.member "m2" "bob" "E";
                   Demo.member "m3" "bob" "Builders" ];
  folderGroupPermission := [];
  items := items Demo.store
|}.

(** A request of bob that sets "x" as personal password, and bob's later
    attempt to open the personal folder with [attempt]. *)
Definition set_x : Request :=
  Demo.request "bob" false "" (<["personalsecret" := JStr "x"]> ∅).

Definition login_with (attempt : string) : Request :=
  Demo.request "bob" false "" (<["password" := JStr attempt]> ∅).

End Sample.

(* ===================================================================== *)
(** * The vocabulary of the further properties *)
(* ===================================================================== *)

(** The store [s] with the row of id [id] replaced by [u']. *)
Definition replace_user (id : string) (u' : Users.row) (s : Store) : Store :=
  with_users s
    (map (fun r => if Prisma.eqs (Users.id r) id then u' else r) (users s)).

(** The row [u] with [hash] as its personal secret, as updated at [now]. *)
Definition personal_secret_set (hash : string) (now : Z) (u : Users.row)
  : Users.row :=
  {| Users.id := Users.id u; Users.login := Users.login u;
     Users.lastname := Users.lastname u; Users.firstname := Users.firstname u;
     Users.authmethod := Users.authmethod u; Users.locale := Users.locale u;
     Users.email := Users.email u; Users.secret := Users.secret u;
     Users.secretexpiresat := Users.secretexpiresat u;
     Users.personalsecret := Some hash;
     Users.active := Users.active u;
     Users.createdat := Users.createdat u;
     Users.updatedat := now |}.

(** The text [list] searches for: a [search] parameter that is absent or
    empty is no search. *)
Definition search_text (q : option string) : option string :=
  match q with
  | Some s => if String.eqb s "" then None else Some s
  | None => None
  end.

(** Ascending by [key] in the order of the database: each element is at
    most its successor. *)
Definition ascending `{Externals} {A} (key : A -> string) (l : list A) : Prop :=
  Sorted (fun a b => Is_true (collate_le (key a) (key b))) l.

(** The order of the database compares any two strings. *)
Definition collation_total `{Externals} : Prop :=
  forall a b, collate_le a b = true \/ collate_le b a = true.

(** The string a body carries under a key ("" when it carries none). *)
Definition text (v : option JVal) : string :=
  match v with
  | Some (JStr s) => s
  | _ => ""
  end.

(** The rows [create] writes for a body, with [newid], [folderid] and
    [memberid] the three ids it draws, [hash] the hash of the password
    and [now] the time of the call. *)
Definition new_user `{Imports} (body : gmap string JVal) (newid hash : string)
    (now : Z) : Users.row :=
  {| Users.id := newid;
     Users.login := text (body !! "login");
     Users.lastname := text (body !! "lastname");
     Users.firstname := Some (text (body !! "firstname"));
     Users.authmethod := text (Some (nullish (body !! "authmethod") (JStr "local")));
     Users.locale := text (Some (nullish (body !! "locale") (JStr "en_US")));
     Users.email := text (body !! "email");
     Users.secret := hash;
     Users.secretexpiresat := UsersController.Date_2050_12_31_23_59_59;
     Users.personalsecret := None;
     Users.active := true;
     Users.createdat := now;
     Users.updatedat := now |}.

Definition new_folder (body : gmap string JVal) (newid folderid : string)
    (now : Z) : Folders.row :=
  {| Folders.id := folderid;
     Folders.parent := Some "P";
     Folders.description := text (body !! "login");
     Folders.personal := true;
     Folders.user := Some newid;
     Folders.createdat := now;
     Folders.updatedat := now |}.

Definition new_member (newid memberid : string) (now : Z)
  : UsersGroups.row :=
  {| UsersGroups.id := memberid;
     UsersGroups.user := newid;
     UsersGroups.group := "E";
     UsersGroups.createdat := now;
     UsersGroups.updatedat := now |}.

(** The store [s] with a user, a folder and a membership appended. *)
Definition with_created (u : Users.row) (f : Folders.row)
    (m : UsersGroups.row) (s : Store) : Store :=
  {| folders := folders s ++ [f];
     groups := groups s;
     users := users s ++ [u];
     usersGroups := usersGroups s ++ [m];
     folderGroupPermission := folderGroupPermission s;
     items := items s |}.

Section FurtherVocabulary.
Context `{Imports}.

(** The database [create] leaves when all three writes succeed. *)
Definition after_create (req : Request) (hash : string) (w : World) : Store :=
  let newid := newId_nth (drawn w) in
  with_created
    (new_user (Request.body req) newid hash (clock w))
    (new_folder (Request.body req) newid (newId_nth (S (drawn w))) (clock w))
    (new_member newid (newId_nth (S (S (drawn w)))) (clock w))
    (db w).

(** What lets [create] go through for a request, with [hash] the hash of
    the password: an admin token, a body that passes the schema and
    carries a last name, a hash function that returns, a store that
    answers, holds group "E" and has none of the three ids that will be
    drawn. *)
Definition creatable (req : Request) (w : World) (hash : string) : Prop :=
  up w
  /\ (exists j, Request.jwt req = Some j /\ Jwt.admin j = true)
  /\ JsonSchema.valid (Request.body req) UsersController.createSchema = true
  /\ (exists lastname, Request.body req !! "lastname" = Some (JStr lastname))
  /\ (exists secret, Request.body req !! "secret" = Some (JStr secret)
                     /\ Crypt_hashPassword secret = inr hash)
  /\ existsb (fun u => Prisma.eqs (Users.id u) (newId_nth (drawn w)))
       (users (db w)) = false
  /\ existsb (fun f => Prisma.eqs (Folders.id f) (newId_nth (S (drawn w))))
       (folders (db w)) = false
  /\ existsb (fun m => Prisma.eqs (UsersGroups.id m) (newId_nth (S (S (drawn w)))))
       (usersGroups (db w)) = false
  /\ existsb (fun g => Prisma.eqs (Groups.id g) "E") (groups (db w)) = true.

End FurtherVocabulary.

(** The folder [remove] takes for the personal folder of a user: the first
    folder marked personal that the user owns; "" when there is none. *)
Definition personalId_of (id : string) (s : Store) : string :=
  match Prisma.folders_findMany_personal id s with
  | f :: _ => Folders.id f
  | [] => ""
  end.

(** The database [remove] leaves for the user [id] when every statement
    succeeds: without the memberships of the user, the items in the
    personal folder, that folder, and the user. *)
Definition after_remove (id : string) (s : Store) : Store :=
  let personalId := personalId_of id s in
  {| folders :=
       if String.eqb personalId "" then folders s
       else List.filter (fun f => negb (Prisma.eqs (Folders.id f) personalId))
                        (folders s);
     groups := groups s;
     users := List.filter (fun u => negb (Prisma.eqs (Users.id u) id)) (users s);
     usersGroups :=
       List.filter (fun m => negb (Prisma.eqs (UsersGroups.user m) id))
                   (usersGroups s);
     folderGroupPermission := folderGroupPermission s;
     items :=
       if String.eqb personalId "" then items s
       else List.filter (fun i => negb (Prisma.eqs (Items.folder i) personalId))
                        (items s) |}.

(** What lets [remove] go through: an admin token, a stored user other
    than "0", a store that answers, and no permission row on the personal
    folder of the user. *)
Definition removable (req : Request) (w : World) : Prop :=
  up w
  /\ (exists j, Request.jwt req = Some j /\ Jwt.admin j = true)
  /\ user_exists (Request.params_id req) (db w)
  /\ Request.params_id req <> "0"
  /\ (personalId_of (Request.params_id req) (db w) = ""
      \/ existsb (fun p => Prisma.eqs (FolderGroupPermission.folder p)
                             (personalId_of (Request.params_id req) (db w)))
           (folderGroupPermission (db w)) = false).

Section Unreferenced.
Context `{Imports}.

(** Nothing in the database of [w] refers to the ids [create] is about to
    draw for the user and for the folder, and these ids are not the
    reserved ones ("0" for the admin, "" for no folder). *)
Definition unreferenced (w : World) : Prop :=
  let newid := newId_nth (drawn w) in
  let folderid := newId_nth (S (drawn w)) in
  newid <> "0"
  /\ folderid <> ""
  /\ existsb (fun m => Prisma.eqs (UsersGroups.user m) newid)
       (usersGroups (db w)) = false
  /\ Prisma.folders_findMany_personal newid (db w) = []
  /\ existsb (fun i => Prisma.eqs (Items.folder i) folderid) (items (db w)) = false
  /\ existsb (fun p => Prisma.eqs (FolderGroupPermission.folder p) folderid)
       (folderGroupPermission (db w)) = false.

End Unreferenced.

(** Every membership names a stored user. *)
Definition memberships_sound (s : Store) : Prop :=
  Forall (fun m => user_exists (UsersGroups.user m) s) (usersGroups s).

(** [s'] has the rows of [s]: the same users by id, in the same order,
    and the other tables unchanged. *)
Definition same_rows (s s' : Store) : Prop :=
  map Users.id (users s') = map Users.id (users s)
  /\ folders s' = folders s
  /\ groups s' = groups s
  /\ usersGroups s' = usersGroups s
  /\ folderGroupPermission s' = folderGroupPermission s
  /\ items s' = items s.

(* ===================================================================== *)
(** * Running a body: the equations of the monad and of the clients *)
(* ===================================================================== *)

Lemma bind_ok {A B} (m : M A) (f : A -> M B) w a w' :
  m w = (inr a, w') -> bind m f w = f a w'.
Proof. unfold bind. intros ->. reflexivity. Qed.

Lemma bind_err {A B} (m : M A) (f : A -> M B) w e w' :
  m w = (inl e, w') -> bind m f w = (inl e, w').
Proof. unfold bind. intros ->. reflexivity. Qed.

Lemma roundtrip_up w : up w -> roundtrip w = (inr tt, after_roundtrip w).
Proof.
  unfold up, roundtrip, after_roundtrip. intros Hup.
  destruct (outages w) as [|b o]; [reflexivity|].
  inversion Hup; subst. reflexivity.
Qed.

Lemma up_after_roundtrip w : up w -> up (after_roundtrip w).
Proof.
  unfold up, after_roundtrip. simpl. intros Hup.
  destruct (outages w); [constructor|]. inversion Hup; assumption.
Qed.

Lemma roundtrip_cases w :
  roundtrip w = (inr tt, after_roundtrip w)
  \/ roundtrip w = (inl StoreUnavailable, after_roundtrip w).
Proof.
  unfold roundtrip, after_roundtrip.
  destruct (head (outages w)) as [[|]|]; auto.
Qed.

Lemma query_up {A} (f : Store -> A) w :
  up w -> query prisma f w = (inr (f (db w)), after_roundtrip w).
Proof.
  intros Hup. unfold query.
  rewrite (bind_ok _ _ _ _ _ (roundtrip_up w Hup)). reflexivity.
Qed.

Lemma query_cases {A} (f : Store -> A) w :
  query prisma f w = (inr (f (db w)), after_roundtrip w)
  \/ query prisma f w = (inl StoreUnavailable, after_roundtrip w).
Proof.
  unfold query.
  destruct (roundtrip_cases w) as [E|E].
  - left. rewrite (bind_ok _ _ _ _ _ E). reflexivity.
  - right. rewrite (bind_err _ _ _ _ _ E). reflexivity.
Qed.

Lemma execute_up f w s' :
  up w -> f (db w) = inr s' ->
  execute prisma f w = (inr tt, with_db (after_roundtrip w) s').
Proof.
  intros Hup Hf. unfold execute.
  rewrite (bind_ok _ _ _ _ _ (roundtrip_up w Hup)). simpl. rewrite Hf.
  reflexivity.
Qed.

(** A writing call on [prisma] either commits what the statement computes
    or throws and leaves the tables as they were. *)
Lemma execute_cases f w :
  (exists s', f (db w) = inr s'
              /\ execute prisma f w = (inr tt, with_db (after_roundtrip w) s'))
  \/ (exists e, execute prisma f w = (inl e, after_roundtrip w)).
Proof.
  unfold execute.
  destruct (roundtrip_cases w) as [E|E].
  - rewrite (bind_ok _ _ _ _ _ E). simpl.
    destruct (f (db w)) as [e|s'] eqn:Hf.
    + right. eexists. reflexivity.
    + left. eexists. split; reflexivity.
  - right. rewrite (bind_err _ _ _ _ _ E). eexists. reflexivity.
Qed.

(* ===================================================================== *)
(** * Start-up *)
(* ===================================================================== *)

(** C8.  When the master key or the token-signing key is not configured,
    the script ends in [process.exit] with a code that is not 0, and the
    events before it contain neither a route installation nor
    [app.listen]; when both are configured, the script goes on to install
    the routers and to listen. *)
Theorem startup_requires_both_keys (cfg : Config) (version : string) (log_dir_exists : bool) :
  (Main.configured (master_key cfg) = false \/ Main.configured (jwt_key cfg) = false ->
     exists code,
       snd (Main.main cfg version log_dir_exists) = Main.process_exit code
       /\ code <> 0%Z
       /\ existsb Main.installs_route (fst (Main.main cfg version log_dir_exists)) = false
       /\ existsb Main.serves (fst (Main.main cfg version log_dir_exists)) = false)
  /\ (Main.configured (master_key cfg) = true /\ Main.configured (jwt_key cfg) = true ->
        snd (Main.main cfg version log_dir_exists) = Main.serving (listen_port cfg)
        /\ List.filter Main.installs_route (fst (Main.main cfg version log_dir_exists))
           = [ Main.app_use_router "/api/v1/items";
               Main.app_use_router "/api/v1/folders";
               Main.app_use_router "/api/v1/groups";
               Main.app_use_router "/api/v1/users";
               Main.app_use_router "/api/v1/login";
               Main.app_use_router "/api/v1/util";
               Main.app_use_router "/api/v1/events";
               Main.app_all "*" ]
        /\ last (fst (Main.main cfg version log_dir_exists)) = Some (Main.app_listen (listen_port cfg))).
Proof.
  unfold Main.main. split.
  - intros Hmiss.
    destruct (Main.configured (master_key cfg)) eqn:Hm; simpl.
    + destruct Hmiss as [Hmiss|Hmiss]; [discriminate|]. rewrite Hmiss. simpl.
      exists 2%Z. repeat split; discriminate.
    + exists 1%Z. repeat split; discriminate.
  - intros [-> ->]. simpl. split; [reflexivity|].
    split; destruct log_dir_exists; reflexivity.
Qed.

(** C8 on two configurations: one without the signing key, one with both
    keys. *)
Lemma startup_requires_both_keys_witness :
  (exists code,
     snd (Main.main {| master_key := Some "master"; jwt_key := None;
                       jwt_duration := 3600; listen_port := 3000;
                       log_dir := "logs" |} "1.0.0" true) = Main.process_exit code
     /\ code <> 0%Z
     /\ existsb Main.installs_route
          (fst (Main.main {| master_key := Some "master"; jwt_key := None;
                             jwt_duration := 3600; listen_port := 3000;
                             log_dir := "logs" |} "1.0.0" true)) = false
     /\ existsb Main.serves
          (fst (Main.main {| master_key := Some "master"; jwt_key := None;
                             jwt_duration := 3600; listen_port := 3000;
                             log_dir := "logs" |} "1.0.0" true)) = false)
  /\ (snd (Main.main Demo.config "1.0.0" true) = Main.serving 3000
      /\ last (fst (Main.main Demo.config "1.0.0" true)) = Some (Main.app_listen 3000)).
Proof.
  split.
  - apply (proj1 (startup_requires_both_keys _ "1.0.0" true)).
    right. reflexivity.
  - destruct (proj2 (startup_requires_both_keys Demo.config "1.0.0" true))
      as (Hend & _ & Hlast).
    + split; reflexivity.
    + split; [exact Hend | exact Hlast].
Defined.

(* ===================================================================== *)
(** * Tokens *)
(* ===================================================================== *)

Lemma filter_nonempty {A} (f : A -> bool) (l : list A) :
  (0 <? length (List.filter f l))%nat = existsb f l.
Proof.
  induction l as [|a l IH]; [reflexivity|].
  simpl. destruct (f a); simpl; [reflexivity | exact IH].
Qed.

Section Tokens.
Context `{Imports}.

Lemma isAdmin_string_up user w :
  up w ->
  Auth.isAdmin (Auth.OfString user) w
  = (inr (member_of (db w) user "A"), after_roundtrip w).
Proof.
  intros Hup. unfold Auth.isAdmin.
  rewrite (bind_ok _ _ _ _ _ (query_up _ w Hup)).
  unfold ret, Prisma.usersGroups_findMany. rewrite filter_nonempty.
  reflexivity.
Qed.

Lemma createToken_up user personalfolder w k :
  up w -> Jwt.secret (jwt_key Config_get) = Some k ->
  Auth.createToken user personalfolder w
  = (inr (issued user personalfolder w k), after_roundtrip w).
Proof.
  intros Hup Hk. unfold Auth.createToken.
  rewrite (bind_ok _ _ _ _ _ (isAdmin_string_up user w Hup)).
  unfold bind, Date_now, lift, Jwt.sign. rewrite Hk. reflexivity.
Qed.

Lemma validateJWT_verify req w t :
  bearer req = Some t ->
  Auth.validateJWT req w
  = match Jwt.verify (Some t) (jwt_key Config_get) (clock w) with
    | inr decoded =>
        (Next {| Request.headers_authorization := Request.headers_authorization req;
                 Request.params_id := Request.params_id req;
                 Request.body := Request.body req;
                 Request.jwt := Some decoded;
                 Request.user := Some (Jwt.user decoded);
                 Request.personalfolder := Some (Jwt.personalfolder decoded) |}, w)
    | inl err =>
        (Send 401 (R_ko (if String.eqb (name err) "TokenExpiredError"
                         then "Token expired" else "Invalid token")), w)
    end.
Proof.
  unfold bearer, Auth.validateJWT.
  destruct (Request.headers_authorization req) as [parts|]; [|discriminate].
  intros ->. reflexivity.
Qed.

Lemma verify_issued user personalfolder w k now :
  Jwt.secret (jwt_key Config_get) = Some k ->
  Jwt.verify (Some (issued user personalfolder w k)) (jwt_key Config_get) now
  = if (clock w / 1000 + jwt_duration Config_get <=? now / 1000)%Z
    then inl TokenExpiredError
    else match issued user personalfolder w k with
         | Jwt.Signed _ _ p => inr p
         | Jwt.Malformed _ => inl TokenExpiredError
         end.
Proof.
  intros Hk. unfold issued, Jwt.verify. rewrite Hk. simpl.
  rewrite String.eqb_refl. reflexivity.
Qed.

(** C2.  With a configured signing key and the store answering,
    [createToken user personalfolder] returns a token such that
    [validateJWT], on a request that carries it,
    - before the expiry (issue time plus the configured duration, in
      seconds) hands the request on with [req.user = user] and
      [req.personalfolder = personalfolder];
    - from the expiry on answers 401 "Token expired".
    A request whose token is not one signed with the configured key is
    answered 401 "Invalid token", at any time. *)
Theorem token_round_trip (user : string) (personalfolder : bool) (w : World) (k : string) :
  up w ->
  Jwt.secret (jwt_key Config_get) = Some k ->
  exists token w',
    Auth.createToken user personalfolder w = (inr token, w')
    /\ (forall req w2,
          bearer req = Some token ->
          (clock w2 / 1000 < clock w / 1000 + jwt_duration Config_get)%Z ->
          exists req',
            Auth.validateJWT req w2 = (Next req', w2)
            /\ Request.user req' = Some user
            /\ Request.personalfolder req' = Some personalfolder)
    /\ (forall req w2,
          bearer req = Some token ->
          (clock w / 1000 + jwt_duration Config_get <= clock w2 / 1000)%Z ->
          Auth.validateJWT req w2 = (Send 401 (R_ko "Token expired"), w2))
    /\ (forall req w2 forged,
          bearer req = Some forged ->
          (forall alg p, forged <> Jwt.Signed alg k p) ->
          Auth.validateJWT req w2 = (Send 401 (R_ko "Invalid token"), w2)).
Proof.
  intros Hup Hk.
  exists (issued user personalfolder w k), (after_roundtrip w).
  split; [apply createToken_up; assumption|].
  split; [|split].
  - intros req w2 Hb Hlt.
    rewrite (validateJWT_verify _ _ _ Hb), (verify_issued _ _ _ _ _ Hk).
    destruct (Z.leb_spec (clock w / 1000 + jwt_duration Config_get)
                         (clock w2 / 1000)); [lia|].
    simpl. eexists. split; [reflexivity|]. split; reflexivity.
  - intros req w2 Hb Hge.
    rewrite (validateJWT_verify _ _ _ Hb), (verify_issued _ _ _ _ _ Hk).
    destruct (Z.leb_spec (clock w / 1000 + jwt_duration Config_get)
                         (clock w2 / 1000)); [reflexivity|lia].
  - intros req w2 forged Hb Hforged.
    rewrite (validateJWT_verify _ _ _ Hb).
    destruct forged as [alg k' p|raw]; [|reflexivity].
    unfold Jwt.verify. rewrite Hk.
    destruct (Jwt.hmac alg); [|reflexivity]. simpl.
    destruct (String.eqb_spec k' k) as [->|Hne]; [|reflexivity].
    destruct (Hforged alg p). reflexivity.
Qed.

(** C3.  The admin flag of the token [createToken user personalfolder]
    returns is the membership of [user] in group "A" in the database of
    the issuing world; and for a request that [validateJWT] has handed
    on with this token, [isAdmin] answers that flag in every world, with
    whatever database, and returns the world untouched (no round trip
    to the store is made). *)
Theorem admin_flag_is_issuance_snapshot (user : string) (personalfolder : bool) (w : World) (k : string) :
  up w ->
  Jwt.secret (jwt_key Config_get) = Some k ->
  exists token w',
    Auth.createToken user personalfolder w = (inr token, w')
    /\ (exists p, token = Jwt.Signed Jwt.HS512 k p
                  /\ Jwt.admin p = member_of (db w) user "A")
    /\ (forall req w2 req' w2',
          bearer req = Some token ->
          Auth.validateJWT req w2 = (Next req', w2') ->
          forall w3,
            Auth.isAdmin (Auth.OfRequest req') w3
            = (inr (member_of (db w) user "A"), w3)).
Proof.
  intros Hup Hk.
  exists (issued user personalfolder w k), (after_roundtrip w).
  split; [apply createToken_up; assumption|].
  split; [eexists; split; reflexivity|].
  intros req w2 req' w2' Hb Hv w3.
  rewrite (validateJWT_verify _ _ _ Hb), (verify_issued _ _ _ _ _ Hk) in Hv.
  destruct (clock w / 1000 + jwt_duration Config_get <=? clock w2 / 1000)%Z;
    [discriminate|].
  simpl in Hv. injection Hv as <- _. reflexivity.
Qed.

End Tokens.

(** C2 for a token of bob issued at second 5 with a lifetime of 3600
    seconds: accepted in second 3604, expired in second 3605; a token
    signed with another key is invalid. *)
Lemma token_round_trip_witness :
  exists token w',
    Auth.createToken (H := Demo.imports) "bob" false (Demo.world Demo.store []) = (inr token, w')
    /\ (exists req',
          Auth.validateJWT (H := Demo.imports) (Demo.carrying token)
            (with_clock (Demo.world Demo.store []) 3604999) = (Next req', with_clock (Demo.world Demo.store []) 3604999)
          /\ Request.user req' = Some "bob"
          /\ Request.personalfolder req' = Some false)
    /\ Auth.validateJWT (H := Demo.imports) (Demo.carrying token)
         (with_clock (Demo.world Demo.store []) 3605000)
       = (Send 401 (R_ko "Token expired"), with_clock (Demo.world Demo.store []) 3605000)
    /\ Auth.validateJWT (H := Demo.imports)
         (Demo.carrying (Jwt.Signed Jwt.HS512 "other" {| Jwt.user := "0"; Jwt.admin := true; Jwt.personalfolder := true; Jwt.iat := 0; Jwt.exp := 9999 |}))
         (Demo.world Demo.store [])
       = (Send 401 (R_ko "Invalid token"), Demo.world Demo.store []).
Proof.
  destruct (token_round_trip (H := Demo.imports) "bob" false
              (Demo.world Demo.store []) "signing")
    as (token & w' & Hc & Hbefore & Hafter & Hforged).
  - constructor.
  - reflexivity.
  - exists token, w'. split; [exact Hc|]. split; [|split].
    + apply Hbefore; reflexivity.
    + apply Hafter; [reflexivity | discriminate].
    + apply Hforged with (forged := Jwt.Signed Jwt.HS512 "other"
        {| Jwt.user := "0"; Jwt.admin := true; Jwt.personalfolder := true;
           Jwt.iat := 0; Jwt.exp := 9999 |}); [reflexivity|].
      intros alg p. discriminate.
Defined.

(** C3 for a token of user "0": the admin check still answers true on a
    database from which the membership in "A" has been removed, and with
    the store down. *)
Lemma admin_flag_is_issuance_snapshot_witness :
  exists token w',
    Auth.createToken (H := Demo.imports) "0" false (Demo.world Demo.store []) = (inr token, w')
    /\ (exists p, token = Jwt.Signed Jwt.HS512 "signing" p /\ Jwt.admin p = true)
    /\ (forall req w2 req' w2',
          bearer req = Some token ->
          Auth.validateJWT (H := Demo.imports) req w2 = (Next req', w2') ->
          Auth.isAdmin (Auth.OfRequest req') (Demo.world Demo.revoked [true])
          = (inr true, Demo.world Demo.revoked [true])).
Proof.
  destruct (admin_flag_is_issuance_snapshot (H := Demo.imports) "0" false
              (Demo.world Demo.store []) "signing")
    as (token & w' & Hc & Hflag & Hlater).
  - constructor.
  - reflexivity.
  - exists token, w'. split; [exact Hc|]. split; [exact Hflag|].
    intros req w2 req' w2' Hb Hv.
    exact (Hlater req w2 req' w2' Hb Hv (Demo.world Demo.revoked [true])).
Defined.

(* ===================================================================== *)
(** * get *)
(* ===================================================================== *)

Lemma select_lookup {R} (column : R -> string -> option JVal) cols r k :
  Prisma.select column cols r !! k
  = if existsb (String.eqb k) cols then column r k else None.
Proof.
  unfold Prisma.select.
  induction cols as [|c cols IH]; simpl; [apply lookup_empty|].
  destruct (column r c) as [v|] eqn:Hc; simpl.
  - destruct (String.eqb_spec k c) as [->|Hne]; simpl.
    + rewrite lookup_insert_eq. symmetry. exact Hc.
    + rewrite lookup_insert_ne by congruence. exact IH.
  - etrans; [exact IH|].
    destruct (String.eqb_spec k c) as [->|Hne]; simpl; [|reflexivity].
    rewrite Hc. destruct (existsb _ cols); reflexivity.
Qed.

Lemma users_column_redact u k :
  k <> "personalsecret" ->
  Prisma.users_column (redact u) k = Prisma.users_column u k.
Proof.
  intros Hne. unfold Prisma.users_column, Prisma.eqs.
  rewrite (proj2 (String.eqb_neq k "personalsecret") Hne). reflexivity.
Qed.

Lemma not_null_personalsecret u :
  UsersController.not_null (Prisma.users_column u "personalsecret")
  = bool_decide (is_Some (Users.personalsecret u)).
Proof. destruct u as [i l ln fn am lo em se sx [ps|] ac ca ua]; reflexivity. Qed.

Lemma get_object_lookup u :
  get_object u !! "personalsecret" = None
  /\ get_object u !! "haspersonalsecret"
     = Some (JBool (bool_decide (is_Some (Users.personalsecret u)))).
Proof.
  unfold get_object. cbv zeta. split.
  - apply lookup_delete_eq.
  - rewrite lookup_delete_ne by discriminate. rewrite lookup_insert_eq.
    rewrite select_lookup. simpl existsb. cbv iota.
    rewrite not_null_personalsecret. reflexivity.
Qed.

Lemma get_object_redact u : get_object (redact u) = get_object u.
Proof.
  apply map_eq. intros k.
  destruct (String.eqb_spec k "personalsecret") as [->|Hne].
  - rewrite (proj1 (get_object_lookup u)), (proj1 (get_object_lookup (redact u))).
    reflexivity.
  - destruct (String.eqb_spec k "haspersonalsecret") as [->|Hne'].
    + rewrite (proj2 (get_object_lookup u)), (proj2 (get_object_lookup (redact u))).
      destruct u as [i l ln fn am lo em se sx [ps|] ac ca ua]; reflexivity.
    + unfold get_object. cbv zeta.
      rewrite !lookup_delete_ne, !lookup_insert_ne, !select_lookup by congruence.
      rewrite users_column_redact by assumption. reflexivity.
Qed.

Lemma find_redact id l :
  List.find (fun u => Prisma.eqs (Users.id u) id) (map redact l)
  = redact <$> List.find (fun u => Prisma.eqs (Users.id u) id) l.
Proof.
  induction l as [|u l IH]; [reflexivity|].
  simpl. destruct (Prisma.eqs (Users.id u) id); [reflexivity | exact IH].
Qed.

(** What [get] answers, by cases on the round trip and on the row. *)
Lemma get_outcome req w :
  fst (UsersController.get req w)
  = match head (outages w) with
    | Some true => NextErr StoreUnavailable
    | _ => match Prisma.users_findUnique (Request.params_id req) (db w) with
           | None => Send 404 (R_ko "User not found")
           | Some u => Send 200 (R_ok (Value (JObj (get_object u))))
           end
    end.
Proof.
  unfold UsersController.get, try_next, query, bind, roundtrip.
  destruct (head (outages w)) as [[|]|]; simpl;
    try reflexivity;
    destruct (Prisma.users_findUnique (Request.params_id req) (db w));
    reflexivity.
Qed.

(** C9.  [get] answers the same for two databases that differ only in
    the values of stored (non-null) personal secrets; and the object of
    a 200 answer has no [personalsecret] property, only the boolean
    [haspersonalsecret], true exactly when the stored field is not
    null. *)
Theorem get_hides_personalsecret (req : Request) (w : World) (s1 s2 : Store) :
  redact_store s1 = redact_store s2 ->
  fst (UsersController.get req (with_db w s1))
  = fst (UsersController.get req (with_db w s2))
  /\ (forall o,
        fst (UsersController.get req (with_db w s1)) = Send 200 (R_ok (Value (JObj o))) ->
        o !! "personalsecret" = None
        /\ exists u,
             Prisma.users_findUnique (Request.params_id req) s1 = Some u
             /\ o !! "haspersonalsecret"
                = Some (JBool (bool_decide (is_Some (Users.personalsecret u))))).
Proof.
  intros Hred. rewrite !get_outcome. simpl. split.
  - destruct (head (outages w)) as [[|]|]; try reflexivity.
    all: assert (Hfind :
        redact <$> Prisma.users_findUnique (Request.params_id req) s1
        = redact <$> Prisma.users_findUnique (Request.params_id req) s2)
      by (unfold Prisma.users_findUnique; rewrite <- !find_redact;
          change (map redact (users s1)) with (users (redact_store s1));
          rewrite Hred; reflexivity).
    all: destruct (Prisma.users_findUnique (Request.params_id req) s1) as [u1|];
         destruct (Prisma.users_findUnique (Request.params_id req) s2) as [u2|];
         try discriminate; try reflexivity.
    all: assert (Hr : redact u1 = redact u2) by (simpl in Hfind; congruence);
         rewrite <- (get_object_redact u1), <- (get_object_redact u2), Hr;
         reflexivity.
  - intros o Ho.
    destruct (head (outages w)) as [[|]|]; try discriminate.
    all: destruct (Prisma.users_findUnique (Request.params_id req) s1) as [u|];
         try discriminate.
    all: injection Ho as <-; destruct (get_object_lookup u) as [Hp Hh];
         split; [exact Hp | exists u; split; [reflexivity | exact Hh]].
Qed.

(** C9 on two stores that differ in the hash of bob's personal secret. *)
Lemma get_hides_personalsecret_witness :
  fst (UsersController.get (Demo.request "0" true "bob" ∅)
         (with_db (Demo.world Demo.store []) Demo.store))
  = fst (UsersController.get (Demo.request "0" true "bob" ∅)
           (with_db (Demo.world Demo.store [])
              (with_users Demo.store
                 [ Demo.user "0" "Admin" None;
                   Demo.user "bob" "Builder" (Some "hash:another") ]))).
Proof.
  apply (get_hides_personalsecret (Demo.request "0" true "bob" ∅)
           (Demo.world Demo.store []) Demo.store
           (with_users Demo.store
              [ Demo.user "0" "Admin" None;
                Demo.user "bob" "Builder" (Some "hash:another") ])).
  reflexivity.
Defined.

(* ===================================================================== *)
(** * create *)
(* ===================================================================== *)

Lemma object_lookup l k : UsersController.object l !! k = object_get l k.
Proof.
  unfold UsersController.object.
  induction l as [|[k' [x|]] l IH]; simpl.
  - apply lookup_empty.
  - destruct (String.eqb_spec k' k) as [->|Hne].
    + apply lookup_insert_eq.
    + rewrite lookup_insert_ne by assumption. exact IH.
  - destruct (String.eqb k' k); exact IH.
Qed.

Lemma arg_String_inr v s : Prisma.arg_String v = inr s -> v = Some (JStr s).
Proof.
  unfold Prisma.arg_String. destruct v as [[]|]; try discriminate.
  intros [= ->]. reflexivity.
Qed.

Ltac exc_step :=
  match goal with
  | |- context [ mbind _ ?m ] =>
      let E := fresh "E" in
      destruct m eqn:E; unfold mbind at 1, Exc_bind at 1; [discriminate|]
  end.

(** The rows a successful [create] statement adds. *)
Lemma users_create_inr now data s s' :
  Prisma.users_create now data s = inr s' ->
  exists u, s' = with_users s (users s ++ [u])
            /\ data !! "id" = Some (JStr (Users.id u)).
Proof.
  unfold Prisma.users_create. repeat exc_step.
  destruct (existsb _ _); [discriminate|].
  intros [= <-]. eexists. split; [reflexivity|]. simpl.
  apply arg_String_inr. assumption.
Qed.

Lemma folders_create_inr now data s s' :
  Prisma.folders_create now data s = inr s' ->
  exists f, s' = with_folders s (folders s ++ [f])
            /\ data !! "id" = Some (JStr (Folders.id f))
            /\ Prisma.arg_String_opt (data !! "parent") = inr (Folders.parent f)
            /\ Prisma.arg_Boolean_default false (data !! "personal") = inr (Folders.personal f)
            /\ Prisma.arg_String_opt (data !! "user") = inr (Folders.user f).
Proof.
  unfold Prisma.folders_create. repeat exc_step.
  destruct (existsb _ _); [discriminate|].
  intros [= <-]. eexists. split; [reflexivity|]. simpl.
  repeat split; try assumption.
  apply arg_String_inr. assumption.
Qed.

Lemma usersGroups_create_inr now data s s' :
  Prisma.usersGroups_create now data s = inr s' ->
  exists m, s' = with_usersGroups s (usersGroups s ++ [m])
            /\ data !! "group" = Some (JStr (UsersGroups.group m))
            /\ data !! "user" = Some (JStr (UsersGroups.user m)).
Proof.
  unfold Prisma.usersGroups_create. repeat exc_step.
  destruct (existsb _ _); [discriminate|].
  destruct (negb _); [discriminate|].
  intros [= <-]. eexists. split; [reflexivity|]. simpl.
  split; apply arg_String_inr; assumption.
Qed.

Lemma bind_ret {A B} (a : A) (f : A -> M B) w : bind (ret a) f w = f a w.
Proof. reflexivity. Qed.

Lemma bind_throw {A B} (e : Error) (f : A -> M B) w :
  bind (throw e) f w = (inl e, w).
Proof. reflexivity. Qed.

Lemma bind_assoc {A B C} (m : M A) (k1 : A -> M B) (k2 : B -> M C) w :
  bind (bind m k1) k2 w = bind m (fun a => bind (k1 a) k2) w.
Proof. unfold bind. destruct (m w) as [[e|a] w1]; reflexivity. Qed.

Lemma bind_lift {A B} (x : Exc A) (f : A -> M B) w :
  bind (lift x) f w = match x with inl e => (inl e, w) | inr a => f a w end.
Proof. unfold bind, lift. destruct x; reflexivity. Qed.

Section Create.
Context `{Imports}.

Lemma execute_now_cases f w :
  (exists s', f (clock w) (db w) = inr s'
              /\ UsersController.execute_now prisma f w
                 = (inr tt, with_db (after_roundtrip w) s'))
  \/ (exists e, UsersController.execute_now prisma f w
                = (inl e, after_roundtrip w)).
Proof.
  unfold UsersController.execute_now, Date_now, bind at 1.
  exact (execute_cases (f (clock w)) w).
Qed.

Lemma hashPassword_world v w :
  exists x, UsersController.hashPassword v w = (x, w).
Proof.
  unfold UsersController.hashPassword, lift, throw.
  destruct v as [[]|]; eexists; reflexivity.
Qed.

Lemma create_result_0 req w o w' :
  db w' = db w -> (forall payload, o <> Send 201 payload) ->
  create_result req w (o, w').
Proof.
  intros Hdb Ho. exists 0. simpl. rewrite Hdb. split; [constructor|].
  split; [discriminate|]. split; [intros _; exact Ho | lia].
Qed.

Lemma create_cases req w : create_result req w (UsersController.create req w).
Proof.
  unfold UsersController.create, try_next.
  (* Must be admin *)
  unfold Auth.isAdmin.
  destruct (Request.jwt req) as [j|];
    [rewrite bind_ret | rewrite bind_throw].
  2: { apply create_result_0; [reflexivity | discriminate]. }
  destruct (negb (Jwt.admin j)).
  { apply create_result_0; [reflexivity | discriminate]. }
  (* Validate payload *)
  destruct (negb (JsonSchema.valid (Request.body req) UsersController.createSchema)).
  { apply create_result_0; [reflexivity | discriminate]. }
  (* Creates user *)
  unfold newId at 1, bind at 1.
  destruct (hashPassword_world (Request.body req !! "secret")
              {| db := db w; pending := pending w; clock := clock w;
                 drawn := S (drawn w); outages := outages w; audit := audit w |})
    as [[e|hash] Hh].
  { rewrite (bind_err _ _ _ _ _ Hh).
    apply create_result_0; [reflexivity | discriminate]. }
  rewrite (bind_ok _ _ _ _ _ Hh).
  match goal with
  | |- context [ bind (UsersController.execute_now prisma ?f) _ ?w1 ] =>
      destruct (execute_now_cases f w1) as [(s1 & Hs1 & E1)|(e & E1)]
  end.
  2: { rewrite (bind_err _ _ _ _ _ E1).
       apply create_result_0; [reflexivity | discriminate]. }
  rewrite (bind_ok _ _ _ _ _ E1).
  apply users_create_inr in Hs1. destruct Hs1 as (u & -> & Hid).
  rewrite object_lookup in Hid. simpl in Hid. injection Hid as Hid.
  assert (C1 : Created (newId_nth (drawn w)) (db w) 1
                 (with_users (db w) (users (db w) ++ [u])))
    by (constructor; congruence).
  (* Creates personal folder *)
  unfold newId at 1, bind at 1.
  match goal with
  | |- context [ bind (UsersController.execute_now prisma ?f) _ ?w1 ] =>
      destruct (execute_now_cases f w1) as [(s2 & Hs2 & E2)|(e & E2)]
  end.
  2: { rewrite (bind_err _ _ _ _ _ E2). exists 1. simpl. split; [exact C1|].
       split; [discriminate|]. split; [discriminate | eauto]. }
  rewrite (bind_ok _ _ _ _ _ E2).
  apply folders_create_inr in Hs2.
  destruct Hs2 as (f & -> & _ & Hparent & Hpersonal & Huser).
  rewrite object_lookup in Hparent, Hpersonal, Huser.
  simpl in Hparent, Hpersonal, Huser.
  injection Hparent as Hparent. injection Hpersonal as Hpersonal.
  injection Huser as Huser.
  assert (C2 : Created (newId_nth (drawn w)) (db w) 2
                 (with_folders (with_users (db w) (users (db w) ++ [u]))
                    (folders (with_users (db w) (users (db w) ++ [u])) ++ [f])))
    by (constructor; congruence).
  (* Add user to 'Everyone' group *)
  unfold newId at 1, bind at 1.
  match goal with
  | |- context [ bind (UsersController.execute_now prisma ?f) _ ?w1 ] =>
      destruct (execute_now_cases f w1) as [(s3 & Hs3 & E3)|(e & E3)]
  end.
  2: { rewrite (bind_err _ _ _ _ _ E3). exists 2. simpl. split; [exact C2|].
       split; [discriminate|]. split; [discriminate | eauto]. }
  rewrite (bind_ok _ _ _ _ _ E3).
  apply usersGroups_create_inr in Hs3. destruct Hs3 as (m & -> & Hgroup & Hmuser).
  rewrite object_lookup in Hgroup, Hmuser. simpl in Hgroup, Hmuser.
  injection Hgroup as Hgroup. injection Hmuser as Hmuser.
  exists 3.
  split; [exact (created_membership _ _ _ m C2 (eq_sym Hgroup) (eq_sym Hmuser))|].
  simpl. split; [reflexivity|]. split; [congruence | lia].
Qed.

End Create.

Lemma Created_user newid s n s' :
  Created newid s n s' -> 1 <= n ->
  exists u, In u (users s') /\ Users.id u = newid.
Proof.
  induction 1 as [|u Hu|s1 f HC IH Hp Hu Hpa|s2 m HC IH Hg Hu]; intros Hn.
  - lia.
  - exists u. split; [|exact Hu]. simpl. apply in_or_app. right. left. reflexivity.
  - apply IH. lia.
  - apply IH. lia.
Qed.

Lemma Created_folders newid s n s' :
  Created newid s n s' ->
  forall f, In f (folders s') ->
    In f (folders s)
    \/ (Folders.personal f = true /\ Folders.user f = Some newid
        /\ Folders.parent f = Some "P"
        /\ exists u, In u (users s') /\ Users.id u = newid).
Proof.
  induction 1 as [|u Hu|s1 f0 HC IH Hp Hu Hpa|s2 m HC IH Hg Hu]; intros f Hf.
  - left. exact Hf.
  - left. exact Hf.
  - simpl in Hf. apply in_app_or in Hf. destruct Hf as [Hf|[<-|[]]].
    + apply IH. exact Hf.
    + right. repeat split; try assumption.
      apply (Created_user _ _ _ _ HC). lia.
  - apply IH. exact Hf.
Qed.

Lemma Created_membership newid s s' :
  Created newid s 3 s' -> member_of s' newid "E" = true.
Proof.
  inversion 1 as [| | |s2 m HC Hg Hu]; subst.
  unfold member_of. simpl. rewrite existsb_app. simpl.
  unfold Prisma.eqs. rewrite Hg, String.eqb_refl. simpl.
  rewrite String.eqb_refl. simpl. apply orb_true_r.
Qed.

Lemma valid_prop_str v :
  match v with Some x => JsonSchema.valid_prop JsonSchema.str x | None => true end = true ->
  string_or_absent v.
Proof.
  destruct v as [[]|]; simpl; try discriminate; intros _;
    [right; eexists; reflexivity | left; reflexivity].
Qed.

Lemma execute_now_up `{Imports} f w s' :
  up w -> f (clock w) (db w) = inr s' ->
  UsersController.execute_now prisma f w
  = (inr tt, with_db (after_roundtrip w) s').
Proof.
  intros Hup Hf. unfold UsersController.execute_now, Date_now, bind at 1.
  apply execute_up; assumption.
Qed.

Lemma valid_createSchema body :
  JsonSchema.valid body UsersController.createSchema = true ->
  (exists s, body !! "login" = Some (JStr s))
  /\ (exists s, body !! "firstname" = Some (JStr s))
  /\ string_or_absent (body !! "lastname")
  /\ string_or_absent (body !! "authmethod")
  /\ string_or_absent (body !! "locale")
  /\ (exists s, body !! "email" = Some (JStr s))
  /\ (exists s, body !! "secret" = Some (JStr s)).
Proof.
  unfold JsonSchema.valid. simpl. rewrite !andb_true_r.
  rewrite !andb_true_iff.
  intros ((Hl & Hf & Hla & Ham & Hlo & He & Hs) & Rl & Rf & Re & Rs).
  apply valid_prop_str in Hl, Hf, Hla, Ham, Hlo, He, Hs.
  apply bool_decide_eq_true in Rl, Rf, Re, Rs.
  repeat split; try assumption.
  - destruct Hl as [Hl|Hl]; [rewrite Hl in Rl; destruct Rl; discriminate | exact Hl].
  - destruct Hf as [Hf|Hf]; [rewrite Hf in Rf; destruct Rf; discriminate | exact Hf].
  - destruct He as [He|He]; [rewrite He in Re; destruct Re; discriminate | exact He].
  - destruct Hs as [Hs|Hs]; [rewrite Hs in Rs; destruct Rs; discriminate | exact Hs].
Qed.

Lemma nullish_string v d :
  string_or_absent v -> exists s, nullish v (JStr d) = JStr s.
Proof. intros [->|[s ->]]; eexists; reflexivity. Qed.

Section CreateRun.
Context `{Imports}.

(** [create] goes through for an admin's request with a valid body that
    also carries the last name the [users] table requires, when the hash
    function returns, the three ids drawn are new, group "E" exists and
    the store answers. *)
Lemma create_run req w j lastname hash :
  up w ->
  Request.jwt req = Some j -> Jwt.admin j = true ->
  JsonSchema.valid (Request.body req) UsersController.createSchema = true ->
  Request.body req !! "lastname" = Some (JStr lastname) ->
  (forall s, Request.body req !! "secret" = Some (JStr s) ->
             Crypt_hashPassword s = inr hash) ->
  existsb (fun u => Prisma.eqs (Users.id u) (newId_nth (drawn w)))
          (users (db w)) = false ->
  existsb (fun f => Prisma.eqs (Folders.id f) (newId_nth (S (drawn w))))
          (folders (db w)) = false ->
  existsb (fun m => Prisma.eqs (UsersGroups.id m) (newId_nth (S (S (drawn w)))))
          (usersGroups (db w)) = false ->
  existsb (fun g => Prisma.eqs (Groups.id g) "E") (groups (db w)) = true ->
  fst (UsersController.create req w)
  = Send 201 (R_ok (Value (JObj {[ "id" := JStr (newId_nth (drawn w)) ]}))).
Proof.
  intros Hup Hj Ha Hv Hln Hhash Hf1 Hf2 Hf3 HE.
  destruct (valid_createSchema _ Hv)
    as ((login & Hlogin) & (first & Hfirst) & _ & Ham & Hlo
        & (email & Hemail) & (secret & Hsecret)).
  destruct (nullish_string _ "local" Ham) as (am & Hamv).
  destruct (nullish_string _ "en_US" Hlo) as (lo & Hlov).
  unfold UsersController.create, try_next, Auth.isAdmin.
  rewrite Hj, bind_ret, Ha, Hv. change (negb true) with false. cbv iota.
  unfold newId at 1, bind at 1.
  rewrite Hsecret. unfold UsersController.hashPassword.
  rewrite bind_lift, (Hhash _ Hsecret).
  rewrite Hlogin, Hfirst, Hln, Hemail, Hamv, Hlov.
  (* Creates user *)
  match goal with
  | |- context [ bind (UsersController.execute_now prisma ?f) _ ?w1 ] =>
      assert (Hs1 : exists s1, f (clock w1) (db w1) = inr s1
                               /\ folders s1 = folders (db w)
                               /\ usersGroups s1 = usersGroups (db w)
                               /\ groups s1 = groups (db w)
                               /\ existsb (fun u => Prisma.eqs (Users.id u)
                                                      (newId_nth (drawn w)))
                                    (users s1) = true);
        [|assert (Hup1 : up w1) by exact Hup]
  end.
  { unfold Prisma.users_create. rewrite !object_lookup. simpl.
    rewrite Hf1. eexists. split; [reflexivity|]. simpl.
    repeat split. rewrite existsb_app. simpl. unfold Prisma.eqs.
    rewrite String.eqb_refl, orb_true_r. reflexivity. }
  destruct Hs1 as (s1 & Hs1 & Hfo1 & Hug1 & Hgr1 & Hus1).
  rewrite (bind_ok _ _ _ _ _ (execute_now_up _ _ _ Hup1 Hs1)).
  (* Creates personal folder *)
  unfold newId at 1, bind at 1.
  match goal with
  | |- context [ bind (UsersController.execute_now prisma ?f) _ ?w1 ] =>
      assert (Hs2 : exists s2, f (clock w1) (db w1) = inr s2
                               /\ usersGroups s2 = usersGroups (db w)
                               /\ groups s2 = groups (db w)
                               /\ users s2 = users s1);
        [|assert (Hup2 : up w1) by apply (up_after_roundtrip _ Hup1)]
  end.
  { unfold Prisma.folders_create. rewrite !object_lookup. simpl.
    rewrite Hfo1, Hf2. eexists. split; [reflexivity|]. simpl.
    repeat split; assumption. }
  destruct Hs2 as (s2 & Hs2 & Hug2 & Hgr2 & Hus2).
  rewrite (bind_ok _ _ _ _ _ (execute_now_up _ _ _ Hup2 Hs2)).
  (* Add user to 'Everyone' group *)
  unfold newId at 1, bind at 1.
  match goal with
  | |- context [ bind (UsersController.execute_now prisma ?f) _ ?w1 ] =>
      assert (Hs3 : exists s3, f (clock w1) (db w1) = inr s3);
        [|assert (Hup3 : up w1) by apply (up_after_roundtrip _ Hup2)]
  end.
  { unfold Prisma.usersGroups_create. rewrite !object_lookup. simpl.
    rewrite Hug2, Hf3, Hus2, Hus1, Hgr2, HE. eexists. reflexivity. }
  destruct Hs3 as (s3 & Hs3).
  rewrite (bind_ok _ _ _ _ _ (execute_now_up _ _ _ Hup3 Hs3)).
  reflexivity.
Qed.

End CreateRun.

Section CreateFacts.
Context `{Imports}.

(** The order of the writes of [create]: the database after the call is
    the database before plus the first [n] of the three rows (user,
    personal folder, membership), and a 201 answer means all three.
    Every folder the call adds is personal, owned by the new user and
    placed under "P", and the new user's row is then in place: the
    folder is never persisted without the user. *)
Lemma create_writes_in_order (req : Request) (w : World) :
  exists n,
    Created (newId_nth (drawn w)) (db w) n (db (snd (UsersController.create req w)))
    /\ (forall payload,
          fst (UsersController.create req w) = Send 201 payload -> n = 3)
    /\ (forall f,
          In f (folders (db (snd (UsersController.create req w)))) ->
          ~ In f (folders (db w)) ->
          Folders.personal f = true
          /\ Folders.user f = Some (newId_nth (drawn w))
          /\ Folders.parent f = Some "P"
          /\ exists u, In u (users (db (snd (UsersController.create req w))))
                       /\ Users.id u = newId_nth (drawn w)).
Proof.
  destruct (create_cases req w) as (n & HC & H3 & Hn3 & _).
  exists n. split; [exact HC|]. split.
  - intros payload Hp. destruct (Nat.eq_dec n 3) as [->|Hne]; [reflexivity|].
    destruct (Hn3 Hne payload Hp).
  - intros f Hf Hnew.
    destruct (Created_folders _ _ _ _ HC f Hf) as [Hold|Hnewf];
      [contradiction | exact Hnewf].
Qed.

(** C7.  When [create] answers 201, the answer carries the id of the new
    user, a row with this id is in [users], and a row that links this id
    to group "E" is in [usersGroups].  The answer is 201 for an admin's
    request with a valid body that carries a last name, when the hash
    function returns, the ids drawn are new, group "E" exists and the
    store answers. *)
Theorem created_user_joins_everyone :
  (forall req w payload w',
     UsersController.create req w = (Send 201 payload, w') ->
     payload = R_ok (Value (JObj {[ "id" := JStr (newId_nth (drawn w)) ]}))
     /\ (exists u, In u (users (db w')) /\ Users.id u = newId_nth (drawn w))
     /\ member_of (db w') (newId_nth (drawn w)) "E" = true)
  /\ (forall req w j lastname hash,
        up w ->
        Request.jwt req = Some j -> Jwt.admin j = true ->
        JsonSchema.valid (Request.body req) UsersController.createSchema = true ->
        Request.body req !! "lastname" = Some (JStr lastname) ->
        (forall s, Request.body req !! "secret" = Some (JStr s) ->
                   Crypt_hashPassword s = inr hash) ->
        existsb (fun u => Prisma.eqs (Users.id u) (newId_nth (drawn w)))
                (users (db w)) = false ->
        existsb (fun f => Prisma.eqs (Folders.id f) (newId_nth (S (drawn w))))
                (folders (db w)) = false ->
        existsb (fun m => Prisma.eqs (UsersGroups.id m) (newId_nth (S (S (drawn w)))))
                (usersGroups (db w)) = false ->
        existsb (fun g => Prisma.eqs (Groups.id g) "E") (groups (db w)) = true ->
        fst (UsersController.create req w)
        = Send 201 (R_ok (Value (JObj {[ "id" := JStr (newId_nth (drawn w)) ]})))).
Proof.
  split; [|exact create_run].
  intros req w payload w' Hc.
  destruct (create_cases req w) as (n & HC & H3 & Hn3 & _).
  rewrite Hc in *. simpl in *.
  destruct (Nat.eq_dec n 3) as [->|Hne];
    [|destruct (Hn3 Hne payload eq_refl)].
  split; [|split].
  - specialize (H3 eq_refl). congruence.
  - apply (Created_user _ _ _ _ HC). lia.
  - apply (Created_membership _ _ _ HC).
Qed.

End CreateFacts.

(** An admin creates alice: all three rows are written. *)
Example create_alice :
  let r := UsersController.create (H := Demo.imports)
             (Demo.request "0" true "" Demo.alice) (Demo.world Demo.store []) in
  fst r = Send 201 (R_ok (Value (JObj {[ "id" := JStr "n1" ]})))
  /\ map Users.id (users (db (snd r))) = [ "0"; "bob"; "n1" ]
  /\ map Folders.id (folders (db (snd r))) = [ "0"; "P"; "P1"; "n2" ]
  /\ map UsersGroups.id (usersGroups (db (snd r))) = [ "m0"; "m1"; "m2"; "n3" ].
Proof. vm_compute. repeat split. Qed.

Lemma roundtrip_answers w rest :
  outages w = false :: rest -> roundtrip w = (inr tt, with_outages w rest).
Proof. unfold roundtrip. intros ->. reflexivity. Qed.

Lemma roundtrip_down w rest :
  outages w = true :: rest ->
  roundtrip w = (inl StoreUnavailable, with_outages w rest).
Proof. unfold roundtrip. intros ->. reflexivity. Qed.

Section CreateCut.
Context `{Imports}.

(** [create] opens no transaction.  For every request that would be
    served (see [creatable]), when the store answers the first write and
    is unreachable at the second, the handler ends in [next(err)] and the
    user row stays: the database is the one before with the new user
    appended, and no folder has been added for it. *)
Lemma create_cut_after_the_user req w hash rest :
  outages w = false :: true :: rest ->
  creatable req (with_outages w []) hash ->
  exists w',
    UsersController.create req w = (NextErr StoreUnavailable, w')
    /\ db w'
       = with_users (db w)
           (users (db w)
            ++ [ new_user (Request.body req) (newId_nth (drawn w)) hash (clock w) ])
    /\ outages w' = rest.
Proof.
  intros Hout (_ & (j & Hj & Ha) & Hv & (lastname & Hln)
               & (secret & Hsecret & Hhash) & Hf1 & _).
  simpl in Hf1.
  destruct (valid_createSchema _ Hv)
    as ((login & Hlogin) & (first & Hfirst) & _ & Ham & Hlo
        & (email & Hemail) & _).
  destruct (nullish_string _ "local" Ham) as (am & Hamv).
  destruct (nullish_string _ "en_US" Hlo) as (lo & Hlov).
  unfold new_user.
  unfold UsersController.create, try_next, Auth.isAdmin.
  rewrite Hj, bind_ret, Ha, Hv. change (negb true) with false. cbv iota.
  unfold newId at 1, bind at 1.
  rewrite Hsecret. unfold UsersController.hashPassword.
  rewrite bind_lift, Hhash.
  rewrite Hlogin, Hfirst, Hln, Hemail, Hamv, Hlov.
  (* Creates user: the statement is committed *)
  unfold UsersController.execute_now at 1, Date_now, execute at 1.
  rewrite !bind_assoc. unfold bind at 1. cbv beta iota.
  rewrite bind_assoc.
  erewrite (bind_ok roundtrip);
    [|apply roundtrip_answers; simpl; exact Hout].
  unfold bind at 1. simpl db.
  unfold Prisma.users_create at 1. rewrite !object_lookup. simpl.
  rewrite Hf1.
  (* Creates personal folder: the store is unreachable *)
  unfold newId at 1, bind at 1.
  unfold UsersController.execute_now at 1, Date_now, execute at 1.
  rewrite !bind_assoc. unfold bind at 1. cbv beta iota.
  rewrite bind_assoc.
  erewrite (bind_err roundtrip); [|apply roundtrip_down; reflexivity].
  eexists. split; [reflexivity|]. split; reflexivity.
Qed.

End CreateCut.

(** C6.  [create] does not create the user and its personal folder
    atomically.  On the seeded store, for the valid request of an admin
    to create alice, with the store unreachable at the second write
    ([folders.create]): the handler ends in [next(err)], the user row
    "n1" has been committed, and there is no personal folder for it (the
    folders and the memberships are as before). *)
Theorem create_is_not_atomic :
  let r := UsersController.create (H := Demo.imports)
             (Demo.request "0" true "" Demo.alice)
             (Demo.world Demo.store [false; true]) in
  fst r = NextErr StoreUnavailable
  /\ map Users.id (users Demo.store) = [ "0"; "bob" ]
  /\ map Users.id (users (db (snd r))) = [ "0"; "bob"; "n1" ]
  /\ Prisma.folders_findMany_personal "n1" (db (snd r)) = []
  /\ folders (db (snd r)) = folders Demo.store
  /\ usersGroups (db (snd r)) = usersGroups Demo.store.
Proof. vm_compute. repeat split. Qed.

(** C7 on the creation of alice. *)
Lemma created_user_joins_everyone_witness :
  exists w',
    UsersController.create (H := Demo.imports)
      (Demo.request "0" true "" Demo.alice) (Demo.world Demo.store [])
    = (Send 201 (R_ok (Value (JObj {[ "id" := JStr "n1" ]}))), w')
    /\ (exists u, In u (users (db w')) /\ Users.id u = "n1")
    /\ member_of (db w') "n1" "E" = true.
Proof.
  destruct (@created_user_joins_everyone Demo.imports) as [Hmember Hok].
  pose proof (Hok (Demo.request "0" true "" Demo.alice) (Demo.world Demo.store [])
                {| Jwt.user := "0"; Jwt.admin := true; Jwt.personalfolder := false;
                   Jwt.iat := 5; Jwt.exp := 3605 |}
                "Liddell" "hash:pw"
                (List.Forall_nil _) eq_refl eq_refl eq_refl eq_refl) as H201.
  destruct (UsersController.create (H := Demo.imports)
              (Demo.request "0" true "" Demo.alice) (Demo.world Demo.store []))
    as [o w'] eqn:Hc.
  simpl in H201.
  assert (Ho : o = Send 201 (R_ok (Value (JObj {[ "id" := JStr "n1" ]})))).
  { apply H201; try reflexivity.
    intros s [= <-]. reflexivity. }
  subst o. exists w'. split; [reflexivity|].
  destruct (Hmember _ _ _ _ Hc) as (_ & Hu & Hm).
  split; [exact Hu | exact Hm].
Defined.

(* ===================================================================== *)
(** * personalFolderLogin *)
(* ===================================================================== *)

Lemma users_findUnique_id id s u :
  Prisma.users_findUnique id s = Some u -> Users.id u = id.
Proof.
  unfold Prisma.users_findUnique. intros Hf.
  apply find_some in Hf. destruct Hf as [_ Hf].
  apply String.eqb_eq. exact Hf.
Qed.

Section PersonalFolderLogin.
Context `{Imports}.

Lemma personalFolderLogin_run req w id u password k :
  up w ->
  Jwt.secret (jwt_key Config_get) = Some k ->
  Request.user req = Some id ->
  Prisma.users_findUnique id (db w) = Some u ->
  Request.body req !! "password" = Some (JStr password) ->
  exists w',
    UsersController.personalFolderLogin req w
    = (match Crypt_checkPassword password (Users.personalsecret u) with
       | inl e => NextErr e
       | inr false => Send 401 (R_ko "Wrong password")
       | inr true =>
           Send 200 (R_ok (Token (issued id true (after_roundtrip w) k)))
       end, w')
    /\ db w' = db w.
Proof.
  intros Hup Hk Hreq Hfind Hbody.
  unfold UsersController.personalFolderLogin, try_next.
  assert (Hvalid : JsonSchema.valid (Request.body req) UsersController.personalLogin = true)
    by (unfold JsonSchema.valid; simpl; rewrite Hbody; reflexivity).
  rewrite Hvalid. change (negb true) with false. cbv iota.
  rewrite Hreq. unfold UsersController.findUser.
  rewrite (bind_ok _ _ _ _ _ (query_up _ w Hup)), Hfind, Hbody.
  unfold UsersController.checkPassword. rewrite bind_lift.
  destruct (Crypt_checkPassword password (Users.personalsecret u)) as [e|[|]].
  - eexists. split; reflexivity.
  - change (negb true) with false. cbv iota.
    rewrite (bind_ok _ _ _ _ _
               (createToken_up (Users.id u) true (after_roundtrip w) k
                  (up_after_roundtrip w Hup) Hk)).
    rewrite (users_findUnique_id _ _ _ Hfind). eexists. split; reflexivity.
  - eexists. split; reflexivity.
Qed.

(** C4.  For a request of an authenticated user [id] whose row [u] is
    stored and whose body carries a password, with the signing key
    configured and the store answering: [personalFolderLogin] answers
    200 with a token exactly when [Crypt.checkPassword] accepts the
    password against the stored personal secret; the token is newly
    signed for [id] with [personalfolder] true; when the password is
    rejected the answer is 401 "Wrong password", which carries no token;
    the database is not written. *)
Theorem personalFolderLogin_iff_password_matches (req : Request) (w : World) (id : string) (u : Users.row) (password k : string) :
  up w ->
  Jwt.secret (jwt_key Config_get) = Some k ->
  Request.user req = Some id ->
  Prisma.users_findUnique id (db w) = Some u ->
  Request.body req !! "password" = Some (JStr password) ->
  ((exists token,
      fst (UsersController.personalFolderLogin req w) = Send 200 (R_ok (Token token)))
   <-> Crypt_checkPassword password (Users.personalsecret u) = inr true)
  /\ (Crypt_checkPassword password (Users.personalsecret u) = inr true ->
      exists p,
        fst (UsersController.personalFolderLogin req w)
        = Send 200 (R_ok (Token (Jwt.Signed Jwt.HS512 k p)))
        /\ Jwt.user p = id
        /\ Jwt.personalfolder p = true
        /\ Jwt.iat p = (clock w / 1000)%Z)
  /\ (Crypt_checkPassword password (Users.personalsecret u) = inr false ->
      fst (UsersController.personalFolderLogin req w)
      = Send 401 (R_ko "Wrong password"))
  /\ db (snd (UsersController.personalFolderLogin req w)) = db w.
Proof.
  intros Hup Hk Hreq Hfind Hbody.
  destruct (personalFolderLogin_run req w id u password k Hup Hk Hreq Hfind Hbody)
    as (w' & Hout & Hdb).
  rewrite Hout. cbn [fst snd]. split; [|split; [|split]].
  - destruct (Crypt_checkPassword password (Users.personalsecret u)) as [e|[|]];
      split; try discriminate; try (intros [t Ht]; discriminate); eauto.
  - intros ->. eexists. split; [reflexivity|]. repeat split.
  - intros ->. reflexivity.
  - exact Hdb.
Qed.

End PersonalFolderLogin.

(** C4 for bob, with the right and with a wrong personal password. *)
Lemma personalFolderLogin_iff_password_matches_witness :
  ((exists token,
      fst (UsersController.personalFolderLogin (H := Demo.imports)
             (Demo.request "bob" false "" (<["password" := JStr "s3cret"]> ∅))
             (Demo.world Demo.store [])) = Send 200 (R_ok (Token token)))
   <-> Crypt_checkPassword (Imports := Demo.imports) "s3cret" (Some "hash:s3cret") = inr true)
  /\ (exists token,
        fst (UsersController.personalFolderLogin (H := Demo.imports)
               (Demo.request "bob" false "" (<["password" := JStr "s3cret"]> ∅))
               (Demo.world Demo.store [])) = Send 200 (R_ok (Token token)))
  /\ fst (UsersController.personalFolderLogin (H := Demo.imports)
            (Demo.request "bob" false "" (<["password" := JStr "guess"]> ∅))
            (Demo.world Demo.store [])) = Send 401 (R_ko "Wrong password").
Proof.
  pose proof (personalFolderLogin_iff_password_matches (H := Demo.imports)
                (Demo.request "bob" false "" (<["password" := JStr "s3cret"]> ∅))
                (Demo.world Demo.store []) "bob"
                (Demo.user "bob" "Builder" (Some "hash:s3cret")) "s3cret" "signing"
                (List.Forall_nil _) eq_refl eq_refl eq_refl eq_refl)
    as (Hiff & Hok & _ & _).
  pose proof (personalFolderLogin_iff_password_matches (H := Demo.imports)
                (Demo.request "bob" false "" (<["password" := JStr "guess"]> ∅))
                (Demo.world Demo.store []) "bob"
                (Demo.user "bob" "Builder" (Some "hash:s3cret")) "guess" "signing"
                (List.Forall_nil _) eq_refl eq_refl eq_refl eq_refl)
    as (_ & _ & Hwrong & _).
  split; [exact Hiff|]. split.
  - apply (proj2 Hiff). reflexivity.
  - apply Hwrong. reflexivity.
Defined.

(* ===================================================================== *)
(** * update *)
(* ===================================================================== *)

Lemma valid_updateSchema body :
  JsonSchema.valid body UsersController.updateSchema = true ->
  string_or_absent (body !! "login")
  /\ string_or_absent (body !! "firstname")
  /\ string_or_absent (body !! "lastname")
  /\ string_or_absent (body !! "authmethod")
  /\ string_or_absent (body !! "locale")
  /\ string_or_absent (body !! "email")
  /\ string_or_absent (body !! "secret")
  /\ boolean_or_absent (body !! "active").
Proof.
  unfold JsonSchema.valid. simpl. rewrite andb_true_r.
  rewrite !andb_true_iff.
  intros (Hl & Hf & Hla & Ham & Hlo & He & Hs & Ha & _).
  repeat split; try (apply valid_prop_str; assumption).
  - destruct (body !! "authmethod") as [[]|]; try discriminate;
      [right; eexists; reflexivity | left; reflexivity].
  - destruct (body !! "active") as [[]|]; try discriminate;
      [right; eexists; reflexivity | left; reflexivity].
Qed.

Lemma copy_if_truthy_lookup req k o k' :
  UsersController.copy_if_truthy req k o !! k'
  = if String.eqb k k' && truthy (Request.body req !! k)
    then Request.body req !! k else o !! k'.
Proof.
  unfold UsersController.copy_if_truthy, UsersController.assign.
  destruct (Request.body req !! k) as [v|] eqn:Hv.
  - destruct (truthy (Some v)); [|rewrite andb_false_r; reflexivity].
    rewrite andb_true_r.
    destruct (String.eqb_spec k k') as [->|Hne].
    + apply lookup_insert_eq.
    + apply lookup_insert_ne. exact Hne.
  - simpl. rewrite andb_false_r. reflexivity.
Qed.

Lemma set_String_supplied v old :
  string_or_absent v ->
  Prisma.set_String (if truthy v then v else None) old
  = inr (default old (supplied v)).
Proof.
  intros [->|[s ->]]; [reflexivity|].
  simpl. destruct (String.eqb s ""); reflexivity.
Qed.

Lemma set_String_opt_supplied v old :
  string_or_absent v ->
  Prisma.set_String_opt (if truthy v then v else None) old
  = inr (match supplied v with Some s => Some s | None => old end).
Proof.
  intros [->|[s ->]]; [reflexivity|].
  simpl. destruct (String.eqb s ""); reflexivity.
Qed.

Lemma hasOwnProperty_returns (o : gmap string JVal) k :
  o !! "hasOwnProperty" = None ->
  hasOwnProperty o k = Some (bool_decide (is_Some (o !! k))).
Proof. unfold hasOwnProperty. intros ->. reflexivity. Qed.

Lemma hasOwnProperty_throws (o : gmap string JVal) k v :
  o !! "hasOwnProperty" = Some v -> hasOwnProperty o k = None.
Proof. unfold hasOwnProperty. intros ->. reflexivity. Qed.

Lemma truthy_supplied v :
  string_or_absent v -> truthy v = bool_decide (is_Some (supplied v)).
Proof.
  intros [->|[s ->]]; [reflexivity|].
  simpl. destruct (String.eqb s ""); reflexivity.
Qed.

Section Update.
Context `{Imports}.

Lemma updateStruct_of_run req w hash :
  string_or_absent (Request.body req !! "secret") ->
  Request.body req !! "hasOwnProperty" = None ->
  (forall s, supplied (Request.body req !! "secret") = Some s ->
             Crypt_hashPassword s = inr hash) ->
  UsersController.updateStruct_of req w = (inr (update_data req hash), w).
Proof.
  intros Hs Hown Hhash. unfold UsersController.updateStruct_of, update_data.
  cbv zeta. rewrite (hasOwnProperty_returns _ "active" Hown).
  destruct Hs as [Hs|[s Hs]]; rewrite Hs in *; simpl truthy; cbv iota.
  - reflexivity.
  - simpl in Hhash. destruct (String.eqb s ""); simpl negb; cbv iota.
    + reflexivity.
    + unfold UsersController.hashPassword. cbv iota.
      rewrite (Hhash s eq_refl). reflexivity.
Qed.

(** A body with a property of its own named "hasOwnProperty" makes the
    call of the method throw: nothing is handed to Prisma. *)
Lemma updateStruct_of_shadowed req w v :
  Request.body req !! "hasOwnProperty" = Some v ->
  exists e, UsersController.updateStruct_of req w = (inl e, w).
Proof.
  intros Hown. unfold UsersController.updateStruct_of. cbv zeta.
  rewrite (hasOwnProperty_throws _ "active" _ Hown).
  destruct (truthy (Request.body req !! "secret")).
  - destruct (hashPassword_world (Request.body req !! "secret") w)
      as ([e|hash] & E).
    + exists e. rewrite bind_assoc, (bind_err _ _ _ _ _ E). reflexivity.
    + exists TypeError. rewrite bind_assoc, (bind_ok _ _ _ _ _ E). reflexivity.
  - exists TypeError. reflexivity.
Qed.

Ltac data_lookup :=
  unfold update_data, UsersController.assign; cbv zeta;
  repeat first
    [ match goal with
      | |- context [ (if ?b then _ else _) !! _ ] => destruct b eqn:?
      | |- context [ (match ?v with Some _ => _ | None => _ end) !! _ ] =>
          destruct v eqn:?
      end
    | rewrite lookup_insert_ne by discriminate ];
  rewrite ?lookup_insert_eq;
  rewrite ?copy_if_truthy_lookup; simpl;
  rewrite ?lookup_empty; try discriminate.

Lemma update_data_copied req hash k :
  In k [ "login"; "firstname"; "lastname"; "authmethod"; "locale"; "email" ] ->
  update_data req hash !! k
  = if truthy (Request.body req !! k) then Request.body req !! k else None.
Proof.
  simpl. intros [<-|[<-|[<-|[<-|[<-|[<-|[]]]]]]]; data_lookup;
    repeat match goal with
           | |- context [ if ?b then _ else _ ] => destruct b
           end; reflexivity.
Qed.

Lemma update_data_secret req hash :
  update_data req hash !! "secret"
  = if truthy (Request.body req !! "secret") then Some (JStr hash) else None.
Proof. data_lookup; reflexivity. Qed.

Lemma update_data_secretexpiresat req hash :
  update_data req hash !! "secretexpiresat"
  = if truthy (Request.body req !! "secret")
    then Some (JDate UsersController.Date_2050_12_31_23_59_59) else None.
Proof. data_lookup; reflexivity. Qed.

Lemma update_data_personalsecret req hash :
  update_data req hash !! "personalsecret" = None.
Proof. data_lookup; reflexivity. Qed.

Lemma update_data_active req hash :
  update_data req hash !! "active" = Request.body req !! "active".
Proof.
  data_lookup; try reflexivity; try congruence.
  all: match goal with
       | E : bool_decide _ = false |- _ =>
           apply bool_decide_eq_false in E;
           destruct (Request.body req !! "active") eqn:Ha;
           [destruct E; eexists; reflexivity | reflexivity]
       end.
Qed.

(** The object handed to Prisma is empty exactly when the body makes the
    update set nothing. *)
Lemma update_data_nothing req hash :
  JsonSchema.valid (Request.body req) UsersController.updateSchema = true ->
  applies_something (Request.body req) = false ->
  update_data req hash = ∅.
Proof.
  intros Hv Happ. apply valid_updateSchema in Hv.
  destruct Hv as (Hl & Hf & Hla & Ham & Hlo & He & Hs & _).
  unfold applies_something in Happ. simpl in Happ.
  rewrite <- !truthy_supplied in Happ by assumption.
  apply orb_false_elim in Happ. destruct Happ as [Hstr Hact].
  repeat (apply orb_false_elim in Hstr; destruct Hstr as [? Hstr]).
  unfold update_data, UsersController.copy_if_truthy. cbv zeta.
  repeat match goal with
         | E : truthy _ = false |- _ => rewrite E; clear E
         end.
  rewrite Hact. reflexivity.
Qed.

Lemma update_data_something req hash :
  JsonSchema.valid (Request.body req) UsersController.updateSchema = true ->
  applies_something (Request.body req) = true ->
  update_data req hash <> ∅.
Proof.
  intros Hv Happ Hempty. apply valid_updateSchema in Hv.
  destruct Hv as (Hl & Hf & Hla & Ham & Hlo & He & Hs & _).
  assert (Hnone : forall k, update_data req hash !! k = None)
    by (intros k; rewrite Hempty; apply lookup_empty).
  unfold applies_something in Happ. apply orb_true_iff in Happ.
  destruct Happ as [Happ|Happ].
  - apply existsb_exists in Happ. destruct Happ as (k & Hk & Hsup).
    assert (Hstr : string_or_absent (Request.body req !! k))
      by (simpl in Hk; intuition (subst; assumption)).
    rewrite <- (truthy_supplied _ Hstr) in Hsup.
    destruct Hk as [<-|Hk].
    + specialize (Hnone "secret"). rewrite update_data_secret, Hsup in Hnone.
      discriminate.
    + specialize (Hnone k). rewrite (update_data_copied req hash k Hk), Hsup in Hnone.
      destruct Hstr as [E|[s E]]; rewrite E in *; discriminate.
  - apply bool_decide_eq_true in Happ. destruct Happ as [v Hv].
    specialize (Hnone "active"). rewrite update_data_active, Hv in Hnone.
    discriminate.
Qed.

End Update.

Lemma set_String_hashed v hash old :
  string_or_absent v ->
  Prisma.set_String (if truthy v then Some (JStr hash) else None) old
  = inr (match supplied v with Some _ => hash | None => old end).
Proof.
  intros [->|[s ->]]; [reflexivity|].
  simpl. destruct (String.eqb s ""); reflexivity.
Qed.

Lemma set_DateTime_reset v d old :
  string_or_absent v ->
  Prisma.set_DateTime (if truthy v then Some (JDate d) else None) old
  = inr (match supplied v with Some _ => d | None => old end).
Proof.
  intros [->|[s ->]]; [reflexivity|].
  simpl. destruct (String.eqb s ""); reflexivity.
Qed.

Lemma set_Boolean_supplied v old :
  boolean_or_absent v ->
  Prisma.set_Boolean v old
  = inr (match v with Some (JBool b) => b | _ => old end).
Proof. intros [->|[b ->]]; reflexivity. Qed.

Section UpdateFacts.
Context `{Imports}.

Lemma users_apply_update_data req hash now u :
  JsonSchema.valid (Request.body req) UsersController.updateSchema = true ->
  Prisma.users_apply now (update_data req hash) u
  = inr (updated_row (Request.body req) hash now u).
Proof.
  intros Hv. pose proof Hv as Hv'. apply valid_updateSchema in Hv'.
  destruct Hv' as (Hl & Hf & Hla & Ham & Hlo & He & Hs & Ha).
  unfold Prisma.users_apply.
  rewrite (update_data_copied req hash "login"),
    (update_data_copied req hash "lastname"),
    (update_data_copied req hash "firstname"),
    (update_data_copied req hash "authmethod"),
    (update_data_copied req hash "locale"),
    (update_data_copied req hash "email") by (simpl; auto 10).
  rewrite update_data_secret, update_data_secretexpiresat,
    update_data_personalsecret, update_data_active.
  rewrite !set_String_supplied, set_String_opt_supplied by assumption.
  rewrite set_String_hashed, set_DateTime_reset by assumption.
  rewrite set_Boolean_supplied by assumption.
  unfold updated_row.
  destruct (applies_something (Request.body req)) eqn:Happ;
    destruct (decide (update_data req hash = ∅)) as [E|E];
    try reflexivity.
  - destruct (update_data_something req hash Hv Happ E).
  - destruct (E (update_data_nothing req hash Hv Happ)).
Qed.

(** [update], run for an admin on a stored row with a valid body. *)
Lemma update_run req w j u hash :
  up w ->
  Request.jwt req = Some j -> Jwt.admin j = true ->
  JsonSchema.valid (Request.body req) UsersController.updateSchema = true ->
  Request.body req !! "hasOwnProperty" = None ->
  Prisma.users_findUnique (Request.params_id req) (db w) = Some u ->
  (forall s, supplied (Request.body req !! "secret") = Some s ->
             Crypt_hashPassword s = inr hash) ->
  exists w',
    UsersController.update req w = (Send 200 (R_ok Nothing), w')
    /\ db w' = with_users (db w)
         (map (fun r => if Prisma.eqs (Users.id r) (Request.params_id req)
                        then updated_row (Request.body req) hash (clock w) u
                        else r) (users (db w))).
Proof.
  intros Hup Hj Ha Hv Hown Hfind Hhash.
  unfold UsersController.update, try_next, Auth.isAdmin.
  rewrite Hj, bind_ret, Ha, Hv. change (negb true) with false. cbv iota.
  rewrite (bind_ok _ _ _ _ _ (query_up _ w Hup)), Hfind.
  assert (Hs : string_or_absent (Request.body req !! "secret"))
    by (apply valid_updateSchema in Hv; tauto).
  rewrite (bind_ok _ _ _ _ _
             (updateStruct_of_run req (after_roundtrip w) hash Hs Hown Hhash)).
  erewrite (bind_ok _ _ _ _ _ (execute_now_up _ (after_roundtrip w) _
                                 (up_after_roundtrip w Hup) _)).
  - eexists. split; reflexivity.
  Unshelve.
  unfold Prisma.users_update. simpl db. rewrite Hfind.
  simpl clock. rewrite (users_apply_update_data req hash (clock w) u Hv).
  reflexivity.
Qed.

(** [update], for an admin on a stored row with a valid body that has a
    property of its own named "hasOwnProperty": the call
    [req.body.hasOwnProperty("active")] throws, the error goes to
    [next], and nothing is written. *)
Lemma update_shadowed_hasOwnProperty req w j u v :
  up w ->
  Request.jwt req = Some j -> Jwt.admin j = true ->
  JsonSchema.valid (Request.body req) UsersController.updateSchema = true ->
  Request.body req !! "hasOwnProperty" = Some v ->
  Prisma.users_findUnique (Request.params_id req) (db w) = Some u ->
  exists e,
    UsersController.update req w = (NextErr e, after_roundtrip w).
Proof.
  intros Hup Hj Ha Hv Hown Hfind.
  unfold UsersController.update, try_next, Auth.isAdmin.
  rewrite Hj, bind_ret, Ha, Hv. change (negb true) with false. cbv iota.
  rewrite (bind_ok _ _ _ _ _ (query_up _ w Hup)), Hfind.
  destruct (updateStruct_of_shadowed req (after_roundtrip w) v Hown) as (e & E).
  exists e. rewrite (bind_err _ _ _ _ _ E). reflexivity.
Qed.

End UpdateFacts.

Section UpdatedRow.
Context `{Imports}.

Lemma updated_row_kept body hash now u k :
  In k copied_columns ->
  body !! k = None \/ body !! k = Some (JStr "") ->
  Prisma.users_column (updated_row body hash now u) k = Prisma.users_column u k.
Proof.
  simpl. intros [<-|[<-|[<-|[<-|[<-|[<-|[]]]]]]] [Hb|Hb];
    unfold updated_row, Prisma.users_column; simpl; rewrite Hb; reflexivity.
Qed.

Lemma updated_row_replaced body hash now u k s :
  In k copied_columns ->
  body !! k = Some (JStr s) -> s <> "" ->
  Prisma.users_column (updated_row body hash now u) k = Some (JStr s).
Proof.
  simpl. intros [<-|[<-|[<-|[<-|[<-|[<-|[]]]]]]] Hb Hs;
    unfold updated_row, Prisma.users_column; simpl; rewrite Hb; simpl;
    rewrite (proj2 (String.eqb_neq s "") Hs); reflexivity.
Qed.

Lemma updated_row_frame body hash now u :
  update_frame body hash now u (updated_row body hash now u).
Proof.
  unfold update_frame.
  split; [reflexivity|]. split; [reflexivity|]. split; [reflexivity|].
  split; [reflexivity|].
  split; [intros k Hk Hb; apply updated_row_kept; assumption|].
  split; [intros k s Hk Hb Hs; apply updated_row_replaced; assumption|].
  split; [|split; [|split]].
  - intros [Hb|Hb]; simpl; rewrite Hb; split; reflexivity.
  - intros s Hb Hs. simpl. rewrite Hb. simpl.
    rewrite (proj2 (String.eqb_neq s "") Hs). split; reflexivity.
  - intros Hb. simpl. rewrite Hb. reflexivity.
  - intros b Hb. simpl. rewrite Hb. reflexivity.
Qed.

End UpdatedRow.

Section UpdateFrame.
Context `{Imports}.

Lemma updateStruct_of_cases req w :
  string_or_absent (Request.body req !! "secret") ->
  (exists e, UsersController.updateStruct_of req w = (inl e, w))
  \/ (exists hash,
        (forall s, supplied (Request.body req !! "secret") = Some s ->
                   Crypt_hashPassword s = inr hash)
        /\ UsersController.updateStruct_of req w = (inr (update_data req hash), w)).
Proof.
  intros Hs.
  destruct (Request.body req !! "hasOwnProperty") as [v|] eqn:Hown;
    [left; exact (updateStruct_of_shadowed req w v Hown)|].
  destruct (supplied (Request.body req !! "secret")) as [s|] eqn:Hsup.
  - destruct (Crypt_hashPassword s) as [e|hash] eqn:Hh.
    + left. exists e. unfold UsersController.updateStruct_of.
      destruct Hs as [Hs|[s' Hs]]; rewrite Hs in *; [discriminate|].
      simpl in Hsup. simpl truthy.
      destruct (String.eqb s' ""); [discriminate|]. injection Hsup as ->.
      simpl negb. cbv iota. unfold UsersController.hashPassword.
      rewrite bind_assoc, bind_lift, Hh. reflexivity.
    + right. exists hash.
      assert (Hhash : forall s0, Some s = Some s0 -> Crypt_hashPassword s0 = inr hash)
        by (intros s0 [= <-]; exact Hh).
      split; [exact Hhash|].
      apply updateStruct_of_run; [exact Hs|exact Hown|]. rewrite Hsup. exact Hhash.
  - right. exists "". split; [discriminate|].
    apply updateStruct_of_run; [exact Hs|exact Hown|]. rewrite Hsup. discriminate.
Qed.

Lemma update_result_unchanged req w o w' :
  (forall payload, o <> Send 200 payload) -> db w' = db w ->
  update_result req w (o, w').
Proof. intros Ho Hdb. left. split; assumption. Qed.

(** [update], by cases. *)
Lemma update_cases req w : update_result req w (UsersController.update req w).
Proof.
  unfold UsersController.update, try_next, Auth.isAdmin.
  destruct (Request.jwt req) as [j|];
    [rewrite bind_ret | apply update_result_unchanged; [discriminate | reflexivity]].
  destruct (negb (Jwt.admin j));
    [apply update_result_unchanged; [discriminate | reflexivity]|].
  destruct (JsonSchema.valid (Request.body req) UsersController.updateSchema)
    eqn:Hv;
    [change (negb true) with false
    | apply update_result_unchanged; [discriminate | reflexivity]].
  cbv iota.
  destruct (query_cases (Prisma.users_findUnique (Request.params_id req)) w)
    as [E|E];
    [rewrite (bind_ok _ _ _ _ _ E)
    | rewrite (bind_err _ _ _ _ _ E);
      apply update_result_unchanged; [discriminate | reflexivity]].
  destruct (Prisma.users_findUnique (Request.params_id req) (db w)) as [u|] eqn:Hfind;
    [|apply update_result_unchanged; [discriminate | reflexivity]].
  assert (Hs : string_or_absent (Request.body req !! "secret"))
    by (apply valid_updateSchema in Hv; tauto).
  destruct (updateStruct_of_cases req (after_roundtrip w) Hs)
    as [(e & E1)|(hash & Hhash & E1)];
    [rewrite (bind_err _ _ _ _ _ E1);
     apply update_result_unchanged; [discriminate | reflexivity]
    | rewrite (bind_ok _ _ _ _ _ E1)].
  match goal with
  | |- context [ bind (UsersController.execute_now prisma ?f) _ ?w1 ] =>
      destruct (execute_now_cases f w1) as [(s' & Hs' & E2)|(e & E2)]
  end;
    [rewrite (bind_ok _ _ _ _ _ E2)
    | rewrite (bind_err _ _ _ _ _ E2);
      apply update_result_unchanged; [discriminate | reflexivity]].
  right. exists u, hash. split; [exact Hfind|]. split; [reflexivity|].
  simpl. unfold Prisma.users_update in Hs'. simpl in Hs'. rewrite Hfind in Hs'.
  rewrite (users_apply_update_data req hash (clock w) u Hv) in Hs'.
  injection Hs' as <-. reflexivity.
Qed.

(** An empty [authmethod] fails the pattern of the schema. *)
Lemma update_empty_authmethod req w j :
  Request.jwt req = Some j -> Jwt.admin j = true ->
  Request.body req !! "authmethod" = Some (JStr "") ->
  UsersController.update req w = (Send 400 (R_ko "Bad request"), w).
Proof.
  intros Hj Ha Hbody.
  unfold UsersController.update, try_next, Auth.isAdmin.
  rewrite Hj, bind_ret, Ha. change (negb true) with false. cbv iota.
  assert (Hv : JsonSchema.valid (Request.body req) UsersController.updateSchema
               = false).
  { unfold JsonSchema.valid. simpl. rewrite Hbody. simpl.
    rewrite !andb_false_r. reflexivity. }
  rewrite Hv. reflexivity.
Qed.

(** C10, as amended.  Whatever the request, [update] either answers
    something else than 200 and leaves the database as it was, or answers
    200 and leaves every table but [users] as it was, and in [users]
    replaces the row [u] of the given id by a row [u'] such that (see
    [update_frame])
    - [id], [personalsecret] and [createdat] are the stored ones;
    - each of [login], [firstname], [lastname], [authmethod], [locale],
      [email] is the stored value when the body does not carry the
      property or carries the empty string, and the carried string
      otherwise;
    - [secret] and [secretexpiresat] are the stored values when no
      non-empty secret is carried; otherwise [secret] is the hash and
      [secretexpiresat] is the fixed date;
    - [active] is the stored value when the body has no [active], and
      the carried boolean, false included, when it has;
    - [updatedat] is the time of the call when the body supplies a
      string or has [active], and the stored value when it does neither
      (nothing is then sent to the store).
    The answer is 200 for an admin's request on a stored user with a
    valid body that has no property named "hasOwnProperty", when the
    store answers and the hash function returns.  An empty [authmethod]
    is not left aside like the other empty strings: it fails the pattern
    of the schema, and the request is answered 400 with the world
    untouched. *)
Theorem update_changes_only_supplied_fields :
  (forall req w,
     ((forall payload, fst (UsersController.update req w) <> Send 200 payload)
      /\ db (snd (UsersController.update req w)) = db w)
     \/ (exists u u' hash,
           Prisma.users_findUnique (Request.params_id req) (db w) = Some u
           /\ fst (UsersController.update req w) = Send 200 (R_ok Nothing)
           /\ db (snd (UsersController.update req w))
              = with_users (db w)
                  (map (fun r => if Prisma.eqs (Users.id r) (Request.params_id req)
                                 then u' else r) (users (db w)))
           /\ update_frame (Request.body req) hash (clock w) u u'))
  /\ (forall req w j u hash,
        up w ->
        Request.jwt req = Some j -> Jwt.admin j = true ->
        JsonSchema.valid (Request.body req) UsersController.updateSchema = true ->
        Request.body req !! "hasOwnProperty" = None ->
        Prisma.users_findUnique (Request.params_id req) (db w) = Some u ->
        (forall s, supplied (Request.body req !! "secret") = Some s ->
                   Crypt_hashPassword s = inr hash) ->
        fst (UsersController.update req w) = Send 200 (R_ok Nothing))
  /\ (forall req w j,
        Request.jwt req = Some j -> Jwt.admin j = true ->
        Request.body req !! "authmethod" = Some (JStr "") ->
        UsersController.update req w = (Send 400 (R_ko "Bad request"), w)).
Proof.
  split; [|split].
  - intros req w. destruct (update_cases req w) as [Hno|(u & hash & Hf & Hrun & Hdb)].
    + left. exact Hno.
    + right. exists u, (updated_row (Request.body req) hash (clock w) u), hash.
      split; [exact Hf|]. split; [exact Hrun|].
      split; [exact Hdb|]. apply updated_row_frame.
  - intros req w j u hash Hup Hj Ha Hv Hown Hfind Hhash.
    destruct (update_run req w j u hash Hup Hj Ha Hv Hown Hfind Hhash)
      as (w' & Hrun & _).
    rewrite Hrun. reflexivity.
  - exact update_empty_authmethod.
Qed.

End UpdateFrame.

(** The claim as stated does not hold.  A body that carries only
    [secret] also changes [secretexpiresat] and [updatedat], two fields
    that the body does not carry and that are not among the listed ones;
    and a body that carries [authmethod] as the empty string is not
    silently left aside: the request is refused. *)
Lemma update_departs_from_the_claim :
  (let r := UsersController.update (H := Demo.imports)
              (Demo.request "0" true "bob" Demo.new_secret)
              (Demo.world Demo.store []) in
   fst r = Send 200 (R_ok Nothing)
   /\ Demo.new_secret !! "secretexpiresat" = None
   /\ Demo.new_secret !! "updatedat" = None
   /\ Users.secretexpiresat <$> Prisma.users_findUnique "bob" Demo.store = Some 1000%Z
   /\ Users.secretexpiresat <$> Prisma.users_findUnique "bob" (db (snd r))
      = Some 2558818799000%Z
   /\ Users.updatedat <$> Prisma.users_findUnique "bob" Demo.store = Some 0%Z
   /\ Users.updatedat <$> Prisma.users_findUnique "bob" (db (snd r)) = Some 5000%Z)
  /\ UsersController.update (H := Demo.imports)
       (Demo.request "0" true "bob" (<["authmethod" := JStr ""]> ∅))
       (Demo.world Demo.store [])
     = (Send 400 (R_ko "Bad request"), Demo.world Demo.store []).
Proof. vm_compute. repeat split. Qed.

(** [updatedat] is not refreshed by a request that sets nothing: a body
    of empty strings is answered 200 and leaves the row as it is. *)
Example update_with_empty_strings :
  let r := UsersController.update (H := Demo.imports)
             (Demo.request "0" true "bob"
                (<["login" := JStr ""]> (<["email" := JStr ""]> ∅)))
             (Demo.world Demo.store []) in
  fst r = Send 200 (R_ok Nothing) /\ db (snd r) = Demo.store.
Proof. vm_compute. repeat split. Qed.

(** A body that has a property of its own named "hasOwnProperty" makes
    [req.body.hasOwnProperty("active")] throw: the error goes to [next]
    and the row stays as it is. *)
Example update_with_own_hasOwnProperty :
  let r := UsersController.update (H := Demo.imports)
             (Demo.request "0" true "bob"
                (<["hasOwnProperty" := JStr "x"]>
                   (<["lastname" := JStr "Baumeister"]> ∅)))
             (Demo.world Demo.store []) in
  fst r = NextErr TypeError /\ db (snd r) = Demo.store.
Proof. vm_compute. repeat split. Qed.

(** C10 on a body with an empty login, a new last name and [active]
    false: the login stays, the last name and [active] change,
    [secretexpiresat] stays and [updatedat] is the time of the call. *)
Lemma update_changes_only_supplied_fields_witness :
  fst (UsersController.update (H := Demo.imports)
         (Demo.request "0" true "bob" Demo.rename) (Demo.world Demo.store []))
  = Send 200 (R_ok Nothing)
  /\ exists u',
       Prisma.users_findUnique "bob"
         (db (snd (UsersController.update (H := Demo.imports)
                     (Demo.request "0" true "bob" Demo.rename)
                     (Demo.world Demo.store [])))) = Some u'
       /\ Prisma.users_column u' "login" = Some (JStr "bob")
       /\ Prisma.users_column u' "lastname" = Some (JStr "Baumeister")
       /\ Users.active u' = false
       /\ Users.secretexpiresat u' = 1000%Z
       /\ Users.updatedat u' = 5000%Z.
Proof.
  destruct (@update_changes_only_supplied_fields Demo.imports) as (Hcases & Hok & _).
  assert (H200 : fst (UsersController.update (H := Demo.imports)
                        (Demo.request "0" true "bob" Demo.rename)
                        (Demo.world Demo.store []))
                 = Send 200 (R_ok Nothing)).
  { apply (Hok (Demo.request "0" true "bob" Demo.rename)
             (Demo.world Demo.store [])
             {| Jwt.user := "0"; Jwt.admin := true; Jwt.personalfolder := false;
                Jwt.iat := 5; Jwt.exp := 3605 |}
             (Demo.user "bob" "Builder" (Some "hash:s3cret")) "unused"
             (List.Forall_nil _) eq_refl eq_refl eq_refl eq_refl eq_refl).
    intros s Hs. discriminate Hs. }
  split; [exact H200|].
  destruct (Hcases (Demo.request "0" true "bob" Demo.rename)
              (Demo.world Demo.store []))
    as [[Hno _]|(u & u' & hash & Hfind & _ & Hdb & Hframe)].
  - destruct (Hno _ H200).
  - injection Hfind as <-.
    destruct Hframe as (Hid & _ & _ & Hupd & Hkept & Hrepl & Hsec & _ & _ & Hact).
    exists u'.
    split; [rewrite Hdb; unfold Prisma.users_findUnique; simpl;
            rewrite Hid; reflexivity|].
    split; [apply (Hkept "login"); [left; reflexivity | right; reflexivity]|].
    split; [apply (Hrepl "lastname" "Baumeister");
            [right; right; left; reflexivity | reflexivity | discriminate]|].
    split; [apply (Hact false); reflexivity|].
    split; [apply Hsec; left; reflexivity|].
    exact Hupd.
Defined.

(* ===================================================================== *)
(** * Invariants of the database *)
(* ===================================================================== *)

Section Keeps.
Context `{Imports}.
Variable I : Store -> list (Store -> Exc Store) -> Prop.

Lemma keeps_ret {A} (a : A) : keeps I (ret a).
Proof. intros w Hw. exact Hw. Qed.

Lemma keeps_throw {A} e : keeps I (@throw A e).
Proof. intros w Hw. exact Hw. Qed.

Lemma keeps_lift {A} (x : Exc A) : keeps I (lift x).
Proof. intros w Hw. exact Hw. Qed.

Lemma keeps_Date_now : keeps I Date_now.
Proof. intros w Hw. exact Hw. Qed.

Lemma keeps_newId : keeps I newId.
Proof. intros w Hw. exact Hw. Qed.

Lemma keeps_actions_log u a t i : keeps I (actions_log u a t i).
Proof. intros w Hw. exact Hw. Qed.

Lemma keeps_roundtrip : keeps I roundtrip.
Proof.
  intros w Hw. unfold roundtrip.
  destruct (head (outages w)) as [[|]|]; exact Hw.
Qed.

Lemma keeps_bind {A B} (m : M A) (f : A -> M B) :
  keeps I m -> (forall a, keeps I (f a)) -> keeps I (bind m f).
Proof.
  intros Hm Hf w Hw. unfold bind. specialize (Hm w Hw).
  destruct (m w) as [[e|a] w']; [exact Hm | exact (Hf a w' Hm)].
Qed.

Lemma keeps_query {A} (f : Store -> A) : keeps I (query prisma f).
Proof.
  unfold query. apply keeps_bind; [apply keeps_roundtrip|].
  intros _ w Hw. exact Hw.
Qed.

Lemma keeps_execute f :
  (forall s s' p, I s p -> f s = inr s' -> I s' p) ->
  keeps I (execute prisma f).
Proof.
  intros Hf. unfold execute. apply keeps_bind; [apply keeps_roundtrip|].
  intros _ w Hw. destruct (f (db w)) as [e|s'] eqn:E; [exact Hw|].
  exact (Hf _ _ _ Hw E).
Qed.

Lemma keeps_execute_now f :
  (forall now s s' p, I s p -> f now s = inr s' -> I s' p) ->
  keeps I (UsersController.execute_now prisma f).
Proof.
  intros Hf. unfold UsersController.execute_now.
  apply keeps_bind; [apply keeps_Date_now|].
  intros now. apply keeps_execute. exact (Hf now).
Qed.

Lemma keeps_isAdmin entity : keeps I (Auth.isAdmin entity).
Proof.
  destruct entity as [user|req]; simpl.
  - apply keeps_bind; [apply keeps_query | intros; apply keeps_ret].
  - destruct (Request.jwt req); [apply keeps_ret | apply keeps_throw].
Qed.

Lemma keeps_createToken user pf : keeps I (Auth.createToken user pf).
Proof.
  unfold Auth.createToken.
  apply keeps_bind; [apply keeps_isAdmin|]. intros a.
  apply keeps_bind; [apply keeps_Date_now|]. intros now. apply keeps_lift.
Qed.

Lemma keeps_hashPassword v : keeps I (UsersController.hashPassword v).
Proof.
  unfold UsersController.hashPassword.
  destruct v as [[]|]; first [apply keeps_lift | apply keeps_throw].
Qed.

Lemma keeps_checkPassword v h : keeps I (UsersController.checkPassword v h).
Proof.
  unfold UsersController.checkPassword.
  destruct v as [[]|]; first [apply keeps_lift | apply keeps_throw].
Qed.

Lemma keeps_try_next (m : M Outcome) w :
  keeps I m -> I (db w) (pending w) ->
  I (db (snd (try_next m w))) (pending (snd (try_next m w))).
Proof.
  intros Hm Hw. unfold try_next. specialize (Hm w Hw).
  destruct (m w) as [[e|o] w']; exact Hm.
Qed.

End Keeps.

(** A transaction whose callback neither breaks [J] nor holds back any
    write keeps [J]. *)
Lemma keeps_transaction (J : Store -> Prop) {A} (body : Client -> M A) :
  keeps (fun s p => J s /\ p = []) (body tx) ->
  keeps (fun s _ => J s) (transaction body).
Proof.
  intros Hb. unfold transaction.
  apply keeps_bind; [apply keeps_roundtrip|].
  intros _ w Hw.
  specialize (Hb (with_pending w []) (conj Hw eq_refl)).
  destruct (body tx (with_pending w [])) as [[e|a] w1]; [exact (proj1 Hb)|].
  simpl in Hb. destruct Hb as [HJ Hp].
  unfold roundtrip.
  destruct (head (outages w1)) as [[|]|]; simpl; rewrite ?Hp; exact HJ.
Qed.

Ltac keeps_step :=
  match goal with
  | |- keeps _ (bind _ _) => apply keeps_bind; [|intros ?]
  | |- keeps _ (ret _) => apply keeps_ret
  | |- keeps _ (send _ _) => apply keeps_ret
  | |- keeps _ (throw _) => apply keeps_throw
  | |- keeps _ (lift _) => apply keeps_lift
  | |- keeps _ newId => apply keeps_newId
  | |- keeps _ Date_now => apply keeps_Date_now
  | |- keeps _ (actions_log _ _ _ _) => apply keeps_actions_log
  | |- keeps _ (query prisma _) => apply keeps_query
  | |- keeps _ (Auth.isAdmin _) => apply keeps_isAdmin
  | |- keeps _ (Auth.createToken _ _) => apply keeps_createToken
  | |- keeps _ (UsersController.hashPassword _) => apply keeps_hashPassword
  | |- keeps _ (UsersController.checkPassword _ _) => apply keeps_checkPassword
  | |- keeps _ (UsersController.findUser _ ?u) =>
      unfold UsersController.findUser; destruct u
  | |- keeps _ (UsersController.updateStruct_of _) =>
      unfold UsersController.updateStruct_of
  | |- keeps _ (UsersController.execute_now prisma _) => apply keeps_execute_now
  | |- keeps _ (execute prisma _) => apply keeps_execute
  | |- keeps _ (if ?b then _ else _) => destruct b eqn:?
  | |- keeps _ (match ?x with _ => _ end) => destruct x eqn:?
  end.

Lemma users_apply_id now data u u' :
  Prisma.users_apply now data u = inr u' -> Users.id u' = Users.id u.
Proof.
  unfold Prisma.users_apply. repeat exc_step. intros [= <-]. reflexivity.
Qed.

Lemma existsb_map_same_id a (g : Users.row -> Users.row) l :
  (forall r, Users.id (g r) = Users.id r) ->
  existsb (fun u => Prisma.eqs (Users.id u) a) (map g l)
  = existsb (fun u => Prisma.eqs (Users.id u) a) l.
Proof.
  intros Hg. induction l as [|r l IH]; [reflexivity|].
  simpl. rewrite Hg, IH. reflexivity.
Qed.

Lemma existsb_filter_other a id l :
  id <> a ->
  existsb (fun u => Prisma.eqs (Users.id u) a)
    (List.filter (fun u => negb (Prisma.eqs (Users.id u) id)) l)
  = existsb (fun u => Prisma.eqs (Users.id u) a) l.
Proof.
  intros Hne. induction l as [|r l IH]; [reflexivity|].
  simpl. unfold Prisma.eqs in *.
  destruct (String.eqb_spec (Users.id r) id) as [Hid|Hid]; simpl.
  - rewrite IH. destruct (String.eqb_spec (Users.id r) a); [congruence|reflexivity].
  - rewrite IH. reflexivity.
Qed.

Section WritesKeepUsers.
Variable a : string.

Lemma users_create_keeps now data s s' :
  user_exists a s -> Prisma.users_create now data s = inr s' -> user_exists a s'.
Proof.
  unfold user_exists. intros Hs Hc.
  apply users_create_inr in Hc. destruct Hc as (u & -> & _).
  simpl. rewrite existsb_app, Hs. reflexivity.
Qed.

Lemma folders_create_keeps now data s s' :
  user_exists a s -> Prisma.folders_create now data s = inr s' -> user_exists a s'.
Proof.
  intros Hs Hc. apply folders_create_inr in Hc.
  destruct Hc as (f & -> & _). exact Hs.
Qed.

Lemma usersGroups_create_keeps now data s s' :
  user_exists a s -> Prisma.usersGroups_create now data s = inr s' ->
  user_exists a s'.
Proof.
  intros Hs Hc. apply usersGroups_create_inr in Hc.
  destruct Hc as (m & -> & _). exact Hs.
Qed.

Lemma usersGroups_deleteMany_keeps user s s' :
  user_exists a s -> Prisma.usersGroups_deleteMany user s = inr s' ->
  user_exists a s'.
Proof. intros Hs [= <-]. exact Hs. Qed.

Lemma items_deleteMany_keeps folder s s' :
  user_exists a s -> Prisma.items_deleteMany folder s = inr s' ->
  user_exists a s'.
Proof. intros Hs [= <-]. exact Hs. Qed.

Lemma folders_delete_keeps id s s' :
  user_exists a s -> Prisma.folders_delete id s = inr s' -> user_exists a s'.
Proof.
  unfold Prisma.folders_delete. intros Hs.
  destruct (negb _); [discriminate|].
  destruct (_ || _); [discriminate|].
  intros [= <-]. exact Hs.
Qed.

Lemma users_update_keeps now id data s s' :
  user_exists a s -> Prisma.users_update now id data s = inr s' ->
  user_exists a s'.
Proof.
  unfold Prisma.users_update, user_exists. intros Hs.
  destruct (Prisma.users_findUnique id s) as [u|] eqn:Hf; [|discriminate].
  destruct (Prisma.users_apply now data u) as [e|u'] eqn:Ha; [discriminate|].
  unfold mbind, Exc_bind. intros [= <-]. simpl.
  rewrite existsb_map_same_id; [exact Hs|].
  intros r. unfold Prisma.eqs.
  destruct (String.eqb_spec (Users.id r) id) as [Hr|Hr]; [|reflexivity].
  rewrite (users_apply_id _ _ _ _ Ha), (users_findUnique_id _ _ _ Hf).
  symmetry. exact Hr.
Qed.

Lemma users_delete_keeps id s s' :
  id <> a ->
  user_exists a s -> Prisma.users_delete id s = inr s' -> user_exists a s'.
Proof.
  unfold Prisma.users_delete, user_exists. intros Hne Hs.
  destruct (Prisma.users_findUnique id s); [|discriminate].
  destruct (existsb _ (usersGroups s)); [discriminate|].
  intros [= <-]. simpl. rewrite existsb_filter_other by assumption. exact Hs.
Qed.

End WritesKeepUsers.

(* ===================================================================== *)
(** * Sequences of calls *)
(* ===================================================================== *)

Ltac write_keeps :=
  first [ solve [eapply users_create_keeps; eauto]
        | solve [eapply folders_create_keeps; eauto]
        | solve [eapply usersGroups_create_keeps; eauto]
        | solve [eapply usersGroups_deleteMany_keeps; eauto]
        | solve [eapply items_deleteMany_keeps; eauto]
        | solve [eapply folders_delete_keeps; eauto]
        | solve [eapply users_update_keeps; eauto]
        | solve [eapply users_delete_keeps; eauto] ].

Section Sequences.
Context `{Imports}.

Lemma cascade_keeps a id personalId :
  id <> a ->
  keeps (fun s p => user_exists a s /\ p = [])
    (UsersController.cascade prisma id personalId).
Proof.
  intros Hne. unfold UsersController.cascade.
  repeat keeps_step;
    intros ? ? ? [? ?] ?; (split; [write_keeps | assumption]).
Qed.

Lemma remove_keeps a req :
  String.eqb a "0" = true ->
  keeps (fun s _ => user_exists a s)
    (let* admin := Auth.isAdmin (Auth.OfRequest req) in
     if negb admin then send 403 (R_ko "Unauthorized") else
     let id := Request.params_id req in
     let* user := query prisma (Prisma.users_findUnique id) in
     match user with
     | None => send 404 (R_ko "User not found")
     | Some _ =>
         if String.eqb id "0"
         then send 422 (R_ko "Admin user cannot be removed") else
         let* personal := query prisma (Prisma.folders_findMany_personal id) in
         let personalId := match personal with
                           | f :: _ => Folders.id f
                           | [] => ""
                           end in
         transaction (fun tx => UsersController.cascade prisma id personalId) ;;
         actions_log (UsersController.str_of (Request.user req)) "delete"
           "folder" (Some (JStr id)) ;;
         send 200 (R_ok (Value (JStr "Done")))
     end).
Proof.
  intros Ha. apply String.eqb_eq in Ha. subst a. cbv zeta.
  keeps_step; [keeps_step|]. keeps_step; [keeps_step|].
  keeps_step; [keeps_step|]. keeps_step; [|keeps_step].
  keeps_step; [keeps_step|]. keeps_step; [keeps_step|].
  keeps_step; [|repeat keeps_step].
  apply keeps_transaction. apply cascade_keeps.
  apply String.eqb_neq. assumption.
Qed.

Lemma handler_keeps_admin o req w :
  user_exists "0" (db w) ->
  user_exists "0" (db (snd (handler o req w))).
Proof.
  intros Hw.
  destruct o; cbn [handler];
    unfold UsersController.get, UsersController.create,
      UsersController.update, UsersController.remove,
      UsersController.setPersonalSecret, UsersController.personalFolderLogin;
    (apply (keeps_try_next (fun s _ => user_exists "0" s)); [|exact Hw]).
  - repeat keeps_step.
  - repeat keeps_step; intros ? ? ? ? ? ?; write_keeps.
  - repeat keeps_step; intros ? ? ? ? ? ?; write_keeps.
  - apply remove_keeps. reflexivity.
  - repeat keeps_step; intros ? ? ? ? ? ?; write_keeps.
  - repeat keeps_step.
Qed.

Lemma run_keeps_admin calls w :
  user_exists "0" (db w) -> user_exists "0" (db (run calls w)).
Proof.
  revert w. induction calls as [|c calls IH]; intros w Hw; [exact Hw|].
  simpl. apply IH. apply handler_keeps_admin. exact Hw.
Qed.

End Sequences.

(* ===================================================================== *)
(** * remove *)
(* ===================================================================== *)

Lemma user_exists_find a s :
  user_exists a s <-> Prisma.users_findUnique a s <> None.
Proof.
  unfold user_exists, Prisma.users_findUnique.
  induction (users s) as [|u l IH]; simpl.
  - split; [discriminate | congruence].
  - destruct (Prisma.eqs (Users.id u) a); simpl; [|exact IH].
    split; [discriminate | reflexivity].
Qed.

Section Remove.
Context `{Imports}.

(** [remove] on the reserved id, by cases. *)
Lemma remove_admin_outcome req w :
  Request.params_id req = "0" ->
  UsersController.remove req w
  = match Request.jwt req with
    | None => (NextErr TypeError, w)
    | Some j =>
        if negb (Jwt.admin j) then (Send 403 (R_ko "Unauthorized"), w)
        else match head (outages w) with
             | Some true => (NextErr StoreUnavailable, after_roundtrip w)
             | _ =>
                 match Prisma.users_findUnique "0" (db w) with
                 | None => (Send 404 (R_ko "User not found"), after_roundtrip w)
                 | Some _ =>
                     (Send 422 (R_ko "Admin user cannot be removed"),
                      after_roundtrip w)
                 end
             end
    end.
Proof.
  intros Hid. unfold UsersController.remove, try_next, Auth.isAdmin.
  rewrite Hid.
  destruct (Request.jwt req) as [j|]; [|reflexivity].
  rewrite bind_ret. destruct (negb (Jwt.admin j)); [reflexivity|].
  destruct (query_cases (Prisma.users_findUnique "0") w) as [E|E];
    [rewrite (bind_ok _ _ _ _ _ E) | rewrite (bind_err _ _ _ _ _ E)];
    unfold query, bind, roundtrip in E;
    destruct (head (outages w)) as [[|]|]; try discriminate;
    try reflexivity;
    destruct (Prisma.users_findUnique "0" (db w)); reflexivity.
Qed.

(** C5, as amended.  A deletion request that names the reserved id "0"
    never ends in 200 and leaves the database as it was: the answer is
    403 when the token of the caller has no admin flag, and 422 "Admin
    user cannot be removed" when it has, the store answers and the row
    is stored (404 when it is not).  Hence, once a user "0" is stored,
    one is stored after every sequence of calls of [get], [create],
    [update], [remove], [setPersonalSecret] and [personalFolderLogin],
    at any times and with any outages of the store.  (The two other
    operations of the controller, [list] and [getGroups], only read.) *)
Theorem admin_user_cannot_be_removed :
  (forall req w,
     Request.params_id req = "0" ->
     db (snd (UsersController.remove req w)) = db w
     /\ (forall payload, fst (UsersController.remove req w) <> Send 200 payload)
     /\ (forall j, Request.jwt req = Some j -> Jwt.admin j = false ->
           fst (UsersController.remove req w) = Send 403 (R_ko "Unauthorized"))
     /\ (forall j, Request.jwt req = Some j -> Jwt.admin j = true ->
           up w -> user_exists "0" (db w) ->
           fst (UsersController.remove req w)
           = Send 422 (R_ko "Admin user cannot be removed"))
     /\ (forall j, Request.jwt req = Some j -> Jwt.admin j = true ->
           up w -> ~ user_exists "0" (db w) ->
           fst (UsersController.remove req w) = Send 404 (R_ko "User not found")))
  /\ (forall calls w,
        user_exists "0" (db w) -> user_exists "0" (db (run calls w))).
Proof.
  split; [|exact run_keeps_admin].
  intros req w Hid. rewrite (remove_admin_outcome req w Hid).
  split; [|split; [|split; [|split]]].
  - destruct (Request.jwt req) as [j|]; [|reflexivity].
    destruct (negb (Jwt.admin j)); [reflexivity|].
    destruct (head (outages w)) as [[|]|]; try reflexivity;
      destruct (Prisma.users_findUnique "0" (db w)); reflexivity.
  - intros payload.
    destruct (Request.jwt req) as [j|]; [|discriminate].
    destruct (negb (Jwt.admin j)); [discriminate|].
    destruct (head (outages w)) as [[|]|]; try discriminate;
      destruct (Prisma.users_findUnique "0" (db w)); discriminate.
  - intros j -> ->. reflexivity.
  - intros j -> -> Hup Hex. simpl.
    apply user_exists_find in Hex.
    unfold up in Hup. destruct (outages w) as [|[|] o]; simpl.
    + destruct (Prisma.users_findUnique "0" (db w)); [reflexivity|congruence].
    + inversion Hup; discriminate.
    + destruct (Prisma.users_findUnique "0" (db w)); [reflexivity|congruence].
  - intros j -> -> Hup Hex. simpl.
    rewrite user_exists_find in Hex.
    unfold up in Hup. destruct (outages w) as [|[|] o]; simpl.
    + destruct (Prisma.users_findUnique "0" (db w)); [|reflexivity].
      destruct Hex. discriminate.
    + inversion Hup; discriminate.
    + destruct (Prisma.users_findUnique "0" (db w)); [|reflexivity].
      destruct Hex. discriminate.
Qed.

End Remove.

(** The claim as stated (every deletion request that names the reserved
    id is answered 422) does not hold for a caller without the admin
    flag: the answer is 403. *)
Lemma remove_admin_by_non_admin_is_403 :
  Request.params_id (Demo.request "bob" false "0" ∅) = "0"
  /\ fst (UsersController.remove
            (Demo.request "bob" false "0" ∅) (Demo.world Demo.store []))
     = Send 403 (R_ko "Unauthorized").
Proof. split; reflexivity. Qed.

(** C5 on the seeded store: the admin's request to delete "0" is answered
    422, and user "0" is still stored after three calls. *)
Lemma admin_user_cannot_be_removed_witness :
  fst (UsersController.remove
         (Demo.request "0" true "0" ∅) (Demo.world Demo.store []))
  = Send 422 (R_ko "Admin user cannot be removed")
  /\ db (snd (UsersController.remove
                (Demo.request "0" true "0" ∅) (Demo.world Demo.store [])))
     = Demo.store
  /\ user_exists "0"
       (db (run (H := Demo.imports)
              [ {| operation := op_remove;
                   request := Demo.request "0" true "0" ∅;
                   time := 6000; faults := [] |};
                {| operation := op_remove;
                   request := Demo.request "0" true "bob" ∅;
                   time := 7000; faults := [] |};
                {| operation := op_update;
                   request := Demo.request "0" true "0" Demo.rename;
                   time := 8000; faults := [] |} ]
              (Demo.world Demo.store []))).
Proof.
  destruct (@admin_user_cannot_be_removed Demo.imports) as [Hrefused Hseq].
  destruct (Hrefused (Demo.request "0" true "0" ∅) (Demo.world Demo.store [])
              eq_refl) as (Hdb & _ & _ & H422 & _).
  split; [|split].
  - apply (H422 _ eq_refl eq_refl); [constructor | reflexivity].
  - exact Hdb.
  - apply Hseq. reflexivity.
Defined.

(** C1.  The deletions of [remove] are not one transaction.  An admin
    deletes bob (member of "E", owner of personal folder P1 with items i1
    and i2) while a permission row still refers to P1: the folder cannot
    be deleted, [remove] ends in [next(err)], and the database is left
    with bob's membership and the two items gone, but with P1 and bob
    still stored.  The same happens when the store fails at the folder
    deletion. *)
Theorem remove_cascade_is_not_atomic :
  (let r := UsersController.remove
              (Demo.request "0" true "bob" ∅) (Demo.world Demo.granted []) in
   fst r = NextErr ForeignKeyConstraintFailed
   /\ map UsersGroups.id (usersGroups (db (snd r))) = [ "m0"; "m1" ]
   /\ items (db (snd r)) = []
   /\ folders (db (snd r)) = folders Demo.granted
   /\ users (db (snd r)) = users Demo.granted)
  /\ (let r := UsersController.remove
                 (Demo.request "0" true "bob" ∅)
                 (Demo.world Demo.store [false; false; false; false; false; true]) in
      fst r = NextErr StoreUnavailable
      /\ map UsersGroups.id (usersGroups (db (snd r))) = [ "m0"; "m1" ]
      /\ items (db (snd r)) = []
      /\ folders (db (snd r)) = folders Demo.store
      /\ users (db (snd r)) = users Demo.store).
Proof. vm_compute. repeat split. Qed.

(** With every deletion possible, the cascade goes through. *)
Example remove_bob :
  let r := UsersController.remove
             (Demo.request "0" true "bob" ∅) (Demo.world Demo.store []) in
  fst r = Send 200 (R_ok (Value (JStr "Done")))
  /\ map Users.id (users (db (snd r))) = [ "0" ]
  /\ map Folders.id (folders (db (snd r))) = [ "0"; "P" ]
  /\ map UsersGroups.id (usersGroups (db (snd r))) = [ "m0"; "m1" ]
  /\ items (db (snd r)) = [].
Proof. vm_compute. repeat split. Qed.

(** Sent to the client of the transaction instead, the same statements
    are dropped together when one of them fails. *)
Example cascade_on_tx_is_atomic :
  let r := transaction (fun tx => UsersController.cascade tx "bob" "P1")
             (Demo.world Demo.granted []) in
  fst r = inl ForeignKeyConstraintFailed
  /\ db (snd r) = Demo.granted.
Proof. vm_compute. repeat split. Qed.

(* ===================================================================== *)
(** * Further properties: authentication *)
(* ===================================================================== *)

Section Authentication.
Context `{Imports}.

Lemma validateJWT_world req w : snd (Auth.validateJWT req w) = w.
Proof.
  unfold Auth.validateJWT.
  destruct (Request.headers_authorization req) as [parts|]; [|reflexivity].
  destruct (Jwt.verify _ _ _); reflexivity.
Qed.

(** What [validateJWT] has checked when it calls [next()]. *)
Lemma validateJWT_next req w req' w' :
  Auth.validateJWT req w = (Next req', w') ->
  w' = w
  /\ exists alg k p,
       bearer req = Some (Jwt.Signed alg k p)
       /\ Jwt.secret (jwt_key Config_get) = Some k
       /\ Jwt.hmac alg = true
       /\ (clock w / 1000 < Jwt.exp p)%Z
       /\ Request.jwt req' = Some p
       /\ Request.user req' = Some (Jwt.user p)
       /\ Request.personalfolder req' = Some (Jwt.personalfolder p)
       /\ Request.body req' = Request.body req
       /\ Request.params_id req' = Request.params_id req.
Proof.
  unfold Auth.validateJWT, bearer.
  destruct (Request.headers_authorization req) as [parts|]; [|discriminate].
  destruct (parts !! 1%nat) as [[alg k p|raw]|]; simpl; try discriminate.
  destruct (Jwt.secret (jwt_key Config_get)) as [key|]; [|discriminate].
  destruct (Jwt.hmac alg) eqn:Hhmac; simpl; [|discriminate].
  destruct (String.eqb_spec k key) as [->|Hne]; simpl; [|discriminate].
  destruct (Z.leb_spec (Jwt.exp p) (clock w / 1000)); [discriminate|].
  intros [= <- <-]. split; [reflexivity|].
  exists alg, key, p. simpl. repeat split; first [reflexivity | assumption].
Qed.

(** What [validateJWT] answers to a token that verifies. *)
Lemma validateJWT_accepts req w alg k p :
  bearer req = Some (Jwt.Signed alg k p) ->
  Jwt.secret (jwt_key Config_get) = Some k ->
  Jwt.hmac alg = true ->
  (clock w / 1000 < Jwt.exp p)%Z ->
  Auth.validateJWT req w
  = (Next {| Request.headers_authorization := Request.headers_authorization req;
             Request.params_id := Request.params_id req;
             Request.body := Request.body req;
             Request.jwt := Some p;
             Request.user := Some (Jwt.user p);
             Request.personalfolder := Some (Jwt.personalfolder p) |}, w).
Proof.
  unfold Auth.validateJWT, bearer. intros Hb Hk Hh Hexp.
  destruct (Request.headers_authorization req) as [parts|]; [|discriminate].
  rewrite Hb. simpl. rewrite Hk, Hh, String.eqb_refl. simpl.
  destruct (Z.leb_spec (Jwt.exp p) (clock w / 1000)); [lia|reflexivity].
Qed.

(** X1.  [validateJWT] calls [next()] exactly for a request whose header
    carries, as its second part, a token that was signed with the
    configured key by an HMAC algorithm and whose expiry lies after the
    time of the call.  The request it hands on has the claims of that
    token as [jwt], [user] and [personalfolder], and the body and the
    parameters of the request that came in; the world is untouched.  The
    first part of the header (the scheme) is not looked at. *)
Theorem validateJWT_hands_on_only_valid_tokens (req : Request) (w : World) :
  (forall req' w',
     Auth.validateJWT req w = (Next req', w') ->
     w' = w
     /\ exists alg k p,
          bearer req = Some (Jwt.Signed alg k p)
          /\ Jwt.secret (jwt_key Config_get) = Some k
          /\ Jwt.hmac alg = true
          /\ (clock w / 1000 < Jwt.exp p)%Z
          /\ Request.jwt req' = Some p
          /\ Request.user req' = Some (Jwt.user p)
          /\ Request.personalfolder req' = Some (Jwt.personalfolder p)
          /\ Request.body req' = Request.body req
          /\ Request.params_id req' = Request.params_id req)
  /\ (forall alg k p,
        bearer req = Some (Jwt.Signed alg k p) ->
        Jwt.secret (jwt_key Config_get) = Some k ->
        Jwt.hmac alg = true ->
        (clock w / 1000 < Jwt.exp p)%Z ->
        exists req', Auth.validateJWT req w = (Next req', w)).
Proof.
  split.
  - exact (validateJWT_next req w).
  - intros alg k p Hb Hk Hh Hexp. eexists.
    exact (validateJWT_accepts req w alg k p Hb Hk Hh Hexp).
Qed.

(** X2.  Every refusal of [validateJWT] is a 401 that leaves the world
    untouched, with these messages: without [authorization] header, "A
    token is required for authentication"; with a header that has no
    second part, or whose second part is not a token, or is a token
    signed with another key (whether or not it has expired), "Invalid
    token"; with a token signed with the configured key that has reached
    its expiry, "Token expired". *)
Theorem validateJWT_refusals (req : Request) (w : World) :
  (Request.headers_authorization req = None ->
   Auth.validateJWT req w
   = (Send 401 (R_ko "A token is required for authentication"), w))
  /\ (forall parts,
        Request.headers_authorization req = Some parts ->
        (Datatypes.length parts <= 1)%nat ->
        Auth.validateJWT req w = (Send 401 (R_ko "Invalid token"), w))
  /\ (forall raw,
        bearer req = Some (Jwt.Malformed raw) ->
        Auth.validateJWT req w = (Send 401 (R_ko "Invalid token"), w))
  /\ (forall alg k p k',
        bearer req = Some (Jwt.Signed alg k p) ->
        Jwt.secret (jwt_key Config_get) = Some k' ->
        k <> k' ->
        Auth.validateJWT req w = (Send 401 (R_ko "Invalid token"), w))
  /\ (forall alg k p,
        bearer req = Some (Jwt.Signed alg k p) ->
        Jwt.secret (jwt_key Config_get) = Some k ->
        Jwt.hmac alg = true ->
        (Jwt.exp p <= clock w / 1000)%Z ->
        Auth.validateJWT req w = (Send 401 (R_ko "Token expired"), w)).
Proof.
  unfold Auth.validateJWT, bearer.
  split; [|split; [|split; [|split]]].
  - intros ->. reflexivity.
  - intros parts -> Hlen.
    destruct parts as [|a [|b parts]]; simpl in *; try reflexivity; lia.
  - intros raw.
    destruct (Request.headers_authorization req) as [parts|]; [|discriminate].
    intros ->. reflexivity.
  - intros alg k p k'.
    destruct (Request.headers_authorization req) as [parts|]; [|discriminate].
    intros -> Hk Hne. simpl. rewrite Hk.
    rewrite (proj2 (String.eqb_neq k k') Hne).
    destruct (Jwt.hmac alg); reflexivity.
  - intros alg k p.
    destruct (Request.headers_authorization req) as [parts|]; [|discriminate].
    intros -> Hk Hh Hexp. simpl. rewrite Hk, Hh, String.eqb_refl. simpl.
    destruct (Z.leb_spec (Jwt.exp p) (clock w / 1000)); [reflexivity|lia].
Qed.

End Authentication.

(** X1 on the token of bob, carried one second before its expiry. *)
Lemma validateJWT_hands_on_only_valid_tokens_witness :
  exists req',
    Auth.validateJWT (H := Demo.imports)
      (Demo.carrying (issued (H := Demo.imports) "bob" false
                        (Demo.world Demo.store []) "signing"))
      (with_clock (Demo.world Demo.store []) 3604999)
    = (Next req', with_clock (Demo.world Demo.store []) 3604999).
Proof.
  apply (proj2 (validateJWT_hands_on_only_valid_tokens (H := Demo.imports)
                  (Demo.carrying (issued (H := Demo.imports) "bob" false
                                    (Demo.world Demo.store []) "signing"))
                  (with_clock (Demo.world Demo.store []) 3604999))
           Jwt.HS512 "signing"
           {| Jwt.user := "bob"; Jwt.admin := false;
              Jwt.personalfolder := false; Jwt.iat := 5; Jwt.exp := 3605 |});
    reflexivity.
Defined.

(** X2 on a request without header, and on the token of bob carried at
    the second of its expiry. *)
Lemma validateJWT_refusals_witness :
  Auth.validateJWT (H := Demo.imports) (Demo.request "bob" false "" ∅)
    (Demo.world Demo.store [])
  = (Send 401 (R_ko "A token is required for authentication"),
     Demo.world Demo.store [])
  /\ Auth.validateJWT (H := Demo.imports)
       (Demo.carrying (issued (H := Demo.imports) "bob" false
                         (Demo.world Demo.store []) "signing"))
       (with_clock (Demo.world Demo.store []) 3605000)
     = (Send 401 (R_ko "Token expired"),
        with_clock (Demo.world Demo.store []) 3605000).
Proof.
  split.
  - apply (proj1 (validateJWT_refusals (H := Demo.imports) _ _)).
    reflexivity.
  - apply (proj2 (proj2 (proj2 (proj2
             (validateJWT_refusals (H := Demo.imports)
                (Demo.carrying (issued (H := Demo.imports) "bob" false
                                  (Demo.world Demo.store []) "signing"))
                (with_clock (Demo.world Demo.store []) 3605000)))))
             Jwt.HS512 "signing"
             {| Jwt.user := "bob"; Jwt.admin := false;
                Jwt.personalfolder := false; Jwt.iat := 5; Jwt.exp := 3605 |});
      first [reflexivity | vm_compute; discriminate].
Defined.

(* ===================================================================== *)
(** * Further properties: who may call, and what a call may touch *)
(* ===================================================================== *)

Section Authorization.
Context `{Imports} `{Externals}.

(** X3.  A request whose token does not carry the admin flag is answered
    403 "Unauthorized" by [create], [update], [remove], [list] and
    [stats], before anything is validated, read or written: the world is
    handed back as it came, whatever the body, the id, the search and the
    state of the store. *)
Theorem non_admin_is_refused (req : Request) (w : World) (j : Jwt.Payload) (search : option JVal) :
  Request.jwt req = Some j ->
  Jwt.admin j = false ->
  UsersController.create req w = (Send 403 (R_ko "Unauthorized"), w)
  /\ UsersController.update req w = (Send 403 (R_ko "Unauthorized"), w)
  /\ UsersController.remove req w = (Send 403 (R_ko "Unauthorized"), w)
  /\ UsersQueries.list search req w = (Send 403 (R_ko "Unauthorized"), w)
  /\ UtilController.stats req w = (Send 403 (R_ko "Unauthorized"), w).
Proof.
  intros Hj Hadmin.
  unfold UsersController.create, UsersController.update,
    UsersController.remove, UsersQueries.list, UtilController.stats,
    try_next, bind; simpl.
  rewrite Hj; simpl. rewrite Hadmin; simpl. repeat split.
Qed.

(** X4.  [get], [getGroups], [list], [personalFolderLogin],
    [generatePassword], [stats], [validateJWT] and the util router leave
    the database and the writes held back as they find them, whatever
    they answer and whether or not the store is reachable. *)
Theorem reading_operations_write_nothing (req : Request) (w : World) (search : option JVal) (matched : option UtilRouter.Route) :
  Forall (fun h : Handler =>
            db (snd (h req w)) = db w /\ pending (snd (h req w)) = pending w)
    [ UsersController.get; UsersQueries.getGroups; UsersQueries.list search;
      UsersController.personalFolderLogin; UtilController.generatePassword;
      UtilController.stats; Auth.validateJWT; UtilRouter.router matched ].
Proof.
  assert (Hread : forall m : M Outcome,
            keeps (fun s p => s = db w /\ p = pending w) m ->
            forall w0, db w0 = db w -> pending w0 = pending w ->
            db (snd (try_next m w0)) = db w
            /\ pending (snd (try_next m w0)) = pending w).
  { intros m Hm w0 Hd Hp.
    exact (keeps_try_next (fun s p => s = db w /\ p = pending w) m w0 Hm
             (conj Hd Hp)). }
  assert (Hgen : forall r w0, db w0 = db w -> pending w0 = pending w ->
            db (snd (UtilController.generatePassword r w0)) = db w
            /\ pending (snd (UtilController.generatePassword r w0)) = pending w).
  { intros r w0. unfold UtilController.generatePassword.
    apply Hread. repeat keeps_step. }
  assert (Hstats : forall r w0, db w0 = db w -> pending w0 = pending w ->
            db (snd (UtilController.stats r w0)) = db w
            /\ pending (snd (UtilController.stats r w0)) = pending w).
  { intros r w0. unfold UtilController.stats.
    apply Hread. repeat keeps_step. }
  repeat constructor.
  1-8: try (unfold UsersController.get, UsersQueries.getGroups,
             UsersQueries.list, UsersQueries.search_users,
             UsersController.personalFolderLogin;
           apply Hread; [repeat keeps_step | reflexivity | reflexivity]).
  all: try solve [apply Hgen; reflexivity | apply Hstats; reflexivity].
  all: try (rewrite validateJWT_world; reflexivity).
  all: unfold UtilRouter.router;
    pose proof (validateJWT_world req w) as Hv;
    destruct (Auth.validateJWT req w) as [[s b|e|r] w0]; simpl in Hv; subst w0;
    try (split; reflexivity);
    destruct matched as [[|]|]; first [apply Hgen | apply Hstats | split];
    reflexivity.
Qed.

End Authorization.

(** X3 on a request of bob, who is no admin, for removing the admin. *)
Lemma non_admin_is_refused_witness :
  UsersController.remove (Demo.request "bob" false "0" ∅)
    (Demo.world Demo.store [])
  = (Send 403 (R_ko "Unauthorized"), Demo.world Demo.store [])
  /\ UtilController.stats (H := Sample.externals)
       (Demo.request "bob" false "0" ∅) (Demo.world Demo.store [])
     = (Send 403 (R_ko "Unauthorized"), Demo.world Demo.store []).
Proof.
  pose proof (non_admin_is_refused (H := Demo.imports) (H0 := Sample.externals)
                (Demo.request "bob" false "0" ∅) (Demo.world Demo.store [])
                _ None eq_refl eq_refl) as (_ & _ & Hremove & _ & Hstats).
  exact (conj Hremove Hstats).
Defined.

Section Survival.
Context `{Imports}.

Lemma handler_keeps_user a o req w :
  (o = op_remove -> Request.params_id req <> a) ->
  user_exists a (db w) ->
  user_exists a (db (snd (handler o req w))).
Proof.
  intros Hother Hw.
  destruct o; cbn [handler];
    unfold UsersController.get, UsersController.create,
      UsersController.update, UsersController.remove,
      UsersController.setPersonalSecret, UsersController.personalFolderLogin;
    (apply (keeps_try_next (fun s _ => user_exists a s)); [|exact Hw]).
  - repeat keeps_step.
  - repeat keeps_step; intros ? ? ? ? ? ?; write_keeps.
  - repeat keeps_step; intros ? ? ? ? ? ?; write_keeps.
  - specialize (Hother eq_refl). cbv zeta.
    keeps_step; [keeps_step|]. keeps_step; [keeps_step|].
    keeps_step; [keeps_step|]. keeps_step; [|keeps_step].
    keeps_step; [keeps_step|]. keeps_step; [keeps_step|].
    keeps_step; [|repeat keeps_step].
    apply keeps_transaction. apply cascade_keeps. exact Hother.
  - repeat keeps_step; intros ? ? ? ? ? ?; write_keeps.
  - repeat keeps_step.
Qed.

(** X5.  A stored user stays stored through any sequence of calls of the
    users controller, at any times and through any outages, unless one of
    the calls is a [remove] for the id of that user: no other operation,
    and no [remove] of somebody else, deletes a user row. *)
Theorem only_remove_deletes_a_user (a : string) (calls : list Call) (w : World) :
  user_exists a (db w) ->
  Forall (fun c => operation c = op_remove ->
                   Request.params_id (request c) <> a) calls ->
  user_exists a (db (run calls w)).
Proof.
  intros Hw Hcalls. revert w Hw.
  induction Hcalls as [|c calls Hc _ IH]; intros w Hw; [exact Hw|].
  simpl. apply IH. apply handler_keeps_user; [exact Hc | exact Hw].
Qed.

End Survival.

(** X5 on bob, through an update of bob, a removal of a user that is not
    stored and a change of bob's personal password. *)
Lemma only_remove_deletes_a_user_witness :
  user_exists "bob"
    (db (run (H := Demo.imports)
           [ {| operation := op_update;
                request := Demo.request "0" true "bob" Demo.rename;
                time := 6000; faults := [] |};
             {| operation := op_remove;
                request := Demo.request "0" true "carol" ∅;
                time := 7000; faults := [] |};
             {| operation := op_setPersonalSecret;
                request := Demo.request "bob" false ""
                             (<["personalsecret" := JStr "x"]> ∅);
                time := 8000; faults := [true] |} ]
           (Demo.world Demo.store []))).
Proof.
  apply (only_remove_deletes_a_user (H := Demo.imports)).
  - reflexivity.
  - repeat constructor; simpl; discriminate.
Defined.

(* ===================================================================== *)
(** * Further properties: the personal password *)
(* ===================================================================== *)

Lemma users_findUnique_replace_user id u' s :
  Users.id u' = id ->
  user_exists id s ->
  Prisma.users_findUnique id (replace_user id u' s) = Some u'.
Proof.
  unfold Prisma.users_findUnique, replace_user, user_exists. simpl.
  intros Hid. induction (users s) as [|r l IH]; simpl; [discriminate|].
  unfold Prisma.eqs in *.
  destruct (String.eqb_spec (Users.id r) id) as [Hr|Hr]; simpl.
  - intros _. rewrite Hid, String.eqb_refl. reflexivity.
  - intros Hl. rewrite (proj2 (String.eqb_neq _ _) Hr). exact (IH Hl).
Qed.

Lemma users_findUnique_replace_other id u' a s :
  Users.id u' = id ->
  a <> id ->
  Prisma.users_findUnique a (replace_user id u' s) = Prisma.users_findUnique a s.
Proof.
  unfold Prisma.users_findUnique, replace_user. simpl.
  intros Hid Ha. induction (users s) as [|r l IH]; simpl; [reflexivity|].
  unfold Prisma.eqs in *.
  destruct (String.eqb_spec (Users.id r) id) as [Hr|Hr]; simpl.
  - rewrite Hid, Hr, (proj2 (String.eqb_neq id a)) by congruence. exact IH.
  - rewrite IH. reflexivity.
Qed.

Lemma replace_user_ids id u' s :
  Users.id u' = id ->
  map Users.id (users (replace_user id u' s)) = map Users.id (users s).
Proof.
  unfold replace_user. simpl. intros Hid.
  induction (users s) as [|r l IH]; simpl; [reflexivity|].
  rewrite IH. unfold Prisma.eqs.
  destruct (String.eqb_spec (Users.id r) id) as [Hr|Hr]; congruence.
Qed.

Section PersonalSecret.
Context `{Imports}.

Lemma execute_now_fails f w e :
  up w -> f (clock w) (db w) = inl e ->
  UsersController.execute_now prisma f w = (inl e, after_roundtrip w).
Proof.
  intros Hup Hf. unfold UsersController.execute_now, Date_now, bind at 1.
  unfold execute. rewrite (bind_ok _ _ _ _ _ (roundtrip_up w Hup)).
  simpl. rewrite Hf. reflexivity.
Qed.

Lemma valid_updatePersonalPassword body :
  JsonSchema.valid body UsersController.updatePersonalPassword
  = match body !! "personalsecret" with
    | Some (JStr _) => true
    | _ => false
    end.
Proof.
  unfold JsonSchema.valid. simpl.
  destruct (body !! "personalsecret") as [[]|]; reflexivity.
Qed.

Lemma setPersonalSecret_run req w id u password hash :
  up w ->
  Request.user req = Some id ->
  Prisma.users_findUnique id (db w) = Some u ->
  Request.body req !! "personalsecret" = Some (JStr password) ->
  Crypt_hashPassword password = inr hash ->
  exists w',
    UsersController.setPersonalSecret req w
    = (Send 200 (R_ok (Value (JStr "Done"))), w')
    /\ db w' = replace_user id (personal_secret_set hash (clock w) u) (db w)
    /\ audit w'
       = (audit w ++ [ {| ActionLog.user := Some (JStr id);
                          ActionLog.action := "personalpasswordcreate";
                          ActionLog.itemtype := "user";
                          ActionLog.itemid := Some (JStr id) |} ])%list.
Proof.
  intros Hup Huser Hfind Hbody Hhash.
  unfold UsersController.setPersonalSecret, try_next.
  rewrite valid_updatePersonalPassword, Hbody.
  change (negb true) with false. cbv iota.
  unfold UsersController.hashPassword.
  rewrite bind_lift, Hhash, Huser.
  erewrite bind_ok.
  2:{ apply execute_now_up; [exact Hup|].
      unfold Prisma.users_update. rewrite Hfind.
      unfold Prisma.users_apply. rewrite !object_lookup. simpl.
      reflexivity. }
  eexists. split; [reflexivity|]. split; reflexivity.
Qed.

(** X6.  [setPersonalSecret], for an authenticated user whose row is
    stored, a body that carries a string, a hash function that returns
    and a store that answers: the answer is 200 "Done"; the row of that
    user has the hash (not the string) as its personal secret and the
    time of the call as [updatedat], and is otherwise as it was; the rows
    of the other users and the other tables are as before; one audit
    entry is added.  Neither the [personalfolder] flag of the token, nor
    the secret stored before, nor the admin flag is looked at. *)
Theorem setPersonalSecret_stores_the_hash (req : Request) (w : World) (id : string) (u : Users.row) (password hash : string) :
  up w ->
  Request.user req = Some id ->
  Prisma.users_findUnique id (db w) = Some u ->
  Request.body req !! "personalsecret" = Some (JStr password) ->
  Crypt_hashPassword password = inr hash ->
  exists w',
    UsersController.setPersonalSecret req w
    = (Send 200 (R_ok (Value (JStr "Done"))), w')
    /\ Prisma.users_findUnique id (db w')
       = Some (personal_secret_set hash (clock w) u)
    /\ (forall a, a <> id ->
          Prisma.users_findUnique a (db w') = Prisma.users_findUnique a (db w))
    /\ map Users.id (users (db w')) = map Users.id (users (db w))
    /\ folders (db w') = folders (db w)
    /\ groups (db w') = groups (db w)
    /\ usersGroups (db w') = usersGroups (db w)
    /\ folderGroupPermission (db w') = folderGroupPermission (db w)
    /\ items (db w') = items (db w)
    /\ audit w'
       = (audit w ++ [ {| ActionLog.user := Some (JStr id);
                          ActionLog.action := "personalpasswordcreate";
                          ActionLog.itemtype := "user";
                          ActionLog.itemid := Some (JStr id) |} ])%list.
Proof.
  intros Hup Huser Hfind Hbody Hhash.
  destruct (setPersonalSecret_run req w id u password hash
              Hup Huser Hfind Hbody Hhash) as (w' & Hrun & Hdb & Haudit).
  pose proof (users_findUnique_id _ _ _ Hfind) as Hid.
  exists w'. rewrite Hdb. split; [exact Hrun|].
  split; [|split; [|split]].
  - apply users_findUnique_replace_user; [exact Hid|].
    apply user_exists_find. rewrite Hfind. discriminate.
  - intros a Ha. apply users_findUnique_replace_other; [exact Hid | exact Ha].
  - apply replace_user_ids. exact Hid.
  - repeat split. exact Haudit.
Qed.

(** X7.  The ways [setPersonalSecret] ends without writing: a body
    without [personalsecret], or with one that is not a string, is
    answered 400 "Bad request" with the world untouched; a hash function
    that throws, or a token whose user is not stored, ends in [next(err)]
    (for the latter Prisma's record-not-found error) with the database
    as it was. *)
Theorem setPersonalSecret_refusals (req : Request) (w : World) :
  ((forall s, Request.body req !! "personalsecret" <> Some (JStr s)) ->
   UsersController.setPersonalSecret req w = (Send 400 (R_ko "Bad request"), w))
  /\ (forall s e,
        Request.body req !! "personalsecret" = Some (JStr s) ->
        Crypt_hashPassword s = inl e ->
        UsersController.setPersonalSecret req w = (NextErr e, w))
  /\ (forall s hash id,
        Request.body req !! "personalsecret" = Some (JStr s) ->
        Crypt_hashPassword s = inr hash ->
        up w ->
        Request.user req = Some id ->
        Prisma.users_findUnique id (db w) = None ->
        fst (UsersController.setPersonalSecret req w) = NextErr RecordNotFound
        /\ db (snd (UsersController.setPersonalSecret req w)) = db w).
Proof.
  unfold UsersController.setPersonalSecret, try_next.
  rewrite valid_updatePersonalPassword.
  split; [|split].
  - intros Hnone.
    destruct (Request.body req !! "personalsecret") as [[]|]; try reflexivity.
    destruct (Hnone _ eq_refl).
  - intros s e -> Hhash. change (negb true) with false. cbv iota.
    unfold UsersController.hashPassword. rewrite bind_lift, Hhash.
    reflexivity.
  - intros s hash id -> Hhash Hup -> Hfind.
    change (negb true) with false. cbv iota.
    unfold UsersController.hashPassword. rewrite bind_lift, Hhash.
    erewrite bind_err.
    2:{ apply execute_now_fails; [exact Hup|].
        unfold Prisma.users_update. rewrite Hfind. reflexivity. }
    split; reflexivity.
Qed.

(** X8.  The personal password that [setPersonalSecret] has stored is the
    one [personalFolderLogin] checks: in any later world with the
    database the first call left and the store answering, a login of the
    same user with [attempt] is decided by [Crypt.checkPassword] of
    [attempt] against the hash that was stored; accepted, it is answered
    200 with a token for that user with [personalfolder] true, rejected,
    401 "Wrong password". *)
Theorem personal_password_set_then_login (req : Request) (w : World) (id : string) (u : Users.row) (password hash k attempt : string) (req2 : Request) (w2 : World) :
  up w ->
  Request.user req = Some id ->
  Prisma.users_findUnique id (db w) = Some u ->
  Request.body req !! "personalsecret" = Some (JStr password) ->
  Crypt_hashPassword password = inr hash ->
  Jwt.secret (jwt_key Config_get) = Some k ->
  db w2 = db (snd (UsersController.setPersonalSecret req w)) ->
  up w2 ->
  Request.user req2 = Some id ->
  Request.body req2 !! "password" = Some (JStr attempt) ->
  fst (UsersController.personalFolderLogin req2 w2)
  = match Crypt_checkPassword attempt (Some hash) with
    | inl e => NextErr e
    | inr false => Send 401 (R_ko "Wrong password")
    | inr true => Send 200 (R_ok (Token (issued id true (after_roundtrip w2) k)))
    end.
Proof.
  intros Hup Huser Hfind Hbody Hhash Hk Hdb2 Hup2 Huser2 Hbody2.
  destruct (setPersonalSecret_run req w id u password hash
              Hup Huser Hfind Hbody Hhash) as (w' & Hrun & Hdb & _).
  rewrite Hrun in Hdb2. simpl in Hdb2.
  assert (Hfind2 : Prisma.users_findUnique id (db w2)
                   = Some (personal_secret_set hash (clock w) u)).
  { rewrite Hdb2, Hdb. apply users_findUnique_replace_user.
    - exact (users_findUnique_id _ _ _ Hfind).
    - apply user_exists_find. rewrite Hfind. discriminate. }
  destruct (personalFolderLogin_run req2 w2 id _ attempt k
              Hup2 Hk Huser2 Hfind2 Hbody2) as (w3 & Hlogin & _).
  rewrite Hlogin. reflexivity.
Qed.

(** X9.  After [setPersonalSecret] has succeeded for a user, [get] of
    that user (in any later world with the database the call left and the
    store answering) is answered 200 with an object whose
    [haspersonalsecret] is true and which has no [personalsecret]
    property. *)
Theorem personal_password_set_then_get (req : Request) (w : World) (id : string) (u : Users.row) (password hash : string) (req2 : Request) (w2 : World) :
  up w ->
  Request.user req = Some id ->
  Prisma.users_findUnique id (db w) = Some u ->
  Request.body req !! "personalsecret" = Some (JStr password) ->
  Crypt_hashPassword password = inr hash ->
  db w2 = db (snd (UsersController.setPersonalSecret req w)) ->
  up w2 ->
  Request.params_id req2 = id ->
  exists o,
    fst (UsersController.get req2 w2) = Send 200 (R_ok (Value (JObj o)))
    /\ o !! "haspersonalsecret" = Some (JBool true)
    /\ o !! "personalsecret" = None
    /\ o !! "id" = Some (JStr id).
Proof.
  intros Hup Huser Hfind Hbody Hhash Hdb2 Hup2 Hid2.
  destruct (setPersonalSecret_run req w id u password hash
              Hup Huser Hfind Hbody Hhash) as (w' & Hrun & Hdb & _).
  rewrite Hrun in Hdb2. simpl in Hdb2.
  pose proof (users_findUnique_id _ _ _ Hfind) as Hid.
  assert (Hfind2 : Prisma.users_findUnique id (db w2)
                   = Some (personal_secret_set hash (clock w) u)).
  { rewrite Hdb2, Hdb. apply users_findUnique_replace_user; [exact Hid|].
    apply user_exists_find. rewrite Hfind. discriminate. }
  exists (get_object (personal_secret_set hash (clock w) u)).
  rewrite get_outcome, Hid2, Hfind2.
  assert (Hhead : head (outages w2) <> Some true).
  { unfold up in Hup2. destruct (outages w2) as [|b o]; [discriminate|].
    inversion Hup2; subst. discriminate. }
  destruct (get_object_lookup (personal_secret_set hash (clock w) u))
    as [Hp Hh].
  split; [destruct (head (outages w2)) as [[|]|]; congruence|].
  split; [exact Hh|]. split; [exact Hp|].
  unfold get_object. cbv zeta.
  rewrite lookup_delete_ne, lookup_insert_ne by discriminate.
  rewrite select_lookup. simpl. unfold Prisma.users_column. simpl.
  rewrite Hid. reflexivity.
Qed.

End PersonalSecret.

(** X6 on bob's request to set "x". *)
Lemma setPersonalSecret_stores_the_hash_witness :
  exists w',
    UsersController.setPersonalSecret (H := Demo.imports) Sample.set_x
      (Demo.world Demo.store [])
    = (Send 200 (R_ok (Value (JStr "Done"))), w')
    /\ Prisma.users_findUnique "bob" (db w')
       = Some (personal_secret_set "hash:x" 5000
                 (Demo.user "bob" "Builder" (Some "hash:s3cret")))
    /\ Prisma.users_findUnique "0" (db w')
       = Prisma.users_findUnique "0" Demo.store.
Proof.
  assert (Hup : up (Demo.world Demo.store [])) by constructor.
  destruct (setPersonalSecret_stores_the_hash (H := Demo.imports) Sample.set_x
              (Demo.world Demo.store []) "bob"
              (Demo.user "bob" "Builder" (Some "hash:s3cret")) "x" "hash:x"
              Hup eq_refl eq_refl eq_refl eq_refl)
    as (w' & Hrun & Hfind & Hothers & _).
  exists w'. split; [exact Hrun|]. split; [exact Hfind|].
  apply Hothers. discriminate.
Defined.

(** X7 on a body without [personalsecret] and on a token of a user that
    is not stored. *)
Lemma setPersonalSecret_refusals_witness :
  UsersController.setPersonalSecret (H := Demo.imports)
    (Demo.request "bob" false "" ∅) (Demo.world Demo.store [])
  = (Send 400 (R_ko "Bad request"), Demo.world Demo.store [])
  /\ fst (UsersController.setPersonalSecret (H := Demo.imports)
            (Demo.request "zed" false "" (<["personalsecret" := JStr "x"]> ∅))
            (Demo.world Demo.store []))
     = NextErr RecordNotFound.
Proof.
  split.
  - apply (proj1 (setPersonalSecret_refusals (H := Demo.imports)
                    (Demo.request "bob" false "" ∅) (Demo.world Demo.store []))).
    intros s. discriminate.
  - apply (proj2 (proj2 (setPersonalSecret_refusals (H := Demo.imports)
                    (Demo.request "zed" false ""
                       (<["personalsecret" := JStr "x"]> ∅))
                    (Demo.world Demo.store []))) "x" "hash:x" "zed");
      try reflexivity.
    constructor.
Defined.

(** X8 on bob: after setting "x", a login with "x" yields a token. *)
Lemma personal_password_set_then_login_witness :
  let w2 := with_clock
              (snd (UsersController.setPersonalSecret (H := Demo.imports)
                      Sample.set_x (Demo.world Demo.store []))) 9000 in
  fst (UsersController.personalFolderLogin (H := Demo.imports)
         (Sample.login_with "x") w2)
  = Send 200 (R_ok (Token (issued (H := Demo.imports) "bob" true
                             (after_roundtrip w2) "signing"))).
Proof.
  intros w2.
  apply (personal_password_set_then_login (H := Demo.imports) Sample.set_x
           (Demo.world Demo.store []) "bob"
           (Demo.user "bob" "Builder" (Some "hash:s3cret")) "x" "hash:x"
           "signing" "x" (Sample.login_with "x") w2);
    try reflexivity; constructor.
Defined.

(** X9 on bob, read by the admin after the password has been set. *)
Lemma personal_password_set_then_get_witness :
  exists o,
    fst (UsersController.get (Demo.request "0" true "bob" ∅)
           (with_clock
              (snd (UsersController.setPersonalSecret (H := Demo.imports)
                      Sample.set_x (Demo.world Demo.store []))) 9000))
    = Send 200 (R_ok (Value (JObj o)))
    /\ o !! "haspersonalsecret" = Some (JBool true).
Proof.
  destruct (personal_password_set_then_get (H := Demo.imports) Sample.set_x
              (Demo.world Demo.store []) "bob"
              (Demo.user "bob" "Builder" (Some "hash:s3cret")) "x" "hash:x"
              (Demo.request "0" true "bob" ∅)
              (with_clock
                 (snd (UsersController.setPersonalSecret (H := Demo.imports)
                         Sample.set_x (Demo.world Demo.store []))) 9000))
    as (o & Hget & Hhas & _); try reflexivity; try constructor.
  exists o. split; assumption.
Defined.

(* ===================================================================== *)
(** * Further properties: list and getGroups *)
(* ===================================================================== *)

Section Reads.
Context `{Externals}.

Lemma orderBy_Permutation {A} (key : A -> string) (l : list A) :
  Permutation (PrismaReads.orderBy key l) l.
Proof. unfold PrismaReads.orderBy. apply merge_sort_Permutation. Qed.

Lemma orderBy_ascending {A} (key : A -> string) (l : list A) :
  collation_total -> ascending key (PrismaReads.orderBy key l).
Proof.
  intros Htotal. unfold ascending, PrismaReads.orderBy.
  apply Sorted_merge_sort.
  intros a b. destruct (Htotal (key a) (key b)) as [E|E];
    [left | right]; rewrite E; exact I.
Qed.

Lemma ascending_map {A B} (f : A -> B) (key : B -> string) (l : list A) :
  ascending (fun a => key (f a)) l -> ascending key (map f l).
Proof.
  unfold ascending. induction 1 as [|a l Hs IH Hd]; simpl; constructor.
  - exact IH.
  - destruct Hd; simpl; constructor. assumption.
Qed.

Lemma push_all {A B} (f : A -> B) (l : list A) (data : list B) :
  fold_left (fun data a => (data ++ [ f a ])%list) l data
  = (data ++ map f l)%list.
Proof.
  revert data. induction l as [|a l IH]; intros data; simpl.
  - rewrite app_nil_r. reflexivity.
  - rewrite IH, <- app_assoc. reflexivity.
Qed.

Lemma search_users_run q w :
  up w ->
  UsersQueries.search_users (JStr <$> q) w
  = (inr (PrismaReads.users_findMany (search_text q) (db w)), after_roundtrip w).
Proof.
  intros Hup. unfold UsersQueries.search_users, search_text.
  destruct q as [s|]; simpl; [|apply query_up; exact Hup].
  destruct (String.eqb s ""); simpl; apply query_up; exact Hup.
Qed.

Lemma list_run q req w j :
  up w ->
  Request.jwt req = Some j -> Jwt.admin j = true ->
  UsersQueries.list (JStr <$> q) req w
  = (Send 200 (R_ok (Value (JArr (map (fun u => JObj (PrismaReads.users_object u))
                                      (PrismaReads.users_findMany (search_text q) (db w)))))),
     after_roundtrip w).
Proof.
  intros Hup Hj Ha. unfold UsersQueries.list, try_next, Auth.isAdmin.
  rewrite Hj, bind_ret, Ha. change (negb true) with false. cbv iota.
  rewrite (bind_ok _ _ _ _ _ (search_users_run q w Hup)). reflexivity.
Qed.

(** X10.  [list], for an admin and with the store answering, is
    answered 200 with one object per user row that is selected, each row
    once: every row when the [search] parameter is absent or empty,
    otherwise the rows whose login, first name or last name contains the
    text (a row without first name can match only by the other two).
    When the order of the database is total the rows are ascending by
    last name.  The database is not written. *)
Theorem list_answers_the_selected_users (q : option string) (req : Request) (w : World) (j : Jwt.Payload) :
  up w ->
  Request.jwt req = Some j ->
  Jwt.admin j = true ->
  exists rows w',
    UsersQueries.list (JStr <$> q) req w
    = (Send 200 (R_ok (Value (JArr (map (fun u => JObj (PrismaReads.users_object u))
                                        rows)))), w')
    /\ db w' = db w
    /\ Permutation rows
         match search_text q with
         | Some s => List.filter (PrismaReads.users_matches s) (users (db w))
         | None => users (db w)
         end
    /\ (collation_total -> ascending Users.lastname rows).
Proof.
  intros Hup Hj Ha.
  exists (PrismaReads.users_findMany (search_text q) (db w)), (after_roundtrip w).
  split; [exact (list_run q req w j Hup Hj Ha)|].
  split; [reflexivity|].
  unfold PrismaReads.users_findMany. split.
  - apply orderBy_Permutation.
  - intros Htotal. apply orderBy_ascending. exact Htotal.
Qed.

(** X11.  The objects [list] sends are whole rows: for every stored
    user the answer to an admin (without search) holds an object with the
    id of that user, the stored hash of the password as [secret] and the
    stored hash of the personal password (or null) as [personalsecret];
    [get] sends neither. *)
Theorem list_sends_the_stored_hashes (req : Request) (w : World) (j : Jwt.Payload) (u : Users.row) :
  up w ->
  Request.jwt req = Some j ->
  Jwt.admin j = true ->
  In u (users (db w)) ->
  exists arr w' o,
    UsersQueries.list None req w = (Send 200 (R_ok (Value (JArr arr))), w')
    /\ In (JObj o) arr
    /\ o !! "id" = Some (JStr (Users.id u))
    /\ o !! "secret" = Some (JStr (Users.secret u))
    /\ o !! "personalsecret" = Some (of_option_string (Users.personalsecret u)).
Proof.
  intros Hup Hj Ha Hu.
  eexists _, _, (PrismaReads.users_object u).
  split; [exact (list_run None req w j Hup Hj Ha)|].
  split.
  - apply in_map_iff. exists u. split; [reflexivity|].
    unfold PrismaReads.users_findMany. simpl.
    apply (Permutation_in _ (Permutation_sym (orderBy_Permutation _ _))).
    exact Hu.
  - unfold PrismaReads.users_object. rewrite !select_lookup.
    repeat split.
Qed.

Lemma getGroups_run req w :
  up w ->
  UsersQueries.getGroups req w
  = (Send 200 (R_ok (Value (JArr
       (map (fun g => JObj (PrismaReads.groups_object g))
            (map snd (PrismaReads.usersGroups_findMany_Groups
                        (Request.params_id req) (db w))))))),
     after_roundtrip w).
Proof.
  intros Hup. unfold UsersQueries.getGroups, try_next.
  rewrite (bind_ok _ _ _ _ _ (query_up _ w Hup)).
  rewrite (push_all snd). reflexivity.
Qed.

(** X12.  [getGroups], with the store answering, is always answered 200,
    for any id and any token (the admin flag is not consulted): with the
    rows of the groups of which the user of that id is a member, and with
    the empty list when there is no such user or membership.  When the
    order of the database is total the groups are ascending by
    description.  The database is not written. *)
Theorem getGroups_answers_the_groups_of_the_user (req : Request) (w : World) :
  up w ->
  exists gs w',
    UsersQueries.getGroups req w
    = (Send 200 (R_ok (Value (JArr (map (fun g => JObj (PrismaReads.groups_object g))
                                        gs)))), w')
    /\ db w' = db w
    /\ (forall g,
          In g gs <->
          exists m, In m (usersGroups (db w))
                    /\ UsersGroups.user m = Request.params_id req
                    /\ List.find (fun g' => Prisma.eqs (Groups.id g')
                                              (UsersGroups.group m))
                         (groups (db w)) = Some g)
    /\ (collation_total -> ascending Groups.description gs).
Proof.
  intros Hup.
  eexists _, _. split; [exact (getGroups_run req w Hup)|].
  split; [reflexivity|].
  unfold PrismaReads.usersGroups_findMany_Groups. split.
  - intros g. rewrite in_map_iff. split.
    + intros ([m g'] & <- & Hin).
      apply (Permutation_in _ (orderBy_Permutation _ _)) in Hin.
      apply list_elem_of_In, list_elem_of_omap in Hin.
      destruct Hin as (m' & Hm' & Hw).
      apply list_elem_of_In, filter_In in Hm'. destruct Hm' as [Hm' Hu].
      unfold PrismaReads.with_Groups in Hw.
      destruct (List.find _ (groups (db w))) as [g0|] eqn:Hfind;
        [|discriminate].
      simpl in Hw. injection Hw as <- <-.
      exists m'. split; [exact Hm'|].
      split; [apply String.eqb_eq; exact Hu | exact Hfind].
    + intros (m & Hm & Hu & Hfind). exists (m, g). split; [reflexivity|].
      apply (Permutation_in _ (Permutation_sym (orderBy_Permutation _ _))).
      apply list_elem_of_In, list_elem_of_omap. exists m. split.
      * apply list_elem_of_In, filter_In. split; [exact Hm|].
        apply String.eqb_eq. exact Hu.
      * unfold PrismaReads.with_Groups. rewrite Hfind. reflexivity.
  - intros Htotal.
    apply (ascending_map snd Groups.description).
    apply (orderBy_ascending (fun mg => Groups.description mg.2)).
    exact Htotal.
Qed.

End Reads.

Lemma sample_collation_total : collation_total (H := Sample.externals).
Proof. intros a b. apply String.leb_total. Qed.

(** X10 on the sample store, searched for "build". *)
Lemma list_answers_the_selected_users_witness :
  exists rows w',
    UsersQueries.list (H := Sample.externals) (Some (JStr "build"))
      (Demo.request "0" true "" ∅) (Demo.world Sample.store [])
    = (Send 200 (R_ok (Value (JArr (map (fun u => JObj (PrismaReads.users_object u))
                                        rows)))), w')
    /\ Permutation rows [ Demo.user "bob" "Builder" (Some "hash:s3cret");
                          Demo.user "dave" "builder" None ]
    /\ ascending (H := Sample.externals) Users.lastname rows.
Proof.
  assert (Hup : up (Demo.world Sample.store [])) by constructor.
  destruct (list_answers_the_selected_users (H := Sample.externals)
              (Some "build") (Demo.request "0" true "" ∅)
              (Demo.world Sample.store []) _ Hup eq_refl eq_refl)
    as (rows & w' & Hrun & _ & Hperm & Hasc).
  exists rows, w'. split; [exact Hrun|]. split; [exact Hperm|].
  exact (Hasc sample_collation_total).
Defined.

(** X11 on bob in the sample store. *)
Lemma list_sends_the_stored_hashes_witness :
  exists arr w' o,
    UsersQueries.list (H := Sample.externals) None
      (Demo.request "0" true "" ∅) (Demo.world Sample.store [])
    = (Send 200 (R_ok (Value (JArr arr))), w')
    /\ In (JObj o) arr
    /\ o !! "id" = Some (JStr "bob")
    /\ o !! "personalsecret" = Some (JStr "hash:s3cret").
Proof.
  assert (Hup : up (Demo.world Sample.store [])) by constructor.
  destruct (list_sends_the_stored_hashes (H := Sample.externals)
              (Demo.request "0" true "" ∅) (Demo.world Sample.store []) _
              (Demo.user "bob" "Builder" (Some "hash:s3cret"))
              Hup eq_refl eq_refl)
    as (arr & w' & o & Hrun & Hin & Hid & _ & Hps).
  { simpl. auto. }
  exists arr, w', o. repeat split; assumption.
Defined.

(** X12 on bob in the sample store, asked by bob. *)
Lemma getGroups_answers_the_groups_of_the_user_witness :
  exists gs w',
    UsersQueries.getGroups (H := Sample.externals)
      (Demo.request "bob" false "bob" ∅) (Demo.world Sample.store [])
    = (Send 200 (R_ok (Value (JArr (map (fun g => JObj (PrismaReads.groups_object g))
                                        gs)))), w')
    /\ In (Demo.group "Builders") gs
    /\ ascending (H := Sample.externals) Groups.description gs.
Proof.
  assert (Hup : up (Demo.world Sample.store [])) by constructor.
  destruct (getGroups_answers_the_groups_of_the_user (H := Sample.externals)
              (Demo.request "bob" false "bob" ∅) (Demo.world Sample.store [])
              Hup)
    as (gs & w' & Hrun & _ & Hin & Hasc).
  exists gs, w'. split; [exact Hrun|].
  split; [|exact (Hasc sample_collation_total)].
  apply Hin. exists (Demo.member "m3" "bob" "Builders").
  split; [simpl; auto 10|]. split; reflexivity.
Defined.

(* ===================================================================== *)
(** * Further properties: the util controller behind its router *)
(* ===================================================================== *)

Section Util.
Context `{Imports} `{Externals}.

Lemma stats_run req w j :
  up w ->
  Request.jwt req = Some j -> Jwt.admin j = true ->
  exists o,
    UtilController.stats req w
    = (Send 200 (R_ok (Value (JObj o))),
       after_roundtrip (after_roundtrip (after_roundtrip w)))
    /\ o !! "users" = Some (JNum (Z.of_nat (Datatypes.length (users (db w)))))
    /\ o !! "items" = Some (JNum (Z.of_nat (Datatypes.length (items (db w)))))
    /\ o !! "folders" = Some (JNum (Z.of_nat (Datatypes.length (folders (db w)))))
    /\ o !! "version" = Some (JStr packageJson_version)
    /\ o !! "cacheSize" = Some (JNum Cache_size).
Proof.
  intros Hup Hj Ha. unfold UtilController.stats, try_next, Auth.isAdmin.
  rewrite Hj, bind_ret, Ha. change (negb true) with false. cbv iota.
  pose proof (up_after_roundtrip w Hup) as Hup1.
  pose proof (up_after_roundtrip _ Hup1) as Hup2.
  rewrite (bind_ok _ _ _ _ _ (query_up _ w Hup)).
  rewrite (bind_ok _ _ _ _ _ (query_up _ _ Hup1)).
  rewrite (bind_ok _ _ _ _ _ (query_up _ _ Hup2)).
  eexists. split; [reflexivity|].
  rewrite !object_lookup. repeat split.
Qed.

Lemma validateJWT_outcome req w :
  (exists req', Auth.validateJWT req w = (Next req', w))
  \/ (exists msg, Auth.validateJWT req w = (Send 401 (R_ko msg), w)).
Proof.
  unfold Auth.validateJWT.
  destruct (Request.headers_authorization req) as [parts|];
    [|right; eexists; reflexivity].
  destruct (Jwt.verify _ _ _);
    [right | left]; eexists; reflexivity.
Qed.

Lemma stats_sends req w status payload w' :
  UtilController.stats req w = (Send status payload, w') ->
  status <> 403%Z ->
  exists j, Request.jwt req = Some j /\ Jwt.admin j = true.
Proof.
  unfold UtilController.stats, try_next, Auth.isAdmin.
  destruct (Request.jwt req) as [j|]; [|discriminate].
  rewrite bind_ret.
  destruct (Jwt.admin j) eqn:Ha; [intros _ _; exists j; split; [reflexivity | exact Ha]|].
  change (negb false) with true. cbv iota. unfold send, ret. cbv beta iota.
  intros [= <- _ _] Hne. destruct (Hne eq_refl).
Qed.

(** X13.  [stats], for an admin and with the store answering, is
    answered 200 with the numbers of rows of the users, items and folders
    tables at the time of the call, the version of the package and the
    size of the cache; it makes three round trips to the store and writes
    nothing. *)
Theorem stats_counts_the_tables (req : Request) (w : World) (j : Jwt.Payload) :
  up w ->
  Request.jwt req = Some j ->
  Jwt.admin j = true ->
  exists o w',
    UtilController.stats req w = (Send 200 (R_ok (Value (JObj o))), w')
    /\ o !! "users" = Some (JNum (Z.of_nat (Datatypes.length (users (db w)))))
    /\ o !! "items" = Some (JNum (Z.of_nat (Datatypes.length (items (db w)))))
    /\ o !! "folders" = Some (JNum (Z.of_nat (Datatypes.length (folders (db w)))))
    /\ o !! "version" = Some (JStr packageJson_version)
    /\ o !! "cacheSize" = Some (JNum Cache_size)
    /\ db w' = db w
    /\ outages w' = tail (tail (tail (outages w))).
Proof.
  intros Hup Hj Ha.
  destruct (stats_run req w j Hup Hj Ha) as (o & Hrun & Hu & Hi & Hf & Hv & Hc).
  exists o, (after_roundtrip (after_roundtrip (after_roundtrip w))).
  repeat split; assumption.
Qed.

(** X14.  Behind the util router nothing is served without a valid
    token: whatever the route, an outcome other than a 401 (a response of
    a handler, an error handed to [next], or the request handed on when
    no route matches) is reached only by a request whose header carries a
    token signed with the configured key by an HMAC algorithm and not yet
    expired; on the [stats] route a response other than 403 moreover
    needs the admin flag of that token.  A request that [validateJWT]
    does not hand on is answered 401 whatever the route, and the world is
    left untouched. *)
Theorem util_router_requires_a_valid_token (matched : option UtilRouter.Route) (req : Request) (w : World) :
  (forall o w',
     UtilRouter.router matched req w = (o, w') ->
     (forall msg, o <> Send 401 (R_ko msg)) ->
     exists alg k p,
       bearer req = Some (Jwt.Signed alg k p)
       /\ Jwt.secret (jwt_key Config_get) = Some k
       /\ Jwt.hmac alg = true
       /\ (clock w / 1000 < Jwt.exp p)%Z
       /\ (forall status payload,
             matched = Some UtilRouter.stats ->
             o = Send status payload -> status <> 403%Z ->
             Jwt.admin p = true))
  /\ ((forall req', Auth.validateJWT req w <> (Next req', w)) ->
      exists msg, UtilRouter.router matched req w = (Send 401 (R_ko msg), w)).
Proof.
  unfold UtilRouter.router.
  destruct (validateJWT_outcome req w) as [[req' Hv]|[msg Hv]]; rewrite Hv.
  - destruct (validateJWT_next req w req' w Hv)
      as (_ & alg & k & p & Hb & Hk & Hh & Hexp & Hjwt & _).
    split.
    + intros o w' Hr _. exists alg, k, p. repeat split; try assumption.
      intros status payload -> -> Hne.
      destruct (stats_sends _ _ _ _ _ Hr Hne) as (j & Hj & Ha).
      congruence.
    + intros Hno. destruct (Hno req' eq_refl).
  - split.
    + intros o w' [= <- <-] Hno. destruct (Hno msg eq_refl).
    + intros _. exists msg. reflexivity.
Qed.

(** X15.  From log-in to statistics: a token that [createToken] has
    signed for a user, carried to the [stats] route of the util router
    within its lifetime and with the store answering, is answered by the
    membership of that user in group "A" at the time the token was
    signed: 403 "Unauthorized" for a user who was no member (with the
    world untouched), 200 with the counts of the tables at the time of
    the request for one who was, whatever the memberships are at the
    time of the request.  The [generatepassword] route answers the same
    token with the password the generator returns, admin or not. *)
Theorem token_decides_the_util_routes (user : string) (personalfolder : bool) (w0 : World) (k : string) :
  up w0 ->
  Jwt.secret (jwt_key Config_get) = Some k ->
  exists token w0',
    Auth.createToken user personalfolder w0 = (inr token, w0')
    /\ (forall req w,
          bearer req = Some token ->
          (clock w / 1000 < clock w0 / 1000 + jwt_duration Config_get)%Z ->
          up w ->
          (member_of (db w0) user "A" = false ->
           UtilRouter.router (Some UtilRouter.stats) req w
           = (Send 403 (R_ko "Unauthorized"), w))
          /\ (member_of (db w0) user "A" = true ->
              exists o w',
                UtilRouter.router (Some UtilRouter.stats) req w
                = (Send 200 (R_ok (Value (JObj o))), w')
                /\ o !! "users"
                   = Some (JNum (Z.of_nat (Datatypes.length (users (db w)))))
                /\ db w' = db w)
          /\ (forall pwd,
                generator_generate
                  {| GeneratePassword.length := 15;
                     GeneratePassword.numbers := true;
                     GeneratePassword.symbols := true;
                     GeneratePassword.lowercase := true;
                     GeneratePassword.uppercase := true;
                     GeneratePassword.strict := true |} = inr pwd ->
                UtilRouter.router (Some UtilRouter.generatepassword) req w
                = (Send 200 (R_ok (Value (JObj {[ "password" := JStr pwd ]}))), w))).
Proof.
  intros Hup0 Hk.
  exists (issued user personalfolder w0 k), (after_roundtrip w0).
  split; [apply createToken_up; assumption|].
  intros req w Hb Hlt Hup.
  assert (Hv : Auth.validateJWT req w
               = (Next {| Request.headers_authorization := Request.headers_authorization req;
                          Request.params_id := Request.params_id req;
                          Request.body := Request.body req;
                          Request.jwt := Some {| Jwt.user := user;
                                                 Jwt.admin := member_of (db w0) user "A";
                                                 Jwt.personalfolder := personalfolder;
                                                 Jwt.iat := clock w0 / 1000;
                                                 Jwt.exp := clock w0 / 1000 + jwt_duration Config_get |};
                          Request.user := Some user;
                          Request.personalfolder := Some personalfolder |}, w)).
  { apply (validateJWT_accepts req w Jwt.HS512 k); try assumption; reflexivity. }
  unfold UtilRouter.router. rewrite Hv.
  split; [|split].
  - intros Hm. unfold UtilController.stats, try_next, Auth.isAdmin. simpl.
    rewrite bind_ret, Hm. reflexivity.
  - intros Hm.
    match goal with
    | |- context [ UtilController.stats ?r w ] =>
        destruct (stats_run r w _ Hup eq_refl Hm) as (o & Hrun & Hu & _)
    end.
    rewrite Hrun. eexists _, _. split; [reflexivity|].
    split; [exact Hu | reflexivity].
  - intros pwd Hg. unfold UtilController.generatePassword, try_next.
    rewrite bind_lift, Hg. reflexivity.
Qed.

End Util.

(** X13 on the sample store. *)
Lemma stats_counts_the_tables_witness :
  exists o w',
    UtilController.stats (H := Sample.externals)
      (Demo.request "0" true "" ∅) (Demo.world Sample.store [])
    = (Send 200 (R_ok (Value (JObj o))), w')
    /\ o !! "users" = Some (JNum 4)
    /\ o !! "items" = Some (JNum 2)
    /\ o !! "folders" = Some (JNum 3).
Proof.
  assert (Hup : up (Demo.world Sample.store [])) by constructor.
  destruct (stats_counts_the_tables (H0 := Sample.externals)
              (Demo.request "0" true "" ∅) (Demo.world Sample.store []) _
              Hup eq_refl eq_refl)
    as (o & w' & Hrun & Hu & Hi & Hf & _).
  exists o, w'. repeat split; assumption.
Defined.

(** X14 on a request for the statistics that carries a token signed with
    another key. *)
Lemma util_router_requires_a_valid_token_witness :
  exists msg,
    UtilRouter.router (H := Demo.imports) (H0 := Sample.externals)
      (Some UtilRouter.stats)
      (Demo.carrying (issued (H := Demo.imports) "0" false
                        (Demo.world Demo.store []) "guessed"))
      (Demo.world Demo.store [])
    = (Send 401 (R_ko msg), Demo.world Demo.store []).
Proof.
  apply (proj2 (util_router_requires_a_valid_token (H := Demo.imports)
                  (H0 := Sample.externals) (Some UtilRouter.stats)
                  (Demo.carrying (issued (H := Demo.imports) "0" false
                                    (Demo.world Demo.store []) "guessed"))
                  (Demo.world Demo.store []))).
  intros req'. vm_compute. discriminate.
Defined.

(** X15 on the admin: the token signed while user "0" was a member of
    "A" still opens the statistics after the membership has been taken
    away. *)
Lemma token_decides_the_util_routes_witness :
  exists token w0',
    Auth.createToken (H := Demo.imports) "0" false (Demo.world Demo.store [])
    = (inr token, w0')
    /\ exists o w',
         UtilRouter.router (H := Demo.imports) (H0 := Sample.externals)
           (Some UtilRouter.stats) (Demo.carrying token)
           (with_clock (Demo.world Demo.revoked []) 100000)
         = (Send 200 (R_ok (Value (JObj o))), w')
         /\ o !! "users" = Some (JNum 2).
Proof.
  assert (Hup : up (Demo.world Demo.store [])) by constructor.
  destruct (token_decides_the_util_routes (H := Demo.imports)
              (H0 := Sample.externals) "0" false (Demo.world Demo.store [])
              "signing" Hup eq_refl)
    as (token & w0' & Hcreate & Hroutes).
  exists token, w0'. split; [exact Hcreate|].
  destruct (Hroutes (Demo.carrying token)
              (with_clock (Demo.world Demo.revoked []) 100000))
    as (_ & Hadmin & _).
  - reflexivity.
  - vm_compute. reflexivity.
  - constructor.
  - destruct (Hadmin eq_refl) as (o & w' & Hrun & Hu & _).
    exists o, w'. split; [exact Hrun | exact Hu].
Defined.

(* ===================================================================== *)
(** * Further properties: what create writes *)
(* ===================================================================== *)

Lemma find_app_fresh {A} (f : A -> bool) (l l' : list A) :
  existsb f l = false -> List.find f (l ++ l') = List.find f l'.
Proof.
  induction l as [|a l IH]; simpl; [reflexivity|].
  destruct (f a); simpl; [discriminate | exact IH].
Qed.

Lemma find_app_other {A} (f : A -> bool) (l l' : list A) :
  existsb f l' = false -> List.find f (l ++ l') = List.find f l.
Proof.
  intros Hl'. induction l as [|a l IH]; simpl.
  - induction l' as [|b l' IH']; simpl in *; [reflexivity|].
    destruct (f b); simpl in *; [discriminate | exact (IH' Hl')].
  - destruct (f a); [reflexivity | exact IH].
Qed.

Section CreateWrites.
Context `{Imports}.

Lemma create_run_db req w hash :
  creatable req w hash ->
  exists w',
    UsersController.create req w
    = (Send 201 (R_ok (Value (JObj {[ "id" := JStr (newId_nth (drawn w)) ]}))), w')
    /\ db w' = after_create req hash w
    /\ drawn w' = S (S (S (drawn w)))
    /\ clock w' = clock w
    /\ audit w'
       = (audit w ++ [ {| ActionLog.user := UsersController.str_of (Request.user req);
                          ActionLog.action := "create";
                          ActionLog.itemtype := "user";
                          ActionLog.itemid := Some (JStr (newId_nth (drawn w))) |} ])%list.
Proof.
  intros (Hup & (j & Hj & Ha) & Hv & (lastname & Hln) & (secret & Hsecret & Hhash)
          & Hf1 & Hf2 & Hf3 & HE).
  destruct (valid_createSchema _ Hv)
    as ((login & Hlogin) & (first & Hfirst) & _ & Ham & Hlo
        & (email & Hemail) & _).
  destruct (nullish_string _ "local" Ham) as (am & Hamv).
  destruct (nullish_string _ "en_US" Hlo) as (lo & Hlov).
  unfold after_create, new_user, new_folder, new_member.
  unfold UsersController.create, try_next, Auth.isAdmin.
  rewrite Hj, bind_ret, Ha, Hv. change (negb true) with false. cbv iota.
  unfold newId at 1, bind at 1.
  rewrite Hsecret. unfold UsersController.hashPassword.
  rewrite bind_lift, Hhash.
  rewrite Hlogin, Hfirst, Hln, Hemail, Hamv, Hlov.
  (* Creates user *)
  erewrite bind_ok.
  2:{ apply execute_now_up; [exact Hup|].
      unfold Prisma.users_create. rewrite !object_lookup. simpl.
      rewrite Hf1. reflexivity. }
  (* Creates personal folder *)
  unfold newId at 1, bind at 1.
  erewrite bind_ok.
  2:{ apply execute_now_up; [apply up_after_roundtrip; exact Hup|].
      unfold Prisma.folders_create. rewrite !object_lookup. simpl.
      rewrite Hf2. reflexivity. }
  (* Add user to 'Everyone' group *)
  unfold newId at 1, bind at 1.
  erewrite bind_ok.
  2:{ apply execute_now_up;
        [apply up_after_roundtrip, up_after_roundtrip; exact Hup|].
      unfold Prisma.usersGroups_create. rewrite !object_lookup. simpl.
      rewrite Hf3, HE, existsb_app. simpl. unfold Prisma.eqs at 2.
      rewrite String.eqb_refl, orb_true_r. simpl. reflexivity. }
  eexists. split; [reflexivity|]. simpl. repeat split.
Qed.

(** X16.  What a successful [create] writes.  For a creatable request
    the answer is 201 with the first id drawn, and the database is the one
    before with three rows appended: the user, whose [secret] is the hash
    of the password (the password itself is not stored), whose
    [authmethod] and [locale] are those of the body or else "local" and
    "en_US", whose [secretexpiresat] is the fixed date, who has no
    personal secret and is active; a personal folder under "P" owned by
    the user and described by the login; the membership in "E".  All
    three carry the time of the call; three ids are drawn and one audit
    entry is added. *)
Theorem create_appends_three_rows (req : Request) (w : World) (hash : string) :
  creatable req w hash ->
  exists w',
    UsersController.create req w
    = (Send 201 (R_ok (Value (JObj {[ "id" := JStr (newId_nth (drawn w)) ]}))), w')
    /\ db w' = after_create req hash w
    /\ Prisma.users_findUnique (newId_nth (drawn w)) (db w')
       = Some (new_user (Request.body req) (newId_nth (drawn w)) hash (clock w))
    /\ (forall a, a <> newId_nth (drawn w) ->
          Prisma.users_findUnique a (db w') = Prisma.users_findUnique a (db w))
    /\ drawn w' = S (S (S (drawn w)))
    /\ audit w'
       = (audit w ++ [ {| ActionLog.user := UsersController.str_of (Request.user req);
                          ActionLog.action := "create";
                          ActionLog.itemtype := "user";
                          ActionLog.itemid := Some (JStr (newId_nth (drawn w))) |} ])%list.
Proof.
  intros Hc.
  destruct (create_run_db req w hash Hc) as (w' & Hrun & Hdb & Hdrawn & _ & Haudit).
  destruct Hc as (_ & _ & _ & _ & _ & Hf1 & _).
  exists w'. rewrite Hdb. repeat split; try assumption.
  - unfold Prisma.users_findUnique, after_create. simpl.
    rewrite find_app_fresh by exact Hf1. simpl. unfold Prisma.eqs.
    rewrite String.eqb_refl. reflexivity.
  - intros a Ha. unfold Prisma.users_findUnique, after_create. simpl.
    rewrite find_app_other; [reflexivity|].
    simpl. unfold Prisma.eqs.
    rewrite (proj2 (String.eqb_neq (newId_nth (drawn w)) a)) by congruence.
    reflexivity.
Qed.

(** X17.  The schema of [create] does not require [lastname], the users
    table does: a body that passes the schema without a last name gets
    past validation and hashing, and the first write is refused by the
    Prisma client.  The handler ends in [next(err)] with a validation
    error, no response of its own, nothing written, and one id drawn. *)
Theorem create_without_lastname_fails (req : Request) (w : World) (j : Jwt.Payload) (secret hash : string) :
  up w ->
  Request.jwt req = Some j ->
  Jwt.admin j = true ->
  JsonSchema.valid (Request.body req) UsersController.createSchema = true ->
  Request.body req !! "lastname" = None ->
  Request.body req !! "secret" = Some (JStr secret) ->
  Crypt_hashPassword secret = inr hash ->
  exists w',
    UsersController.create req w = (NextErr PrismaClientValidationError, w')
    /\ db w' = db w
    /\ drawn w' = S (drawn w).
Proof.
  intros Hup Hj Ha Hv Hln Hsecret Hhash.
  destruct (valid_createSchema _ Hv)
    as ((login & Hlogin) & (first & Hfirst) & _ & Ham & Hlo
        & (email & Hemail) & _).
  destruct (nullish_string _ "local" Ham) as (am & Hamv).
  destruct (nullish_string _ "en_US" Hlo) as (lo & Hlov).
  unfold UsersController.create, try_next, Auth.isAdmin.
  rewrite Hj, bind_ret, Ha, Hv. change (negb true) with false. cbv iota.
  unfold newId at 1, bind at 1.
  rewrite Hsecret. unfold UsersController.hashPassword.
  rewrite bind_lift, Hhash.
  rewrite Hlogin, Hfirst, Hln, Hemail, Hamv, Hlov.
  erewrite bind_err.
  2:{ apply execute_now_fails; [exact Hup|].
      unfold Prisma.users_create. rewrite !object_lookup. simpl.
      reflexivity. }
  eexists. split; [reflexivity|]. split; reflexivity.
Qed.

End CreateWrites.

(** X16 on the creation of alice. *)
Lemma create_appends_three_rows_witness :
  exists w',
    UsersController.create (H := Demo.imports)
      (Demo.request "0" true "" Demo.alice) (Demo.world Demo.store [])
    = (Send 201 (R_ok (Value (JObj {[ "id" := JStr "n1" ]}))), w')
    /\ Prisma.users_findUnique "n1" (db w')
       = Some (new_user (H := Demo.imports) Demo.alice "n1" "hash:pw" 5000).
Proof.
  destruct (create_appends_three_rows (H := Demo.imports)
              (Demo.request "0" true "" Demo.alice) (Demo.world Demo.store [])
              "hash:pw")
    as (w' & Hrun & _ & Hfind & _).
  - split; [constructor|].
    split; [eexists; split; reflexivity|].
    split; [vm_compute; reflexivity|].
    split; [eexists; reflexivity|].
    split; [eexists; split; reflexivity|].
    repeat split.
  - exists w'. split; [exact Hrun | exact Hfind].
Defined.

(** X17 on a body for carol that has no last name. *)
Lemma create_without_lastname_fails_witness :
  exists w',
    UsersController.create (H := Demo.imports)
      (Demo.request "0" true "" (delete "lastname" Demo.alice))
      (Demo.world Demo.store [])
    = (NextErr PrismaClientValidationError, w')
    /\ db w' = Demo.store.
Proof.
  destruct (create_without_lastname_fails (H := Demo.imports)
              (Demo.request "0" true "" (delete "lastname" Demo.alice))
              (Demo.world Demo.store [])
              {| Jwt.user := "0"; Jwt.admin := true;
                 Jwt.personalfolder := false; Jwt.iat := 5; Jwt.exp := 3605 |}
              "pw" "hash:pw")
    as (w' & Hrun & Hdb & _);
    try first [constructor | vm_compute; reflexivity].
  exists w'. split; [exact Hrun | exact Hdb].
Defined.

(* ===================================================================== *)
(** * Further properties: what remove deletes *)
(* ===================================================================== *)

Lemma existsb_filter_negb {A} (f : A -> bool) (l : list A) :
  existsb f (List.filter (fun a => negb (f a)) l) = false.
Proof.
  induction l as [|a l IH]; [reflexivity|].
  simpl. destruct (f a) eqn:E; simpl; [exact IH|].
  rewrite E. exact IH.
Qed.

Lemma personalId_of_stored id s :
  personalId_of id s <> "" ->
  existsb (fun f => Prisma.eqs (Folders.id f) (personalId_of id s)) (folders s)
  = true.
Proof.
  unfold personalId_of, Prisma.folders_findMany_personal.
  destruct (List.filter _ (folders s)) as [|f l] eqn:E; [congruence|].
  intros _. apply existsb_exists. exists f. split.
  - assert (Hin : In f (f :: l)) by (left; reflexivity).
    rewrite <- E in Hin. apply filter_In in Hin. exact (proj1 Hin).
  - apply String.eqb_refl.
Qed.

Lemma users_delete_run id s u :
  Prisma.users_findUnique id s = Some u ->
  existsb (fun m => Prisma.eqs (UsersGroups.user m) id) (usersGroups s) = false ->
  Prisma.users_delete id s
  = inr (with_users s
           (List.filter (fun u => negb (Prisma.eqs (Users.id u) id)) (users s))).
Proof. unfold Prisma.users_delete. intros -> ->. reflexivity. Qed.

Lemma folders_delete_run id s :
  existsb (fun f => Prisma.eqs (Folders.id f) id) (folders s) = true ->
  existsb (fun i => Prisma.eqs (Items.folder i) id) (items s) = false ->
  existsb (fun p => Prisma.eqs (FolderGroupPermission.folder p) id)
    (folderGroupPermission s) = false ->
  Prisma.folders_delete id s
  = inr (with_folders s
           (List.filter (fun f => negb (Prisma.eqs (Folders.id f) id)) (folders s))).
Proof. unfold Prisma.folders_delete. intros -> -> ->. reflexivity. Qed.

Lemma transaction_up {A} (body : Client -> M A) w a w1 :
  up w ->
  body tx (with_pending (after_roundtrip w) []) = (inr a, w1) ->
  up w1 -> pending w1 = [] ->
  transaction body w
  = (inr a, with_pending (with_db (after_roundtrip w1) (db w1)) []).
Proof.
  intros Hup Hbody Hup1 Hp. unfold transaction.
  rewrite (bind_ok _ _ _ _ _ (roundtrip_up w Hup)), Hbody.
  rewrite (roundtrip_up w1 Hup1). simpl. rewrite Hp. reflexivity.
Qed.

Section RemoveRun.
Context `{Imports}.

Lemma bind_execute_up {B} f (k : unit -> M B) w s' :
  up w -> f (db w) = inr s' ->
  bind (execute prisma f) k w = k tt (with_db (after_roundtrip w) s').
Proof.
  intros Hup Hf. rewrite (bind_ok _ _ _ _ _ (execute_up f w s' Hup Hf)).
  reflexivity.
Qed.

Lemma cascade_run id w u :
  up w ->
  Prisma.users_findUnique id (db w) = Some u ->
  (personalId_of id (db w) = ""
   \/ existsb (fun p => Prisma.eqs (FolderGroupPermission.folder p)
                          (personalId_of id (db w)))
        (folderGroupPermission (db w)) = false) ->
  exists w',
    UsersController.cascade prisma id (personalId_of id (db w)) w = (inr tt, w')
    /\ db w' = after_remove id (db w)
    /\ pending w' = pending w
    /\ up w'
    /\ audit w' = audit w.
Proof.
  intros Hup Hfind Hperm. unfold UsersController.cascade, after_remove.
  cbv zeta.
  erewrite bind_execute_up; [|exact Hup|reflexivity].
  pose proof (up_after_roundtrip w Hup) as Hup1.
  destruct (String.eqb_spec (personalId_of id (db w)) "") as [Hpid|Hpid].
  - change (negb true) with false. cbv iota. rewrite bind_ret.
    erewrite execute_up.
    2:{ exact Hup1. }
    2:{ apply (users_delete_run id _ u); [exact Hfind|].
        exact (existsb_filter_negb
                 (fun m => Prisma.eqs (UsersGroups.user m) id) _). }
    eexists. split; [reflexivity|]. simpl.
    split; [reflexivity|]. split; [reflexivity|].
    split; [|reflexivity]. apply up_after_roundtrip. exact Hup1.
  - change (negb false) with true. cbv iota.
    destruct Hperm as [Hperm|Hperm]; [contradiction|].
    rewrite bind_assoc.
    erewrite bind_execute_up; [|exact Hup1|reflexivity].
    erewrite bind_execute_up.
    2:{ apply up_after_roundtrip. exact Hup1. }
    2:{ apply folders_delete_run.
        - exact (personalId_of_stored id (db w) Hpid).
        - exact (existsb_filter_negb
                   (fun i => Prisma.eqs (Items.folder i) (personalId_of id (db w))) _).
        - exact Hperm. }
    erewrite execute_up.
    2:{ do 2 apply up_after_roundtrip. exact Hup1. }
    2:{ apply (users_delete_run id _ u); [exact Hfind|].
        exact (existsb_filter_negb
                 (fun m => Prisma.eqs (UsersGroups.user m) id) _). }
    eexists. split; [reflexivity|]. simpl.
    split; [reflexivity|]. split; [reflexivity|].
    split; [|reflexivity]. do 3 apply up_after_roundtrip. exact Hup1.
Qed.

Lemma remove_run req w :
  removable req w ->
  exists w',
    UsersController.remove req w = (Send 200 (R_ok (Value (JStr "Done"))), w')
    /\ db w' = after_remove (Request.params_id req) (db w)
    /\ audit w'
       = (audit w ++ [ {| ActionLog.user := UsersController.str_of (Request.user req);
                          ActionLog.action := "delete";
                          ActionLog.itemtype := "folder";
                          ActionLog.itemid := Some (JStr (Request.params_id req)) |} ])%list.
Proof.
  intros (Hup & (j & Hj & Ha) & Hex & Hne & Hperm).
  apply user_exists_find in Hex.
  destruct (Prisma.users_findUnique (Request.params_id req) (db w))
    as [u|] eqn:Hfind; [clear Hex|congruence].
  unfold UsersController.remove, try_next, Auth.isAdmin.
  rewrite Hj, bind_ret, Ha. change (negb true) with false. cbv iota zeta.
  rewrite (bind_ok _ _ _ _ _ (query_up _ w Hup)), Hfind.
  rewrite (proj2 (String.eqb_neq _ _) Hne).
  pose proof (up_after_roundtrip w Hup) as Hup1.
  rewrite (bind_ok _ _ _ _ _ (query_up _ _ Hup1)).
  pose proof (up_after_roundtrip _ Hup1) as Hup2.
  change (match Prisma.folders_findMany_personal (Request.params_id req)
                  (db (after_roundtrip w)) with
          | [] => ""
          | f :: _ => Folders.id f
          end) with (personalId_of (Request.params_id req) (db w)).
  destruct (cascade_run (Request.params_id req)
              (with_pending (after_roundtrip (after_roundtrip (after_roundtrip w))) [])
              u (up_after_roundtrip _ Hup2) Hfind Hperm)
    as (w1 & Hcas & Hdb1 & Hp1 & Hup3 & Haud1).
  erewrite (bind_ok (transaction _)).
  2:{ apply (transaction_up _ _ tt w1 Hup2); [exact Hcas | exact Hup3 | exact Hp1]. }
  eexists. split; [reflexivity|]. simpl.
  split; [exact Hdb1|]. rewrite Haud1. reflexivity.
Qed.

End RemoveRun.

Lemma filter_negb_fresh {A} (f : A -> bool) (l : list A) :
  existsb f l = false -> List.filter (fun a => negb (f a)) l = l.
Proof.
  induction l as [|a l IH]; [reflexivity|].
  simpl. destruct (f a); simpl; [discriminate|].
  intros Hl. rewrite (IH Hl). reflexivity.
Qed.

Lemma filter_negb_appended {A} (f : A -> bool) (l : list A) (a : A) :
  existsb f l = false -> f a = true ->
  List.filter (fun a => negb (f a)) (l ++ [a]) = l.
Proof.
  intros Hl Ha. rewrite List.filter_app, (filter_negb_fresh f l Hl). simpl.
  rewrite Ha. simpl. apply app_nil_r.
Qed.

Lemma find_filter_other a id l :
  a <> id ->
  List.find (fun u => Prisma.eqs (Users.id u) a)
    (List.filter (fun u => negb (Prisma.eqs (Users.id u) id)) l)
  = List.find (fun u => Prisma.eqs (Users.id u) a) l.
Proof.
  intros Hne. induction l as [|r l IH]; [reflexivity|].
  simpl. unfold Prisma.eqs in *.
  destruct (String.eqb_spec (Users.id r) id) as [Hid|Hid]; simpl.
  - rewrite IH. rewrite (proj2 (String.eqb_neq (Users.id r) a)) by congruence.
    reflexivity.
  - rewrite IH. reflexivity.
Qed.

Section RemoveFacts.
Context `{Imports}.

(** X18.  What a successful [remove] deletes.  For a removable request
    the answer is 200 "Done" and the database is the one before without
    the memberships of the user, without the first personal folder of the
    user and the items in it, and without the user; every other user, the
    groups and the permissions are as before.  Afterwards the user is not
    stored and is a member of nothing.  The audit entry names the item
    type "folder". *)
Theorem remove_deletes_the_user_and_its_rows (req : Request) (w : World) :
  removable req w ->
  exists w',
    UsersController.remove req w = (Send 200 (R_ok (Value (JStr "Done"))), w')
    /\ db w' = after_remove (Request.params_id req) (db w)
    /\ ~ user_exists (Request.params_id req) (db w')
    /\ (forall group, member_of (db w') (Request.params_id req) group = false)
    /\ (forall a, a <> Request.params_id req ->
          Prisma.users_findUnique a (db w') = Prisma.users_findUnique a (db w))
    /\ audit w'
       = (audit w ++ [ {| ActionLog.user := UsersController.str_of (Request.user req);
                          ActionLog.action := "delete";
                          ActionLog.itemtype := "folder";
                          ActionLog.itemid := Some (JStr (Request.params_id req)) |} ])%list.
Proof.
  intros Hr. destruct (remove_run req w Hr) as (w' & Hrun & Hdb & Haudit).
  exists w'. rewrite Hdb. split; [exact Hrun|]. split; [reflexivity|].
  split; [|split; [|split]].
  - unfold user_exists, after_remove. simpl.
    rewrite (existsb_filter_negb
               (fun u => Prisma.eqs (Users.id u) (Request.params_id req))).
    discriminate.
  - intros group. unfold member_of, after_remove. simpl.
    induction (usersGroups (db w)) as [|m l IH]; [reflexivity|].
    simpl. destruct (Prisma.eqs (UsersGroups.user m) (Request.params_id req)) eqn:E;
      simpl; [exact IH|].
    rewrite E, andb_false_r. exact IH.
  - intros a Ha. unfold Prisma.users_findUnique, after_remove. simpl.
    apply find_filter_other. exact Ha.
  - exact Haudit.
Qed.

(** X19.  [remove] undoes [create].  When a creatable request has been
    served in a world where nothing refers to the ids about to be drawn,
    a later request of an admin to remove the id that was answered, with
    the store answering, is answered 200 and leaves the database exactly
    as it was before the creation. *)
Theorem create_then_remove_restores_the_database (req : Request) (w : World) (hash : string) (req2 : Request) (w2 : World) (j2 : Jwt.Payload) :
  creatable req w hash ->
  unreferenced w ->
  db w2 = db (snd (UsersController.create req w)) ->
  up w2 ->
  Request.jwt req2 = Some j2 ->
  Jwt.admin j2 = true ->
  Request.params_id req2 = newId_nth (drawn w) ->
  exists w3,
    UsersController.remove req2 w2 = (Send 200 (R_ok (Value (JStr "Done"))), w3)
    /\ db w3 = db w.
Proof.
  intros Hc (Hn0 & Hfid & Hmem & Hpers & Hitems & Hperm) Hdb2 Hup2 Hj2 Ha2 Hid2.
  destruct (create_run_db req w hash Hc) as (w' & Hrun & Hdb & _).
  rewrite Hrun in Hdb2. simpl in Hdb2. rewrite Hdb in Hdb2.
  destruct Hc as (_ & _ & _ & _ & _ & Hf1 & Hf2 & _).
  assert (Hpid : personalId_of (newId_nth (drawn w)) (after_create req hash w)
                 = newId_nth (S (drawn w))).
  { unfold personalId_of, Prisma.folders_findMany_personal, after_create.
    simpl. rewrite List.filter_app.
    unfold Prisma.folders_findMany_personal in Hpers. rewrite Hpers. simpl.
    rewrite String.eqb_refl. reflexivity. }
  assert (Hrem : removable req2 w2).
  { split; [exact Hup2|]. split; [exists j2; split; assumption|].
    rewrite Hid2, Hdb2, Hpid.
    split; [|split; [exact Hn0|right; exact Hperm]].
    unfold user_exists, after_create. simpl. rewrite existsb_app. simpl.
    unfold Prisma.eqs at 2. rewrite String.eqb_refl, orb_true_r. reflexivity. }
  destruct (remove_run req2 w2 Hrem) as (w3 & Hrun3 & Hdb3 & _).
  exists w3. split; [exact Hrun3|].
  rewrite Hdb3, Hid2, Hdb2. unfold after_remove. rewrite Hpid.
  rewrite (proj2 (String.eqb_neq _ _) Hfid).
  unfold after_create, with_created. simpl.
  rewrite (filter_negb_appended
             (fun f => Prisma.eqs (Folders.id f) (newId_nth (S (drawn w)))))
    by (try exact Hf2; apply String.eqb_refl).
  rewrite (filter_negb_appended
             (fun u => Prisma.eqs (Users.id u) (newId_nth (drawn w))))
    by (try exact Hf1; apply String.eqb_refl).
  rewrite (filter_negb_appended
             (fun m => Prisma.eqs (UsersGroups.user m) (newId_nth (drawn w))))
    by (try exact Hmem; apply String.eqb_refl).
  rewrite (filter_negb_fresh
             (fun i => Prisma.eqs (Items.folder i) (newId_nth (S (drawn w)))))
    by exact Hitems.
  destruct (db w); reflexivity.
Qed.

End RemoveFacts.

(** X18 on the removal of bob by the admin. *)
Lemma remove_deletes_the_user_and_its_rows_witness :
  exists w',
    UsersController.remove (Demo.request "0" true "bob" ∅)
      (Demo.world Demo.store [])
    = (Send 200 (R_ok (Value (JStr "Done"))), w')
    /\ ~ user_exists "bob" (db w')
    /\ Prisma.users_findUnique "0" (db w') = Some (Demo.user "0" "Admin" None).
Proof.
  destruct (remove_deletes_the_user_and_its_rows
              (Demo.request "0" true "bob" ∅) (Demo.world Demo.store []))
    as (w' & Hrun & _ & Hgone & _ & Hothers & _).
  - split; [constructor|].
    split; [eexists; split; reflexivity|].
    split; [reflexivity|].
    split; [discriminate|]. right. reflexivity.
  - exists w'. split; [exact Hrun|]. split; [exact Hgone|].
    rewrite (Hothers "0") by discriminate. reflexivity.
Defined.

(** X19 on alice: created, then removed by the admin. *)
Lemma create_then_remove_restores_the_database_witness :
  exists w3,
    UsersController.remove (Demo.request "0" true "n1" ∅)
      (with_clock
         (snd (UsersController.create (H := Demo.imports)
                 (Demo.request "0" true "" Demo.alice)
                 (Demo.world Demo.store []))) 9000)
    = (Send 200 (R_ok (Value (JStr "Done"))), w3)
    /\ db w3 = Demo.store.
Proof.
  apply (create_then_remove_restores_the_database (H := Demo.imports)
           (Demo.request "0" true "" Demo.alice) (Demo.world Demo.store [])
           "hash:pw" (Demo.request "0" true "n1" ∅) _
           {| Jwt.user := "0"; Jwt.admin := true;
              Jwt.personalfolder := false; Jwt.iat := 5; Jwt.exp := 3605 |}).
  - split; [constructor|].
    split; [eexists; split; reflexivity|].
    split; [vm_compute; reflexivity|].
    split; [eexists; reflexivity|].
    split; [eexists; split; reflexivity|].
    repeat split.
  - repeat split; discriminate.
  - reflexivity.
  - vm_compute. constructor.
  - reflexivity.
  - reflexivity.
  - reflexivity.
Defined.

Lemma bind_inr {A B} (m : M A) (k : A -> M B) w b w' :
  bind m k w = (inr b, w') ->
  exists a w1, m w = (inr a, w1) /\ k a w1 = (inr b, w').
Proof.
  unfold bind. destruct (m w) as [[e|a] w1]; [discriminate|].
  intros Hk. exists a, w1. split; [reflexivity | exact Hk].
Qed.

Lemma execute_inr f w w' :
  execute prisma f w = (inr tt, w') ->
  exists s', f (db w) = inr s' /\ db w' = s' /\ pending w' = pending w.
Proof.
  destruct (execute_cases f w) as [(s' & Hf & E)|(e & E)]; rewrite E.
  - intros [= <-]. exists s'. repeat split. exact Hf.
  - discriminate.
Qed.

Lemma transaction_inr {A} (body : Client -> M A) w a w' :
  transaction body w = (inr a, w') ->
  exists w1, body tx (with_pending (after_roundtrip w) []) = (inr a, w1)
             /\ replay (pending w1) (db w1) = inr (db w').
Proof.
  unfold transaction. intros Ht.
  apply bind_inr in Ht. destruct Ht as ([] & w0 & Hr & Ht).
  assert (Hw0 : w0 = after_roundtrip w).
  { destruct (roundtrip_cases w) as [E|E]; rewrite E in Hr; congruence. }
  subst w0.
  destruct (body tx (with_pending (after_roundtrip w) [])) as [[e|a'] w1];
    [discriminate|].
  exists w1.
  destruct (roundtrip_cases w1) as [E|E]; rewrite E in Ht; [|discriminate].
  simpl in Ht.
  destruct (replay (pending w1) (db w1)) as [e|s'] eqn:Hrep; [discriminate|].
  injection Ht as -> <-. split; reflexivity.
Qed.

Section RemoveOnly.
Context `{Imports}.

Lemma cascade_inr id personalId w w' :
  UsersController.cascade prisma id personalId w = (inr tt, w') ->
  pending w' = pending w
  /\ ~ user_exists id (db w')
  /\ existsb (fun m => Prisma.eqs (UsersGroups.user m) id) (usersGroups (db w'))
     = false.
Proof.
  unfold UsersController.cascade. intros Hc.
  apply bind_inr in Hc. destruct Hc as ([] & w1 & H1 & Hc).
  apply bind_inr in Hc. destruct Hc as ([] & w2 & H2 & Hc).
  apply execute_inr in H1. destruct H1 as (s1 & _ & _ & Hp1).
  apply execute_inr in Hc. destruct Hc as (s3 & Hdel & Hdb3 & Hp3).
  assert (Hp2 : pending w2 = pending w1).
  { destruct (negb (String.eqb personalId "")); [|injection H2 as <-; reflexivity].
    apply bind_inr in H2. destruct H2 as ([] & w12 & Ha & Hb).
    apply execute_inr in Ha, Hb.
    destruct Ha as (? & _ & _ & Ha), Hb as (? & _ & _ & Hb). congruence. }
  split; [congruence|].
  unfold Prisma.users_delete in Hdel.
  destruct (Prisma.users_findUnique id (db w2)); [|discriminate].
  destruct (existsb _ (usersGroups (db w2))) eqn:Hm; [discriminate|].
  injection Hdel as <-. rewrite Hdb3. simpl. split; [|exact Hm].
  unfold user_exists. simpl.
  rewrite (existsb_filter_negb (fun u => Prisma.eqs (Users.id u) id)).
  discriminate.
Qed.

(** X20.  [remove] answers 200 only when the user is gone.  Whatever the
    store does during the call, an answer 200 means that the token
    carried the admin flag, that the id is not "0" and named a stored
    user, and that in the database the call leaves the user is not stored
    and is a member of nothing. *)
Theorem remove_answers_200_only_when_gone (req : Request) (w : World) (payload : ResponseBody) (w' : World) :
  UsersController.remove req w = (Send 200 payload, w') ->
  (exists j, Request.jwt req = Some j /\ Jwt.admin j = true)
  /\ Request.params_id req <> "0"
  /\ user_exists (Request.params_id req) (db w)
  /\ ~ user_exists (Request.params_id req) (db w')
  /\ (forall group, member_of (db w') (Request.params_id req) group = false).
Proof.
  unfold UsersController.remove, try_next, Auth.isAdmin. cbv zeta.
  destruct (Request.jwt req) as [j|]; [|discriminate].
  rewrite bind_ret. destruct (Jwt.admin j) eqn:Ha; [|discriminate].
  change (negb true) with false. cbv iota.
  destruct (query_cases (Prisma.users_findUnique (Request.params_id req)) w)
    as [E|E];
    [rewrite (bind_ok _ _ _ _ _ E) | rewrite (bind_err _ _ _ _ _ E); discriminate].
  destruct (Prisma.users_findUnique (Request.params_id req) (db w))
    as [u|] eqn:Hfind; [|discriminate].
  destruct (String.eqb_spec (Request.params_id req) "0") as [Hid|Hid];
    [discriminate|].
  match goal with
  | |- context [ bind (query prisma ?f) _ ?w1 ] =>
      destruct (query_cases f w1) as [E1|E1];
        [rewrite (bind_ok _ _ _ _ _ E1)
        | rewrite (bind_err _ _ _ _ _ E1); discriminate]
  end.
  match goal with
  | |- context [ bind (transaction ?b) ?k ?w2 ] =>
      destruct (transaction b w2) as [[e|[]] w3] eqn:Ht;
        [rewrite (bind_err _ _ _ _ _ Ht); discriminate
        | rewrite (bind_ok _ _ _ _ _ Ht)]
  end.
  intros [= _ <-]. simpl.
  apply transaction_inr in Ht. destruct Ht as (w1 & Hc & Hrep).
  apply cascade_inr in Hc. destruct Hc as (Hp & Hgone & Hmem).
  simpl in Hp. rewrite Hp in Hrep. simpl in Hrep. injection Hrep as Hrep.
  rewrite <- Hrep.
  split; [exists j; split; [reflexivity | exact Ha]|].
  split; [exact Hid|].
  split; [apply user_exists_find; rewrite Hfind; discriminate|].
  split; [exact Hgone|].
  intros group. unfold member_of.
  induction (usersGroups (db w1)) as [|m l IH]; [reflexivity|].
  simpl in *. apply orb_false_elim in Hmem. destruct Hmem as [Hm Hl].
  rewrite Hm, andb_false_r. exact (IH Hl).
Qed.

End RemoveOnly.

(** X20 on the removal of bob by the admin. *)
Lemma remove_answers_200_only_when_gone_witness :
  ~ user_exists "bob"
      (db (snd (UsersController.remove (Demo.request "0" true "bob" ∅)
                  (Demo.world Demo.store [])))).
Proof.
  refine (proj1 (proj2 (proj2 (proj2
    (remove_answers_200_only_when_gone (Demo.request "0" true "bob" ∅)
       (Demo.world Demo.store []) (R_ok (Value (JStr "Done")))
       (snd (UsersController.remove (Demo.request "0" true "bob" ∅)
               (Demo.world Demo.store []))) _))))).
  vm_compute. reflexivity.
Defined.

(* ===================================================================== *)
(** * Further properties: refusals and failures *)
(* ===================================================================== *)

Section Refusals.
Context `{Imports} `{Externals}.

(** X21.  [update] refuses, for an admin, a body whose [authmethod] is a
    string that contains neither "local" nor "ldap": the answer is 400
    "Bad request" and the world is untouched.  (The pattern is not
    anchored: containing one of the two words is what is asked for.) *)
Theorem update_refuses_an_unknown_authmethod (req : Request) (w : World) (j : Jwt.Payload) (s : string) :
  Request.jwt req = Some j ->
  Jwt.admin j = true ->
  Request.body req !! "authmethod" = Some (JStr s) ->
  includes s "local" = false ->
  includes s "ldap" = false ->
  UsersController.update req w = (Send 400 (R_ko "Bad request"), w).
Proof.
  intros Hj Ha Hbody Hlocal Hldap.
  unfold UsersController.update, try_next, Auth.isAdmin.
  rewrite Hj, bind_ret, Ha. change (negb true) with false. cbv iota.
  assert (Hv : JsonSchema.valid (Request.body req) UsersController.updateSchema
               = false).
  { unfold JsonSchema.valid. cbn -[includes]. rewrite Hbody.
    cbn -[includes]. rewrite Hlocal, Hldap. cbn.
    rewrite !andb_false_r. reflexivity. }
  rewrite Hv. reflexivity.
Qed.

(** X22.  An id that names no stored user, with the store answering:
    [get] answers 404 "User not found", and so do [update] (for an admin
    with a body that passes the schema) and [remove] (for an admin); none
    of them writes. *)
Theorem unknown_user_is_404 (req : Request) (w : World) :
  up w ->
  Prisma.users_findUnique (Request.params_id req) (db w) = None ->
  UsersController.get req w
  = (Send 404 (R_ko "User not found"), after_roundtrip w)
  /\ (forall j,
        Request.jwt req = Some j -> Jwt.admin j = true ->
        UsersController.remove req w
        = (Send 404 (R_ko "User not found"), after_roundtrip w)
        /\ (JsonSchema.valid (Request.body req) UsersController.updateSchema = true ->
            UsersController.update req w
            = (Send 404 (R_ko "User not found"), after_roundtrip w))).
Proof.
  intros Hup Hfind. split.
  - unfold UsersController.get, try_next.
    rewrite (bind_ok _ _ _ _ _ (query_up _ w Hup)), Hfind. reflexivity.
  - intros j Hj Ha. split.
    + unfold UsersController.remove, try_next, Auth.isAdmin.
      rewrite Hj, bind_ret, Ha. change (negb true) with false. cbv iota zeta.
      rewrite (bind_ok _ _ _ _ _ (query_up _ w Hup)), Hfind. reflexivity.
    + intros Hv. unfold UsersController.update, try_next, Auth.isAdmin.
      rewrite Hj, bind_ret, Ha, Hv. change (negb true) with false.
      cbv iota zeta.
      rewrite (bind_ok _ _ _ _ _ (query_up _ w Hup)), Hfind. reflexivity.
Qed.

(** X23.  When the store is down at the first round trip of a call, the
    reading handlers send no response: [get], [getGroups], and for an
    admin [list] and [stats], end in [next(err)] with the error of the
    store, and the database is as it was. *)
Theorem store_outage_goes_to_next (req : Request) (w : World) (search : option string) :
  head (outages w) = Some true ->
  UsersController.get req w = (NextErr StoreUnavailable, after_roundtrip w)
  /\ UsersQueries.getGroups req w = (NextErr StoreUnavailable, after_roundtrip w)
  /\ (forall j,
        Request.jwt req = Some j -> Jwt.admin j = true ->
        UsersQueries.list (JStr <$> search) req w
        = (NextErr StoreUnavailable, after_roundtrip w)
        /\ UtilController.stats req w
           = (NextErr StoreUnavailable, after_roundtrip w)).
Proof.
  intros Hdown.
  assert (Hq : forall A (f : Store -> A),
             query prisma f w = (inl StoreUnavailable, after_roundtrip w)).
  { intros A f. unfold query, bind, roundtrip. rewrite Hdown. reflexivity. }
  split; [|split].
  - unfold UsersController.get, try_next.
    rewrite (bind_err _ _ _ _ _ (Hq _ _)). reflexivity.
  - unfold UsersQueries.getGroups, try_next.
    rewrite (bind_err _ _ _ _ _ (Hq _ _)). reflexivity.
  - intros j Hj Ha. split.
    + unfold UsersQueries.list, try_next, Auth.isAdmin.
      rewrite Hj, bind_ret, Ha. change (negb true) with false. cbv iota.
      assert (Hs : UsersQueries.search_users (JStr <$> search) w
                   = (inl StoreUnavailable, after_roundtrip w)).
      { unfold UsersQueries.search_users.
        destruct search as [s|]; simpl; [|apply Hq].
        destruct (String.eqb s ""); simpl; apply Hq. }
      rewrite (bind_err _ _ _ _ _ Hs). reflexivity.
    + unfold UtilController.stats, try_next, Auth.isAdmin.
      rewrite Hj, bind_ret, Ha. change (negb true) with false. cbv iota.
      rewrite (bind_err _ _ _ _ _ (Hq _ _)). reflexivity.
Qed.

End Refusals.

Section LoginTrail.
Context `{Imports}.

(** X24.  Every attempt at [personalFolderLogin] that reaches a verdict
    leaves one audit entry, and the database untouched.  For a body with
    a password, a request of user [id] and the store answering: when no
    such user is stored the answer is 401 "Bad user or wrong password"
    and the entry is "personalloginnotfound", made out to
    [req.body.username] (a property the schema does not declare); when
    the password is rejected the entry is "personalloginfail", made out
    to null; when it is accepted and the signing key is configured, the
    entry is "personallogin", made out to the user.  When
    [Crypt.checkPassword] throws, the error goes to [next] and nothing is
    logged. *)
Theorem personalFolderLogin_audit_trail (req : Request) (w : World) (id password : string) :
  up w ->
  Request.user req = Some id ->
  Request.body req !! "password" = Some (JStr password) ->
  db (snd (UsersController.personalFolderLogin req w)) = db w
  /\ match Prisma.users_findUnique id (db w) with
     | None =>
         fst (UsersController.personalFolderLogin req w)
         = Send 401 (R_ko "Bad user or wrong password")
         /\ audit (snd (UsersController.personalFolderLogin req w))
            = (audit w ++ [ {| ActionLog.user := Request.body req !! "username";
                               ActionLog.action := "personalloginnotfound";
                               ActionLog.itemtype := "user";
                               ActionLog.itemid := Some (JStr id) |} ])%list
     | Some u =>
         match Crypt_checkPassword password (Users.personalsecret u) with
         | inl e =>
             fst (UsersController.personalFolderLogin req w) = NextErr e
             /\ audit (snd (UsersController.personalFolderLogin req w)) = audit w
         | inr false =>
             fst (UsersController.personalFolderLogin req w)
             = Send 401 (R_ko "Wrong password")
             /\ audit (snd (UsersController.personalFolderLogin req w))
                = (audit w ++ [ {| ActionLog.user := Some JNull;
                                   ActionLog.action := "personalloginfail";
                                   ActionLog.itemtype := "user";
                                   ActionLog.itemid := Some (JStr id) |} ])%list
         | inr true =>
             forall k, Jwt.secret (jwt_key Config_get) = Some k ->
             fst (UsersController.personalFolderLogin req w)
             = Send 200 (R_ok (Token (issued id true (after_roundtrip w) k)))
             /\ audit (snd (UsersController.personalFolderLogin req w))
                = (audit w ++ [ {| ActionLog.user := Some (JStr id);
                                   ActionLog.action := "personallogin";
                                   ActionLog.itemtype := "user";
                                   ActionLog.itemid := Some (JStr id) |} ])%list
         end
     end.
Proof.
  intros Hup Huser Hbody.
  assert (Hvalid : JsonSchema.valid (Request.body req) UsersController.personalLogin = true)
    by (unfold JsonSchema.valid; simpl; rewrite Hbody; reflexivity).
  split.
  { unfold UsersController.personalFolderLogin.
    apply (keeps_try_next (fun s _ => s = db w)); [|reflexivity].
    repeat keeps_step. }
  unfold UsersController.personalFolderLogin, try_next.
  rewrite Hvalid. change (negb true) with false. cbv iota.
  rewrite Huser. unfold UsersController.findUser.
  rewrite (bind_ok _ _ _ _ _ (query_up _ w Hup)).
  destruct (Prisma.users_findUnique id (db w)) as [u|] eqn:Hfind.
  - rewrite Hbody. unfold UsersController.checkPassword. rewrite bind_lift.
    destruct (Crypt_checkPassword password (Users.personalsecret u)) as [e|[|]].
    + split; reflexivity.
    + intros k Hk. change (negb true) with false. cbv iota.
      rewrite (bind_ok _ _ _ _ _
                 (createToken_up (Users.id u) true (after_roundtrip w) k
                    (up_after_roundtrip w Hup) Hk)).
      rewrite (users_findUnique_id _ _ _ Hfind). split; reflexivity.
    + split; reflexivity.
  - split; reflexivity.
Qed.

End LoginTrail.

(** X25.  The exit code of the start-up script tells which key is
    missing, the master key first: the script exits with 1 exactly when
    the master key is not configured (whether or not the signing key is),
    with 2 exactly when the master key is configured and the signing key
    is not; a key that is the empty string counts as not configured.  In
    both cases the last thing the script does before exiting is to print
    an error, and when it goes on to serve, the log directory is created
    exactly when it does not exist. *)
Theorem startup_exit_code_names_the_key (cfg : Config) (version : string) (log_dir_exists : bool) :
  (snd (Main.main cfg version log_dir_exists) = Main.process_exit 1
   <-> (master_key cfg = None \/ master_key cfg = Some ""))
  /\ (snd (Main.main cfg version log_dir_exists) = Main.process_exit 2
      <-> (Main.configured (master_key cfg) = true
           /\ (jwt_key cfg = None \/ jwt_key cfg = Some "")))
  /\ (forall code,
        snd (Main.main cfg version log_dir_exists) = Main.process_exit code ->
        exists msg,
          last (fst (Main.main cfg version log_dir_exists))
          = Some (Main.console_error msg))
  /\ (forall port,
        snd (Main.main cfg version log_dir_exists) = Main.serving port ->
        (In (Main.FS_mkdirSync (log_dir cfg))
            (fst (Main.main cfg version log_dir_exists))
         <-> log_dir_exists = false)).
Proof.
  assert (Hconf : forall key, Main.configured key = false
                              <-> (key = None \/ key = Some "")).
  { intros [k|]; simpl.
    - destruct (String.eqb_spec k "") as [->|Hk]; simpl; split; auto.
      + discriminate.
      + intros [?|[= ?]]; [discriminate|contradiction].
    - split; auto. }
  unfold Main.main.
  destruct (Main.configured (master_key cfg)) eqn:Hm;
    destruct (Main.configured (jwt_key cfg)) eqn:Hj; simpl.
  all: pose proof (Hconf (master_key cfg)) as Hcm;
       pose proof (Hconf (jwt_key cfg)) as Hcj;
       rewrite Hm in Hcm; rewrite Hj in Hcj.
  all: repeat split; try discriminate; try tauto; try (intros; tauto).
  all: try (intros; destruct Hcm as [Hcm _]; try destruct Hcj as [Hcj _];
            solve [intuition discriminate | intuition congruence]).
  all: try (intros; eexists; reflexivity).
  all: destruct log_dir_exists; simpl; intros; intuition discriminate.
Qed.

(** X21 on a request to make bob a "kerberos" user. *)
Lemma update_refuses_an_unknown_authmethod_witness :
  UsersController.update (H := Demo.imports)
    (Demo.request "0" true "bob" (<["authmethod" := JStr "kerberos"]> ∅))
    (Demo.world Demo.store [])
  = (Send 400 (R_ko "Bad request"), Demo.world Demo.store []).
Proof.
  apply (update_refuses_an_unknown_authmethod (H := Demo.imports)
           (Demo.request "0" true "bob" (<["authmethod" := JStr "kerberos"]> ∅))
           (Demo.world Demo.store [])
           {| Jwt.user := "0"; Jwt.admin := true;
              Jwt.personalfolder := false; Jwt.iat := 5; Jwt.exp := 3605 |}
           "kerberos"); reflexivity.
Defined.

(** X22 on the id "zed", which names nobody. *)
Lemma unknown_user_is_404_witness :
  UsersController.get (Demo.request "0" true "zed" ∅) (Demo.world Demo.store [])
  = (Send 404 (R_ko "User not found"),
     after_roundtrip (Demo.world Demo.store [])).
Proof.
  apply (proj1 (unknown_user_is_404 (H := Demo.imports)
                  (Demo.request "0" true "zed" ∅) (Demo.world Demo.store [])
                  (List.Forall_nil _) eq_refl)).
Defined.

(** X23 on a store that is down. *)
Lemma store_outage_goes_to_next_witness :
  UsersController.get (Demo.request "0" true "bob" ∅)
    (Demo.world Demo.store [true])
  = (NextErr StoreUnavailable, after_roundtrip (Demo.world Demo.store [true])).
Proof.
  apply (proj1 (store_outage_goes_to_next (H0 := Sample.externals)
                  (Demo.request "0" true "bob" ∅)
                  (Demo.world Demo.store [true]) None eq_refl)).
Defined.

(** X24 on bob, who tries "nope". *)
Lemma personalFolderLogin_audit_trail_witness :
  fst (UsersController.personalFolderLogin (H := Demo.imports)
         (Sample.login_with "nope") (Demo.world Demo.store []))
  = Send 401 (R_ko "Wrong password")
  /\ audit (snd (UsersController.personalFolderLogin (H := Demo.imports)
                   (Sample.login_with "nope") (Demo.world Demo.store [])))
     = [ {| ActionLog.user := Some JNull;
            ActionLog.action := "personalloginfail";
            ActionLog.itemtype := "user";
            ActionLog.itemid := Some (JStr "bob") |} ].
Proof.
  exact (proj2 (personalFolderLogin_audit_trail (H := Demo.imports)
                  (Sample.login_with "nope") (Demo.world Demo.store [])
                  "bob" "nope" (List.Forall_nil _) eq_refl eq_refl)).
Defined.

(** X25 on a configuration whose master key is the empty string. *)
Lemma startup_exit_code_names_the_key_witness :
  snd (Main.main {| master_key := Some ""; jwt_key := Some "signing";
                    jwt_duration := 3600; listen_port := 3000;
                    log_dir := "logs" |} "1.0.0" true)
  = Main.process_exit 1.
Proof.
  apply (proj1 (startup_exit_code_names_the_key _ "1.0.0" true)).
  right. reflexivity.
Defined.

(* ===================================================================== *)
(** * Further properties: invariants of the tables *)
(* ===================================================================== *)

Lemma memberships_sound_users s t :
  (forall a, user_exists a s -> user_exists a (with_users s t)) ->
  memberships_sound s -> memberships_sound (with_users s t).
Proof.
  unfold memberships_sound. simpl. intros Hmono Hs.
  induction Hs as [|m l Hm _ IH]; constructor; [apply Hmono; exact Hm | exact IH].
Qed.

Lemma users_create_sound now data s s' :
  memberships_sound s -> Prisma.users_create now data s = inr s' ->
  memberships_sound s'.
Proof.
  intros Hs Hc. pose proof Hc as Hc'. apply users_create_inr in Hc'.
  destruct Hc' as (u & -> & _).
  apply memberships_sound_users; [|exact Hs].
  intros a Ha. unfold user_exists in *. simpl. rewrite existsb_app, Ha.
  reflexivity.
Qed.

Lemma folders_create_sound now data s s' :
  memberships_sound s -> Prisma.folders_create now data s = inr s' ->
  memberships_sound s'.
Proof.
  intros Hs Hc. apply folders_create_inr in Hc.
  destruct Hc as (f & -> & _). exact Hs.
Qed.

Lemma usersGroups_create_sound now data s s' :
  memberships_sound s -> Prisma.usersGroups_create now data s = inr s' ->
  memberships_sound s'.
Proof.
  unfold Prisma.usersGroups_create. intros Hs. repeat exc_step.
  destruct (existsb _ (usersGroups s)); [discriminate|].
  destruct (existsb _ (users s)) eqn:Hu; simpl; [|discriminate].
  destruct (existsb _ (groups s)); simpl; [|discriminate].
  intros [= <-]. unfold memberships_sound. simpl.
  apply Forall_app. split; [exact Hs|].
  constructor; [exact Hu | constructor].
Qed.

Lemma usersGroups_deleteMany_sound user s s' :
  memberships_sound s -> Prisma.usersGroups_deleteMany user s = inr s' ->
  memberships_sound s'.
Proof.
  intros Hs [= <-]. unfold memberships_sound in *. simpl.
  induction Hs as [|m l Hm _ IH]; simpl; [constructor|].
  destruct (negb _); [constructor; assumption | exact IH].
Qed.

Lemma items_deleteMany_sound folder s s' :
  memberships_sound s -> Prisma.items_deleteMany folder s = inr s' ->
  memberships_sound s'.
Proof. intros Hs [= <-]. exact Hs. Qed.

Lemma folders_delete_sound id s s' :
  memberships_sound s -> Prisma.folders_delete id s = inr s' ->
  memberships_sound s'.
Proof.
  unfold Prisma.folders_delete. intros Hs.
  destruct (negb _); [discriminate|].
  destruct (_ || _); [discriminate|].
  intros [= <-]. exact Hs.
Qed.

Lemma users_update_sound now id data s s' :
  memberships_sound s -> Prisma.users_update now id data s = inr s' ->
  memberships_sound s'.
Proof.
  intros Hs Hu.
  assert (Hmono : forall a, user_exists a s -> user_exists a s')
    by (intros a Ha; exact (users_update_keeps a now id data s s' Ha Hu)).
  unfold Prisma.users_update in Hu.
  destruct (Prisma.users_findUnique id s); [|discriminate].
  destruct (Prisma.users_apply now data r) as [e|u']; [discriminate|].
  injection Hu as <-.
  apply memberships_sound_users; [exact Hmono | exact Hs].
Qed.

Lemma users_delete_sound id s s' :
  memberships_sound s -> Prisma.users_delete id s = inr s' ->
  memberships_sound s'.
Proof.
  unfold Prisma.users_delete. intros Hs.
  destruct (Prisma.users_findUnique id s); [|discriminate].
  destruct (existsb _ (usersGroups s)) eqn:Hm; [discriminate|].
  intros [= <-]. unfold memberships_sound in *. simpl.
  induction Hs as [|m l Hu _ IH]; [constructor|].
  simpl in Hm. apply orb_false_elim in Hm. destruct Hm as [Hm Hl].
  constructor; [|exact (IH Hl)].
  unfold user_exists in *. simpl.
  rewrite existsb_filter_other; [exact Hu|].
  intros ->. unfold Prisma.eqs in Hm. rewrite String.eqb_refl in Hm.
  discriminate.
Qed.

Ltac write_sound :=
  first [ solve [eapply users_create_sound; eauto]
        | solve [eapply folders_create_sound; eauto]
        | solve [eapply usersGroups_create_sound; eauto]
        | solve [eapply usersGroups_deleteMany_sound; eauto]
        | solve [eapply items_deleteMany_sound; eauto]
        | solve [eapply folders_delete_sound; eauto]
        | solve [eapply users_update_sound; eauto]
        | solve [eapply users_delete_sound; eauto] ].

Lemma users_update_same_rows now id data s0 s s' :
  same_rows s0 s -> Prisma.users_update now id data s = inr s' ->
  same_rows s0 s'.
Proof.
  unfold Prisma.users_update. intros (Hu & Hrest).
  destruct (Prisma.users_findUnique id s) as [u|] eqn:Hf; [|discriminate].
  destruct (Prisma.users_apply now data u) as [e|u'] eqn:Ha; [discriminate|].
  intros [= <-]. split; [|exact Hrest]. simpl. rewrite <- Hu.
  rewrite map_map. apply map_ext. intros r. unfold Prisma.eqs.
  destruct (String.eqb_spec (Users.id r) id) as [Hr|Hr]; [|reflexivity].
  rewrite (users_apply_id _ _ _ _ Ha), (users_findUnique_id _ _ _ Hf).
  symmetry. exact Hr.
Qed.

Section TableInvariants.
Context `{Imports}.

Lemma handler_keeps_memberships_sound o req w :
  memberships_sound (db w) ->
  memberships_sound (db (snd (handler o req w))).
Proof.
  intros Hw.
  destruct o; cbn [handler];
    unfold UsersController.get, UsersController.create,
      UsersController.update, UsersController.remove,
      UsersController.setPersonalSecret, UsersController.personalFolderLogin;
    (apply (keeps_try_next (fun s _ => memberships_sound s)); [|exact Hw]).
  - repeat keeps_step.
  - repeat keeps_step; intros ? ? ? ? ? ?; write_sound.
  - repeat keeps_step; intros ? ? ? ? ? ?; write_sound.
  - cbv zeta.
    keeps_step; [keeps_step|]. keeps_step; [keeps_step|].
    keeps_step; [keeps_step|]. keeps_step; [|keeps_step].
    keeps_step; [keeps_step|]. keeps_step; [keeps_step|].
    keeps_step; [|repeat keeps_step].
    apply keeps_transaction. unfold UsersController.cascade.
    repeat keeps_step;
      intros ? ? ? [? ?] ?; (split; [write_sound | assumption]).
  - repeat keeps_step; intros ? ? ? ? ? ?; write_sound.
  - repeat keeps_step.
Qed.

(** X26.  Memberships never dangle.  If every membership names a stored
    user, this is still so after any sequence of calls of the users
    controller, at any times and through any outages of the store:
    [create] writes the user before the membership, and [remove] deletes
    the memberships before the user, so that a call cut short between its
    writes leaves at worst a user without memberships. *)
Theorem memberships_always_name_stored_users (calls : list Call) (w : World) :
  memberships_sound (db w) ->
  memberships_sound (db (run calls w)).
Proof.
  revert w. induction calls as [|c calls IH]; intros w Hw; [exact Hw|].
  simpl. apply IH. apply handler_keeps_memberships_sound. exact Hw.
Qed.

(** X27.  [get], [update], [setPersonalSecret] and [personalFolderLogin]
    neither add nor delete a row: after any of them, through any
    outages, the users table has the same ids in the same order, and the
    folders, groups, memberships, permissions and items are unchanged.
    Only columns of user rows can differ. *)
Theorem only_create_and_remove_change_the_rows (o : Operation) (req : Request) (w : World) :
  o <> op_create ->
  o <> op_remove ->
  same_rows (db w) (db (snd (handler o req w))).
Proof.
  intros Hc Hr.
  assert (Hw : same_rows (db w) (db w)) by (repeat split).
  destruct o; try contradiction; cbn [handler];
    unfold UsersController.get, UsersController.update,
      UsersController.setPersonalSecret, UsersController.personalFolderLogin;
    (apply (keeps_try_next (fun s _ => same_rows (db w) s)); [|exact Hw]);
    repeat keeps_step;
    intros ? ? ? ? ? ?; eapply users_update_same_rows; eauto.
Qed.

End TableInvariants.

(** X26 on the seed store, through a creation cut short by an outage at
    its third write and a removal cut short before its last statement. *)
Lemma memberships_always_name_stored_users_witness :
  memberships_sound
    (db (run (H := Demo.imports)
           [ {| operation := op_create;
                request := Demo.request "0" true "" Demo.alice;
                time := 6000; faults := [false; false; true] |};
             {| operation := op_remove;
                request := Demo.request "0" true "bob" ∅;
                time := 7000; faults := [false; false; false; false; true] |} ]
           (Demo.world Demo.store []))).
Proof.
  apply (memberships_always_name_stored_users (H := Demo.imports)).
  repeat constructor.
Defined.

(** X27 on an update of bob. *)
Lemma only_create_and_remove_change_the_rows_witness :
  same_rows Demo.store
    (db (snd (UsersController.update (H := Demo.imports)
                (Demo.request "0" true "bob" Demo.rename)
                (Demo.world Demo.store [])))).
Proof.
  apply (only_create_and_remove_change_the_rows (H := Demo.imports) op_update
           (Demo.request "0" true "bob" Demo.rename)
           (Demo.world Demo.store [])); discriminate.
Defined.
